(** * The rucio copytool of the pilot: stage-in, stage-out and the
      classification of transfer errors

    A shallow embedding of [pilot/copytool/rucio.py].  Python strings are
    byte strings ([string]); values that may be [None] are [option]s;
    integers are [Z]; dictionaries with string keys are [gmap string _].
    The collaborators the module imports ([execute],
    [verify_catalog_checksum], [os.path.exists], [json.load], the method
    [FileSpec.is_directaccess]) are fields of an environment record and the
    state of the outside world is threaded through the calls. *)

From Stdlib Require Import ZArith Lia Bool Ascii String.
From stdpp Require Import base option list strings gmap.

Local Open Scope string_scope.
Local Open Scope Z_scope.

(** ** Python strings *)

Module Py.

(** [s.startswith(p)], returning what follows the prefix. *)
Fixpoint strip_prefix (p s : string) : option string :=
  match p, s with
  | EmptyString, _ => Some s
  | String a p', String b s' =>
      if Ascii.eqb a b then strip_prefix p' s' else None
  | String _ _, EmptyString => None
  end.

(** [p in s] on strings: [p] occurs in [s] as a substring. *)
Fixpoint contains (p s : string) : bool :=
  match strip_prefix p s with
  | Some _ => true
  | None =>
      match s with
      | EmptyString => false
      | String _ s' => contains p s'
      end
  end.

Definition newline : ascii := "010"%char.

(** [s.split('\n')]: never empty, the empty string gives one empty line. *)
Fixpoint split_lines (s : string) : list string :=
  match s with
  | EmptyString => [EmptyString]
  | String c s' =>
      if Ascii.eqb c newline then EmptyString :: split_lines s'
      else match split_lines s' with
           | l :: ls => String c l :: ls
           | [] => [String c EmptyString]
           end
  end.

(** The class [\s] of a bytes pattern, and of every pattern of Python 2:
    space, \t, \n, \v, \f, \r. *)
Definition is_space_bytes (c : ascii) : bool :=
  Ascii.eqb c " "%char || Ascii.eqb c "009"%char || Ascii.eqb c "010"%char
  || Ascii.eqb c "011"%char || Ascii.eqb c "012"%char
  || Ascii.eqb c "013"%char.

(** A greedy [\s*] of a bytes pattern. *)
Fixpoint skip_spaces_bytes (s : string) : string :=
  match s with
  | String c s' => if is_space_bytes c then skip_spaces_bytes s' else s
  | EmptyString => EmptyString
  end.

(** The class [\s] of a str pattern of Python 3 is the white space of
    Unicode: U+0009 to U+000D, U+001C to U+0020, U+0085, U+00A0, U+1680,
    U+2000 to U+200A, U+2028, U+2029, U+202F, U+205F and U+3000.  The
    first ten are one byte in UTF-8, the next two are 0xC2 and one byte,
    the others three bytes; [three_byte_space] tells the last ones. *)
Definition one_byte_space (n : N) : bool :=
  ((9 <=? n) && (n <=? 13) || (28 <=? n) && (n <=? 32))%N.

Definition two_byte_space (n m : N) : bool :=
  ((n =? 0xC2) && ((m =? 0x85) || (m =? 0xA0)))%N.

Definition three_byte_space (n m k : N) : bool :=
  ((n =? 0xE1) && (m =? 0x9A) && (k =? 0x80)
   || (n =? 0xE2) && (m =? 0x80)
      && ((0x80 <=? k) && (k <=? 0x8A)
          || (k =? 0xA8) || (k =? 0xA9) || (k =? 0xAF))
   || (n =? 0xE2) && (m =? 0x81) && (k =? 0x9F)
   || (n =? 0xE3) && (m =? 0x80) && (k =? 0x80))%N.

(** On a str given by its UTF-8 encoding: what follows one white space
    character at the start of [s], if [s] starts with one. *)
Definition blank_at_str (s : string) : option string :=
  match s with
  | String c r =>
      if one_byte_space (N_of_ascii c) then Some r
      else
        match r with
        | String d r1 =>
            if two_byte_space (N_of_ascii c) (N_of_ascii d) then Some r1
            else
              match r1 with
              | String e r2 =>
                  if three_byte_space (N_of_ascii c) (N_of_ascii d)
                                      (N_of_ascii e)
                  then Some r2 else None
              | EmptyString => None
              end
        | EmptyString => None
        end
  | EmptyString => None
  end.

Fixpoint skip_blank_chars (fuel : nat) (s : string) : string :=
  match fuel with
  | O => s
  | Datatypes.S fuel' =>
      match blank_at_str s with
      | Some r => skip_blank_chars fuel' r
      | None => s
      end
  end.

(** A greedy [\s*] of a str pattern of Python 3, on the UTF-8 encoding
    of the str.  A character takes at least one byte, so the length of
    [s] is fuel enough. *)
Definition skip_spaces_str (s : string) : string :=
  skip_blank_chars (String.length s) s.

(** A greedy [.*]: the dot matches every character but the newline. *)
Fixpoint dot_star (s : string) : string :=
  match s with
  | String c s' =>
      if Ascii.eqb c newline then EmptyString else String c (dot_star s')
  | EmptyString => EmptyString
  end.

(** [" ".join(l)]. *)
Fixpoint join_spaces (l : list string) : string :=
  match l with
  | [] => ""
  | [x] => x
  | x :: l' => x ++ " " ++ join_spaces l'
  end.

(** Truth value of a string that may be [None]. *)
Definition truthy (s : option string) : bool :=
  match s with
  | Some (String _ _) => true
  | _ => false
  end.

(** ['%s' % s]. *)
Definition fmt (s : option string) : string :=
  match s with
  | Some x => x
  | None => "None"
  end.

Definition fmt_bool (b : bool) : string := if b then "True" else "False".

Fixpoint ends_with_slash (s : string) : bool :=
  match s with
  | EmptyString => false
  | String c EmptyString => Ascii.eqb c "/"%char
  | String _ s' => ends_with_slash s'
  end.

(** [os.path.join(a, b)] of posixpath. *)
Definition path_join (a b : string) : string :=
  match b with
  | String "/"%char _ => b
  | _ =>
      match a with
      | EmptyString => b
      | _ => if ends_with_slash a then a ++ b else a ++ "/" ++ b
      end
  end.

End Py.

(** ** Error codes and structured errors *)

(** The constants of [pilot.common.exception.ErrorCodes] the module uses.
    Their values are not part of this module; they are taken as a
    parameter. *)
Record ErrorCodes : Type := {
  STAGEINFAILED : Z;
  STAGEOUTFAILED : Z;
  RUCIOSERVICEUNAVAILABLE : Z;
  PUTADMISMATCH : Z
}.

(** Modelled from the spec: the values of [ErrorCodes] are defined in
    [pilot.common.exception], which is not part of this module.  Status
    code 0 is success and every error code is a specific failure, so no
    constant is 0. *)
Definition codes_nonzero (ec : ErrorCodes) : Prop :=
  STAGEINFAILED ec <> 0 /\ STAGEOUTFAILED ec <> 0 /\
  RUCIOSERVICEUNAVAILABLE ec <> 0 /\ PUTADMISMATCH ec <> 0.

(** The dictionary [{'rcode', 'state', 'error'}] of
    [resolve_transfer_error]. *)
Record TransferError : Type := {
  rcode : Z;
  state : string;
  error : string
}.

(** ** File records, options, collaborators *)

(** A parsed summary file: keys [scope:lfn], entries with string fields. *)
Abbreviation SummaryJson := (gmap string (gmap string string)).

(** The fields of a [FileSpec] object the module reads or writes.  The
    tag [status] and the code [status_code] are the transfer status; the
    module writes them and reads only the code. *)
Record FileSpec : Type := {
  scope : option string;
  lfn : string;
  guid : option string;
  workdir : option string;
  replicas : list (string * string);
  ddmendpoint : string;
  turl : option string;
  surl : string;
  checksum : gmap string string;
  status : string;
  status_code : Z
}.

Definition set_status (f : FileSpec) (tag : string) : FileSpec :=
  {| scope := scope f; lfn := lfn f; guid := guid f; workdir := workdir f;
     replicas := replicas f; ddmendpoint := ddmendpoint f; turl := turl f;
     surl := surl f; checksum := checksum f; status := tag;
     status_code := status_code f |}.

Definition set_status_code (f : FileSpec) (code : Z) : FileSpec :=
  {| scope := scope f; lfn := lfn f; guid := guid f; workdir := workdir f;
     replicas := replicas f; ddmendpoint := ddmendpoint f; turl := turl f;
     surl := surl f; checksum := checksum f; status := status f;
     status_code := code |}.

Definition set_turl (f : FileSpec) (u : option string) : FileSpec :=
  {| scope := scope f; lfn := lfn f; guid := guid f; workdir := workdir f;
     replicas := replicas f; ddmendpoint := ddmendpoint f; turl := u;
     surl := surl f; checksum := checksum f; status := status f;
     status_code := status_code f |}.

(** The keyword arguments of [copy_in] and [copy_out]. *)
Record Options : Type := {
  allow_direct_access : bool;
  ignore_errors : bool;
  opt_workdir : option string;
  no_register : bool;
  opt_summary : bool
}.

(** The exception [PilotException(message, code=..., state=...)]. *)
Record PilotException : Type := {
  exc_message : string;
  exc_code : Z;
  exc_state : string
}.

Inductive Outcome : Type :=
| Returned
| Raised (e : PilotException).

(** The variable [summary] of [copy_out]: the keyword argument at first,
    the parsed summary file once one has been loaded. *)
Inductive SummaryVar : Type :=
| SummaryFlag (b : bool)
| SummaryDict (d : SummaryJson).

Definition summary_truthy (s : SummaryVar) : bool :=
  match s with
  | SummaryFlag b => b
  | SummaryDict d => bool_decide (d <> ∅)
  end.

Inductive LogLevel : Type := INFO | WARNING | ERROR.

(** What the module does to the outside, call by call, with the answers
    it gets. *)
Inductive Event : Type :=
| EvExecute (cmd : string) (rc : Z) (stdout stderr : string)
| EvLog (level : LogLevel) (msg : string)
| EvExists (path : string) (found : bool)
| EvVerify (arg : FileSpec) (path : string) (after : FileSpec)
           (st diagnostics : string)
| EvLoadJson (path : string) (d : SummaryJson).

Definition is_execute (e : Event) : bool :=
  match e with EvExecute _ _ _ _ => true | _ => false end.

Definition is_load_json (e : Event) : bool :=
  match e with EvLoadJson _ _ => true | _ => false end.

Definition is_exists (e : Event) : bool :=
  match e with EvExists _ _ => true | _ => false end.

Definition is_warning (e : Event) : bool :=
  match e with EvLog WARNING _ => true | _ => false end.

(** The collaborators, over a state [W] of the outside world.  Each of
    them returns: an exception raised inside a collaborator is outside the
    model.  [is_directaccess] is the method of the record called with
    [ensure_replica=False]; [execute] gives the exit code, the standard
    output and the standard error; [verify_catalog_checksum] gives the
    record as it leaves it, the state and the diagnostics; [json_load] is
    [open] and [json.load] on a path that exists, for a summary file of
    the documented form, a JSON object of objects with string fields (on
    another file the Python code would end in an exception that is not a
    [PilotException]).  The records of a batch are distinct objects. *)
Record Env (W : Type) : Type := {
  setenv : string -> string -> W -> W;
  is_directaccess : FileSpec -> bool;
  execute : string -> W -> Z * string * string * W;
  path_exists : string -> W -> bool;
  verify_catalog_checksum :
    FileSpec -> string -> W -> FileSpec * string * string * W;
  json_load : string -> W -> SummaryJson
}.

Arguments setenv {W}.
Arguments is_directaccess {W}.
Arguments execute {W}.
Arguments path_exists {W}.
Arguments verify_catalog_checksum {W}.
Arguments json_load {W}.

(** Modelled from the spec: [verify_catalog_checksum] is defined in
    [pilot.copytool.common], which is not part of this module.  On the
    status it is taken to keep the invariant of the record: it leaves code
    and tag as they are, or reports a mismatch with a nonzero code and the
    tag [failed]. *)
Definition verify_keeps_status {W} (env : Env W) : Prop :=
  forall f path w,
    let f' := (verify_catalog_checksum env f path w).1.1.1 in
    (status_code f' = status_code f /\ status f' = status f) \/
    (status_code f' <> 0 /\ status f' = "failed").

(** ** The loop over the records *)

(** One turn of a loop body: the record as it leaves the turn, what was
    done to the outside, the state carried to the next turn, and the
    exception if the turn raised. *)
Record Turn (S : Type) : Type := {
  turn_file : FileSpec;
  turn_events : list Event;
  turn_state : S;
  turn_raise : option PilotException
}.

Arguments turn_file {S}.
Arguments turn_events {S}.
Arguments turn_state {S}.
Arguments turn_raise {S}.

(** A call: the records as they are when the call ends (they are updated
    in place, so also when it raises), the events record by record for the
    records the loop reached, the final state and how the call ended. *)
Record Run (S : Type) : Type := {
  run_files : list FileSpec;
  run_trace : list (list Event);
  run_state : S;
  run_outcome : Outcome
}.

Arguments run_files {S}.
Arguments run_trace {S}.
Arguments run_state {S}.
Arguments run_outcome {S}.

(** ** The interpreter

    A text is its bytes: a byte string of Python 2, or a str of Python 3
    by its UTF-8 encoding.  Splitting at newlines, looking for an ASCII
    word and the dot of a pattern give the same on the bytes as on the
    characters they encode.  The class [\s] does not: it depends on the
    interpreter and on the kind of the pattern.  The greedy [\s*] of
    [re] is therefore a parameter of the development, [skip_blanks]; the
    two functions of [Py] above are instances, and what the proofs need
    of it, [blanks_lawful], holds of both. *)
Class Blanks : Type := skip_blanks : string -> string.

(** The visible characters of ASCII; none is in a class [\s]. *)
Definition is_graphic (c : ascii) : bool :=
  ((33 <=? N_of_ascii c) && (N_of_ascii c <=? 126))%N.

(** What a greedy [\s*] does: it removes a prefix, nothing is left to
    remove after it, a visible character of ASCII stops it and a space
    does not. *)
Definition blanks_lawful (b : Blanks) : Prop :=
  (forall s : string, exists pre : string, s = pre ++ @skip_blanks b s) /\
  (forall s : string,
     @skip_blanks b (@skip_blanks b s) = @skip_blanks b s) /\
  (forall (c : ascii) (s : string),
     is_graphic c = true -> @skip_blanks b (String c s) = String c s) /\
  (forall s : string,
     @skip_blanks b (String " "%char s) = @skip_blanks b s).

Definition bytes_blanks : Blanks := Py.skip_spaces_bytes.

Definition str_blanks : Blanks := Py.skip_spaces_str.

Section Interpreter.

Context {blanks : Blanks}.
Hypothesis blanks_ok : blanks_lawful blanks.

(** ** The pattern and the classifier *)

Definition marker : string := "service_unavailable".

(** The pattern of [re.search], piece by piece: the word Details, a greedy
    run of [\s], a colon, a greedy run of [\s], and the group [error], a
    greedy run of the dot.  Here it is tried at the start of [s] only; the
    result is the group [error]. *)
Definition match_details_here (s : string) : option string :=
  match Py.strip_prefix "Details" s with
  | Some r =>
      match skip_blanks r with
      | String ":"%char r' => Some (Py.dot_star (skip_blanks r'))
      | _ => None
      end
  | None => None
  end.

(** [re.search]: the leftmost position where the pattern matches. *)
Fixpoint search_details (s : string) : option string :=
  match match_details_here s with
  | Some g => Some g
  | None =>
      match s with
      | EmptyString => None
      | String _ s' => search_details s'
      end
  end.

Section Classifier.

Variable ec : ErrorCodes.

Definition default_error (output : string) (is_stagein : bool)
  : TransferError :=
  {| rcode := if is_stagein then STAGEINFAILED ec else STAGEOUTFAILED ec;
     state := "COPY_ERROR";
     error := "Copy operation failed [is_stagein=" ++
              Py.fmt_bool is_stagein ++ "]: " ++ output |}.

(** The body of the loop over the lines. *)
Definition scan_line (ret : TransferError) (line : string)
  : TransferError :=
  match search_details line with
  | Some m => {| rcode := rcode ret; state := state ret; error := m |}
  | None =>
      if Py.contains marker line
      then {| rcode := RUCIOSERVICEUNAVAILABLE ec; state := state ret;
              error := marker |}
      else ret
  end.

Definition resolve_transfer_error (output : string) (is_stagein : bool)
  : TransferError :=
  fold_left scan_line (Py.split_lines output)
            (default_error output is_stagein).

End Classifier.

(** Some line of the text contains the service-unavailable marker. *)
Definition has_marker_line (output : string) : Prop :=
  exists line, In line (Py.split_lines output) /\
               Py.contains marker line = true.

(** Some line of the text matches the [Details:] pattern. *)
Definition has_details_line (output : string) : Prop :=
  exists line, In line (Py.split_lines output) /\
               search_details line <> None.

(** ** Running a loop body over the records *)

Section Loop.

Context {S : Type}.
Variable body : FileSpec -> S -> Turn S.

(** [for fspec in files: body], where a [raise] ends the call. *)
Fixpoint run_loop (files : list FileSpec) (s : S) : Run S :=
  match files with
  | [] => {| run_files := []; run_trace := []; run_state := s;
             run_outcome := Returned |}
  | f :: rest =>
      let t := body f s in
      match turn_raise t with
      | Some e =>
          {| run_files := turn_file t :: rest;
             run_trace := [turn_events t];
             run_state := turn_state t;
             run_outcome := Raised e |}
      | None =>
          let r := run_loop rest (turn_state t) in
          {| run_files := turn_file t :: run_files r;
             run_trace := turn_events t :: run_trace r;
             run_state := run_state r;
             run_outcome := run_outcome r |}
      end
  end.

(** The state in which the loop starts on record number [n], if it gets
    there. *)
Fixpoint state_before (files : list FileSpec) (s : S) (n : nat) {struct n}
  : option S :=
  match n, files with
  | O, _ => Some s
  | Datatypes.S n', f :: rest =>
      let t := body f s in
      match turn_raise t with
      | Some _ => None
      | None => state_before rest (turn_state t) n'
      end
  | Datatypes.S _, [] => None
  end.

End Loop.

(** ** copy_in and copy_out *)

(** The module constant: input replicas have been resolved by the caller. *)
Definition require_replicas : bool := true.

Definition logging_format : string :=
  "%(asctime)s %(levelname)s [%(message)s]".

Section Copytool.

Variable ec : ErrorCodes.
Context {W : Type}.
Variable env : Env W.
Variable opts : Options.

(** [fspec.workdir or kwargs.get('workdir') or '.'] *)
Definition working_dir (f : FileSpec) : string :=
  if Py.truthy (workdir f) then Py.fmt (workdir f)
  else if Py.truthy (opt_workdir opts) then Py.fmt (opt_workdir opts)
  else ".".

(** The block [if rcode:] of both functions. *)
Definition transfer_failed (is_stagein : bool) (rc : Z) (stderr : string)
    (f : FileSpec) : FileSpec * option PilotException :=
  if bool_decide (rc <> 0) then
    let err := resolve_transfer_error ec stderr is_stagein in
    let f := set_status f "failed" in
    let f := set_status_code f (rcode err) in
    (f, if ignore_errors opts then None
        else Some {| exc_message := error err; exc_code := rcode err;
                     exc_state := state err |})
  else (f, None).

(** The last block of both loop bodies, [if not fspec.status_code:]. *)
Definition mark_transferred (f : FileSpec) : FileSpec :=
  if bool_decide (status_code f = 0)
  then set_status (set_status_code f 0) "transferred"
  else f.

Definition execute_events (cmd : string) (rc : Z) (out err : string)
  : list Event :=
  [EvExecute cmd rc out err;
   EvLog INFO ("stdout = " ++ out);
   EvLog INFO ("stderr = " ++ err)].

(** *** Stage-in *)

Definition copy_in_cmd (f : FileSpec) : list string :=
  ["/usr/bin/env"; "rucio"; "-v"; "download"; "--no-subdir"; "--dir";
   working_dir f]
  ++ (if require_replicas then
        match replicas f with
        | (rse, _) :: _ => ["--rse"; rse]
        | [] => []
        end
      else [])
  ++ [Py.fmt (scope f) ++ ":" ++ lfn f].

(** The checksum block of [copy_in], on the record [f] after the
    transfer.  It gives the record, the events, the world and the
    exception if it raises. *)
Definition copy_in_verify (f : FileSpec) (w : W)
  : FileSpec * list Event * W * option PilotException :=
  let destination := Py.path_join (working_dir f) (lfn f) in
  if path_exists env destination w then
    let '(f', st, diagnostics, w') :=
      verify_catalog_checksum env f destination w in
    let evs := [EvExists destination true;
                EvVerify f destination f' st diagnostics] in
    if bool_decide (status_code f' <> 0) && negb (ignore_errors opts)
    then (f', evs, w',
          Some {| exc_message := diagnostics; exc_code := status_code f';
                  exc_state := st |})
    else (f', evs, w', None)
  else
    (f, [EvExists destination false;
         EvLog WARNING ("wrong path: " ++ destination)], w, None).

(** The body of the loop of [copy_in]. *)
Definition copy_in_body (f : FileSpec) (w : W) : Turn W :=
  if is_directaccess env f && allow_direct_access opts then
    {| turn_file := set_status (set_status_code f 0) "remote_io";
       turn_events := []; turn_state := w; turn_raise := None |}
  else
    let f0 := set_status_code f 0 in
    let cmd := Py.join_spaces (copy_in_cmd f0) in
    let '(rc, out, err, w1) := execute env cmd w in
    let evs := execute_events cmd rc out err in
    match transfer_failed true rc err f0 with
    | (f1, Some e) =>
        {| turn_file := f1; turn_events := evs; turn_state := w1;
           turn_raise := Some e |}
    | (f1, None) =>
        match copy_in_verify f1 w1 with
        | (f2, evs', w2, Some e) =>
            {| turn_file := f2; turn_events := (evs ++ evs')%list;
               turn_state := w2; turn_raise := Some e |}
        | (f2, evs', w2, None) =>
            {| turn_file := mark_transferred f2;
               turn_events := (evs ++ evs')%list;
               turn_state := w2; turn_raise := None |}
        end
    end.

Definition copy_in (files : list FileSpec) (w : W) : Run W :=
  run_loop copy_in_body files
           (setenv env "RUCIO_LOGGING_FORMAT" logging_format w).

(** *** Stage-out *)

Definition copy_out_cmd (summary : SummaryVar) (f : FileSpec)
  : list string :=
  ["/usr/bin/env"; "rucio"; "-v"; "upload"]
  ++ ["--rse"; ddmendpoint f]
  ++ (if Py.truthy (scope f) then ["--scope"; Py.fmt (scope f)] else [])
  ++ (if Py.truthy (guid f) then ["--guid"; Py.fmt (guid f)] else [])
  ++ (if no_register opts then ["--no-register"] else [])
  ++ (if summary_truthy summary then ["--summary"] else [])
  ++ (if Py.truthy (turl f) then ["--pfn"; Py.fmt (turl f)] else [])
  ++ [surl f].

Definition summary_key (f : FileSpec) : string :=
  Py.fmt (scope f) ++ ":" ++ lfn f.

(** [summary.get(key) or {}] *)
Definition summary_entry (d : SummaryJson) (key : string)
  : gmap string string :=
  match d !! key with
  | Some dat => if bool_decide (dat <> ∅) then dat else ∅
  | None => ∅
  end.

(** The condition of the quick transfer verification. *)
Definition adler32_mismatch (f : FileSpec) (adler32 : option string)
  : bool :=
  Py.truthy (checksum f !! "adler32") && Py.truthy adler32
  && bool_decide (checksum f !! "adler32" <> adler32).

(** The block [if summary:] of [copy_out]: the record, the events, the
    new value of the variable [summary], the exception if it raises. *)
Definition copy_out_summary (summary : SummaryVar) (f : FileSpec) (w : W)
  : FileSpec * list Event * SummaryVar * option PilotException :=
  if summary_truthy summary then
    let path := Py.path_join (working_dir f) "rucio_upload.json" in
    if negb (path_exists env path w) then
      (f, [EvExists path false;
           EvLog ERROR ("Failed to resolve Rucio summary JSON, " ++
                        "wrong path? file=" ++ path)],
       summary, None)
    else
      let d := json_load env path w in
      let dat := summary_entry d (summary_key f) in
      let f1 := set_turl f (dat !! "pfn") in
      let adler32 := dat !! "adler32" in
      let evs := [EvExists path true; EvLoadJson path d] in
      if adler32_mismatch f1 adler32 then
        let f2 := set_status f1 "failed" in
        let f3 := set_status_code f2 (PUTADMISMATCH ec) in
        (f3,
         (evs ++ [EvLog WARNING
                    ("checksum verification failed: local " ++
                     Py.fmt (checksum f1 !! "adler32") ++ " != remote " ++
                     Py.fmt adler32)])%list,
         SummaryDict d,
         if ignore_errors opts then None
         else Some {| exc_message := "Failed to stageout: CRC mismatched";
                      exc_code := PUTADMISMATCH ec;
                      exc_state := "AD_MISMATCH" |})
      else (f1, evs, SummaryDict d, None)
  else (f, [], summary, None).

(** The body of the loop of [copy_out]; the state carried from record
    to record is the world and the variable [summary]. *)
Definition copy_out_body (f : FileSpec) (s : W * SummaryVar)
  : Turn (W * SummaryVar) :=
  let '(w, summary) := s in
  let cmd := Py.join_spaces (copy_out_cmd summary f) in
  let '(rc, out, err, w1) := execute env cmd w in
  let evs := execute_events cmd rc out err in
  let f0 := set_status_code f 0 in
  match transfer_failed false rc err f0 with
  | (f1, Some e) =>
      {| turn_file := f1; turn_events := evs;
         turn_state := (w1, summary); turn_raise := Some e |}
  | (f1, None) =>
      match copy_out_summary summary f1 w1 with
      | (f2, evs', summary', Some e) =>
          {| turn_file := f2; turn_events := (evs ++ evs')%list;
             turn_state := (w1, summary'); turn_raise := Some e |}
      | (f2, evs', summary', None) =>
          {| turn_file := mark_transferred f2;
             turn_events := (evs ++ evs')%list;
             turn_state := (w1, summary'); turn_raise := None |}
      end
  end.

Definition copy_out (files : list FileSpec) (w : W)
  : Run (W * SummaryVar) :=
  run_loop copy_out_body files
           (setenv env "RUCIO_LOGGING_FORMAT" logging_format w,
            SummaryFlag (opt_summary opts)).

End Copytool.

(** ** The turns of the two loops, case by case

    The same two loop bodies as relations: one constructor for each way
    through the body, with the answers of the collaborators that lead
    there.  [copy_in_body_turn] and [copy_out_body_turn] below show that
    the bodies always take one of them. *)

Section Turns.

Variable ec : ErrorCodes.
Context {W : Type}.
Variable env : Env W.
Variable opts : Options.

(** The record after [fspec.status = 'failed'] and
    [fspec.status_code = error.get('rcode')]. *)
Definition classified (is_stagein : bool) (stderr : string) (f : FileSpec)
  : FileSpec :=
  set_status_code (set_status f "failed")
                  (rcode (resolve_transfer_error ec stderr is_stagein)).

(** The exception raised from the classified error. *)
Definition classified_exception (is_stagein : bool) (stderr : string)
  : PilotException :=
  {| exc_message := error (resolve_transfer_error ec stderr is_stagein);
     exc_code := rcode (resolve_transfer_error ec stderr is_stagein);
     exc_state := state (resolve_transfer_error ec stderr is_stagein) |}.

(** The record after the block [if rcode:] when the call goes on. *)
Definition after_transfer (is_stagein : bool) (rc : Z) (stderr : string)
    (f : FileSpec) : FileSpec :=
  if bool_decide (rc <> 0) then classified is_stagein stderr f else f.

Definition destination (f : FileSpec) : string :=
  Py.path_join (working_dir opts f) (lfn f).

Definition summary_path (f : FileSpec) : string :=
  Py.path_join (working_dir opts f) "rucio_upload.json".

(** The record after the summary digest was found different. *)
Definition put_mismatch (f : FileSpec) : FileSpec :=
  set_status_code (set_status f "failed") (PUTADMISMATCH ec).

Definition put_mismatch_exception : PilotException :=
  {| exc_message := "Failed to stageout: CRC mismatched";
     exc_code := PUTADMISMATCH ec; exc_state := "AD_MISMATCH" |}.

Definition mismatch_warning (f : FileSpec) (adler32 : option string)
  : Event :=
  EvLog WARNING ("checksum verification failed: local " ++
                 Py.fmt (checksum f !! "adler32") ++ " != remote " ++
                 Py.fmt adler32).

Definition missing_summary_error (f : FileSpec) : Event :=
  EvLog ERROR ("Failed to resolve Rucio summary JSON, " ++
               "wrong path? file=" ++ summary_path f).

Inductive copy_in_turn (f : FileSpec) (w : W) : Turn W -> Prop :=
| in_remote_io :
    is_directaccess env f && allow_direct_access opts = true ->
    copy_in_turn f w
      {| turn_file := set_status (set_status_code f 0) "remote_io";
         turn_events := []; turn_state := w; turn_raise := None |}
| in_transfer_raised (rc : Z) (out err : string) (w1 : W) :
    is_directaccess env f && allow_direct_access opts = false ->
    execute env (Py.join_spaces (copy_in_cmd opts f)) w = (rc, out, err, w1) ->
    rc <> 0 -> ignore_errors opts = false ->
    copy_in_turn f w
      {| turn_file := classified true err (set_status_code f 0);
         turn_events :=
           execute_events (Py.join_spaces (copy_in_cmd opts f)) rc out err;
         turn_state := w1;
         turn_raise := Some (classified_exception true err) |}
| in_file_missing (rc : Z) (out err : string) (w1 : W) :
    is_directaccess env f && allow_direct_access opts = false ->
    execute env (Py.join_spaces (copy_in_cmd opts f)) w = (rc, out, err, w1) ->
    rc = 0 \/ ignore_errors opts = true ->
    path_exists env (destination f) w1 = false ->
    copy_in_turn f w
      {| turn_file :=
           mark_transferred (after_transfer true rc err (set_status_code f 0));
         turn_events :=
           (execute_events (Py.join_spaces (copy_in_cmd opts f)) rc out err
            ++ [EvExists (destination f) false;
                EvLog WARNING ("wrong path: " ++ destination f)])%list;
         turn_state := w1; turn_raise := None |}
| in_checksum_raised (rc : Z) (out err : string) (w1 : W)
    (f2 : FileSpec) (st diagnostics : string) (w2 : W) :
    is_directaccess env f && allow_direct_access opts = false ->
    execute env (Py.join_spaces (copy_in_cmd opts f)) w = (rc, out, err, w1) ->
    rc = 0 \/ ignore_errors opts = true ->
    path_exists env (destination f) w1 = true ->
    verify_catalog_checksum env
      (after_transfer true rc err (set_status_code f 0)) (destination f) w1
    = (f2, st, diagnostics, w2) ->
    status_code f2 <> 0 -> ignore_errors opts = false ->
    copy_in_turn f w
      {| turn_file := f2;
         turn_events :=
           (execute_events (Py.join_spaces (copy_in_cmd opts f)) rc out err
            ++ [EvExists (destination f) true;
                EvVerify (after_transfer true rc err (set_status_code f 0))
                         (destination f) f2 st diagnostics])%list;
         turn_state := w2;
         turn_raise := Some {| exc_message := diagnostics;
                               exc_code := status_code f2;
                               exc_state := st |} |}
| in_checksum_done (rc : Z) (out err : string) (w1 : W)
    (f2 : FileSpec) (st diagnostics : string) (w2 : W) :
    is_directaccess env f && allow_direct_access opts = false ->
    execute env (Py.join_spaces (copy_in_cmd opts f)) w = (rc, out, err, w1) ->
    rc = 0 \/ ignore_errors opts = true ->
    path_exists env (destination f) w1 = true ->
    verify_catalog_checksum env
      (after_transfer true rc err (set_status_code f 0)) (destination f) w1
    = (f2, st, diagnostics, w2) ->
    status_code f2 = 0 \/ ignore_errors opts = true ->
    copy_in_turn f w
      {| turn_file := mark_transferred f2;
         turn_events :=
           (execute_events (Py.join_spaces (copy_in_cmd opts f)) rc out err
            ++ [EvExists (destination f) true;
                EvVerify (after_transfer true rc err (set_status_code f 0))
                         (destination f) f2 st diagnostics])%list;
         turn_state := w2; turn_raise := None |}.

Inductive copy_out_turn (f : FileSpec) (w : W) (summary : SummaryVar)
  : Turn (W * SummaryVar) -> Prop :=
| out_transfer_raised (rc : Z) (out err : string) (w1 : W) :
    execute env (Py.join_spaces (copy_out_cmd opts summary f)) w
    = (rc, out, err, w1) ->
    rc <> 0 -> ignore_errors opts = false ->
    copy_out_turn f w summary
      {| turn_file := classified false err (set_status_code f 0);
         turn_events :=
           execute_events (Py.join_spaces (copy_out_cmd opts summary f))
                          rc out err;
         turn_state := (w1, summary);
         turn_raise := Some (classified_exception false err) |}
| out_no_summary (rc : Z) (out err : string) (w1 : W) :
    execute env (Py.join_spaces (copy_out_cmd opts summary f)) w
    = (rc, out, err, w1) ->
    rc = 0 \/ ignore_errors opts = true ->
    summary_truthy summary = false ->
    copy_out_turn f w summary
      {| turn_file :=
           mark_transferred (after_transfer false rc err (set_status_code f 0));
         turn_events :=
           execute_events (Py.join_spaces (copy_out_cmd opts summary f))
                          rc out err;
         turn_state := (w1, summary); turn_raise := None |}
| out_summary_missing (rc : Z) (out err : string) (w1 : W) :
    execute env (Py.join_spaces (copy_out_cmd opts summary f)) w
    = (rc, out, err, w1) ->
    rc = 0 \/ ignore_errors opts = true ->
    summary_truthy summary = true ->
    path_exists env (summary_path f) w1 = false ->
    copy_out_turn f w summary
      {| turn_file :=
           mark_transferred (after_transfer false rc err (set_status_code f 0));
         turn_events :=
           (execute_events (Py.join_spaces (copy_out_cmd opts summary f))
                           rc out err
            ++ [EvExists (summary_path f) false; missing_summary_error f])%list;
         turn_state := (w1, summary); turn_raise := None |}
| out_summary_read (rc : Z) (out err : string) (w1 : W) :
    execute env (Py.join_spaces (copy_out_cmd opts summary f)) w
    = (rc, out, err, w1) ->
    rc = 0 \/ ignore_errors opts = true ->
    summary_truthy summary = true ->
    path_exists env (summary_path f) w1 = true ->
    let d := json_load env (summary_path f) w1 in
    let dat := summary_entry d (summary_key f) in
    adler32_mismatch f (dat !! "adler32") = false ->
    copy_out_turn f w summary
      {| turn_file :=
           mark_transferred
             (set_turl (after_transfer false rc err (set_status_code f 0))
                       (dat !! "pfn"));
         turn_events :=
           (execute_events (Py.join_spaces (copy_out_cmd opts summary f))
                           rc out err
            ++ [EvExists (summary_path f) true;
                EvLoadJson (summary_path f) d])%list;
         turn_state := (w1, SummaryDict d); turn_raise := None |}
| out_mismatch_raised (rc : Z) (out err : string) (w1 : W) :
    execute env (Py.join_spaces (copy_out_cmd opts summary f)) w
    = (rc, out, err, w1) ->
    rc = 0 \/ ignore_errors opts = true ->
    summary_truthy summary = true ->
    path_exists env (summary_path f) w1 = true ->
    let d := json_load env (summary_path f) w1 in
    let dat := summary_entry d (summary_key f) in
    adler32_mismatch f (dat !! "adler32") = true ->
    ignore_errors opts = false ->
    copy_out_turn f w summary
      {| turn_file :=
           put_mismatch
             (set_turl (after_transfer false rc err (set_status_code f 0))
                       (dat !! "pfn"));
         turn_events :=
           (execute_events (Py.join_spaces (copy_out_cmd opts summary f))
                           rc out err
            ++ [EvExists (summary_path f) true;
                EvLoadJson (summary_path f) d;
                mismatch_warning f (dat !! "adler32")])%list;
         turn_state := (w1, SummaryDict d);
         turn_raise := Some put_mismatch_exception |}
| out_mismatch_ignored (rc : Z) (out err : string) (w1 : W) :
    execute env (Py.join_spaces (copy_out_cmd opts summary f)) w
    = (rc, out, err, w1) ->
    rc = 0 \/ ignore_errors opts = true ->
    summary_truthy summary = true ->
    path_exists env (summary_path f) w1 = true ->
    let d := json_load env (summary_path f) w1 in
    let dat := summary_entry d (summary_key f) in
    adler32_mismatch f (dat !! "adler32") = true ->
    ignore_errors opts = true ->
    copy_out_turn f w summary
      {| turn_file :=
           mark_transferred
             (put_mismatch
                (set_turl (after_transfer false rc err (set_status_code f 0))
                          (dat !! "pfn")));
         turn_events :=
           (execute_events (Py.join_spaces (copy_out_cmd opts summary f))
                           rc out err
            ++ [EvExists (summary_path f) true;
                EvLoadJson (summary_path f) d;
                mismatch_warning f (dat !! "adler32")])%list;
         turn_state := (w1, SummaryDict d); turn_raise := None |}.

End Turns.

(** ** The invariant of the transfer status *)

(** The code is 0 exactly when the tag is [remote_io] or [transferred],
    and a nonzero code goes with the tag [failed]. *)
Definition status_consistent (f : FileSpec) : Prop :=
  (status_code f = 0 <->
   (status f = "remote_io" \/ status f = "transferred")) /\
  (status_code f <> 0 -> status f = "failed").

(** ** Lines of a diagnostic text *)

(** The line is one of those that set the service-unavailable code: it
    does not match the [Details:] pattern and contains the marker. *)
Definition marker_only (line : string) : bool :=
  match search_details line with
  | Some _ => false
  | None => Py.contains marker line
  end.

(** The line changes the message: it takes one of the two branches of the
    loop body. *)
Definition line_matches (line : string) : bool :=
  match search_details line with
  | Some _ => true
  | None => Py.contains marker line
  end.

Fixpoint no_newline (s : string) : bool :=
  match s with
  | EmptyString => true
  | String c s' => negb (Ascii.eqb c Py.newline) && no_newline s'
  end.

(** The inverse of [split('\n')], that is [join] on a newline. *)
Fixpoint join_lines (ls : list string) : string :=
  match ls with
  | [] => EmptyString
  | [l] => l
  | l :: ls' => l ++ String Py.newline (join_lines ls')
  end.

(** ** What a call leaves of a record *)

(** The two records agree on every field but [turl], [status] and
    [status_code]. *)
Definition same_identity (f f' : FileSpec) : Prop :=
  scope f' = scope f /\ lfn f' = lfn f /\ guid f' = guid f /\
  workdir f' = workdir f /\ replicas f' = replicas f /\
  ddmendpoint f' = ddmendpoint f /\ surl f' = surl f /\
  checksum f' = checksum f.

Fixpoint count_execute (evs : list Event) : nat :=
  match evs with
  | [] => 0
  | e :: evs' => (if is_execute e then 1 else 0) + count_execute evs'
  end.

Definition is_verify (e : Event) : bool :=
  match e with EvVerify _ _ _ _ _ => true | _ => false end.

(** The statuses [copy_out] gives a record: transferred, or failed with
    one of the three codes of an upload. *)
Definition upload_status (ec : ErrorCodes) (f : FileSpec) : Prop :=
  (status f = "transferred" /\ status_code f = 0) \/
  (status f = "failed" /\
   (status_code f = STAGEOUTFAILED ec \/
    status_code f = RUCIOSERVICEUNAVAILABLE ec \/
    status_code f = PUTADMISMATCH ec)).

(** ** Proof support *)

(** Splits a hypothesis [In e evs] on a list of events given in full. *)
Ltac in_events H :=
  unfold execute_events, missing_summary_error, mismatch_warning in H;
  rewrite ?in_app_iff in H; cbn [In] in H;
  destruct_or! H; try contradiction; try discriminate H;
  try (injection H as H; subst).

(** Decides which branch every test on a status code in the goal takes and
    closes a goal on the fields of a record. *)
Ltac by_fields :=
  unfold same_identity, mark_transferred, after_transfer, classified,
    put_mismatch;
  repeat match goal with
         | |- context [bool_decide ?P] => destruct (bool_decide P)
         end;
  cbn [scope lfn guid workdir replicas ddmendpoint turl surl checksum
       status status_code set_status set_status_code set_turl];
  repeat split; try reflexivity.

(** ** Codes and fixtures used by the examples *)

(** Four distinct nonzero codes, for the examples below. *)
Definition test_codes : ErrorCodes :=
  {| STAGEINFAILED := 1099; STAGEOUTFAILED := 1137;
     RUCIOSERVICEUNAVAILABLE := 1316; PUTADMISMATCH := 1172 |}.

Definition nl : string := String Py.newline EmptyString.

(** A scripted outside world for the examples.  The state counts the
    invocations made so far; invocation number [i] answers with the exit
    code and the standard error at position [i] of [answers] (exit code 0
    past the end); [present] lists the paths that exist; the checksum
    collaborator reports a mismatch for the paths in [corrupt] and leaves
    the record alone otherwise; every summary file parses to [artifact];
    [direct] tells which records can be read remotely. *)
Definition scripted_env (direct : FileSpec -> bool)
    (answers : list (Z * string)) (present corrupt : list string)
    (artifact : SummaryJson) : Env nat :=
  {| setenv := fun _ _ w => w;
     is_directaccess := direct;
     execute := fun _ w =>
       let '(rc, err) := nth w answers (0, "") in (rc, "", err, Datatypes.S w);
     path_exists := fun path _ => bool_decide (path ∈ present);
     verify_catalog_checksum := fun f path w =>
       if bool_decide (path ∈ corrupt)
       then (set_status (set_status_code f 1171) "failed",
             "AD_MISMATCH", "checksum verification failed", w)
       else (f, "", "", w);
     json_load := fun _ _ => artifact |}.

Definition no_direct (f : FileSpec) : bool := false.

(** In the examples a record can be read remotely when its [surl] is a
    [root://] address. *)
Definition direct_by_surl (f : FileSpec) : bool :=
  Py.contains "root://" (surl f).

Definition test_file (name digest : string) : FileSpec :=
  {| scope := Some "scopeA"; lfn := name; guid := None; workdir := None;
     replicas := [("RSE_A", "root://a/" ++ name)];
     ddmendpoint := "RSE_OUT"; turl := None; surl := "/srv/" ++ name;
     checksum := {["adler32" := digest]}; status := ""; status_code := 0 |}.

Definition remote_file (name : string) : FileSpec :=
  {| scope := Some "scopeA"; lfn := name; guid := None; workdir := None;
     replicas := [("RSE_A", "root://a/" ++ name)];
     ddmendpoint := "RSE_OUT"; turl := None; surl := "root://a/" ++ name;
     checksum := ∅; status := ""; status_code := 0 |}.

Definition test_opts (ignore : bool) : Options :=
  {| allow_direct_access := true; ignore_errors := ignore;
     opt_workdir := None; no_register := false; opt_summary := true |}.

(** The summary file of the example of the specification. *)
Definition test_entry : gmap string string :=
  {["pfn" := "https://x/file1"; "adler32" := "deadbeef"]}.

Definition test_artifact : SummaryJson := {["scopeA:file1" := test_entry]}.

(** A world where every invocation exits with zero and every path exists;
    the summary file loaded after the first invocation is [first], the one
    loaded after a later invocation is [test_artifact]. *)
Definition staged_env (first : SummaryJson) : Env nat :=
  {| setenv := fun _ _ w => w;
     is_directaccess := no_direct;
     execute := fun _ w => (0, "", "", Datatypes.S w);
     path_exists := fun _ _ => true;
     verify_catalog_checksum := fun f _ w => (f, "", "", w);
     json_load := fun _ w =>
       if Nat.eqb w 1 then first else test_artifact |}.

(** A summary with the entry of [scopeA:file0] only. *)
Definition first_artifact : SummaryJson :=
  {["scopeA:file0" :=
      ({["pfn" := "https://x/file0"; "adler32" := "0badcafe"]}
       : gmap string string)]}.

(** * Strings and the pattern *)

Lemma string_app_cons (c : ascii) (a b : string) :
  String c a ++ b = String c (a ++ b).
Proof. reflexivity. Qed.

Lemma string_app_nil (b : string) : "" ++ b = b.
Proof. reflexivity. Qed.

Lemma strip_prefix_app (p : string) :
  forall s r : string, Py.strip_prefix p s = Some r -> s = p ++ r.
Proof.
  induction p as [|a p IH]; intros s r H; simpl in H.
  - injection H as <-. reflexivity.
  - destruct s as [|b s]; [discriminate|].
    destruct (Ascii.eqb a b) eqn:E; [|discriminate].
    apply Ascii.eqb_eq in E. subst b. rewrite string_app_cons. f_equal.
    apply IH. exact H.
Qed.

Lemma blanks_suffix (s : string) : exists pre : string, s = pre ++ skip_blanks s.
Proof. apply blanks_ok. Qed.

Lemma blanks_idem (s : string) : skip_blanks (skip_blanks s) = skip_blanks s.
Proof. apply blanks_ok. Qed.

Lemma blanks_graphic (c : ascii) (s : string) :
  is_graphic c = true -> skip_blanks (String c s) = String c s.
Proof. apply blanks_ok. Qed.

Lemma blanks_space (s : string) :
  skip_blanks (String " "%char s) = skip_blanks s.
Proof. apply blanks_ok. Qed.

Lemma search_details_step (s : string) :
  search_details s
  = match match_details_here s with
    | Some g => Some g
    | None =>
        match s with
        | EmptyString => None
        | String _ s' => search_details s'
        end
    end.
Proof. destruct s; reflexivity. Qed.

(** The pattern matches where the text has [Details:]. *)
Lemma details_colon_here (s r : string) :
  Py.strip_prefix "Details:" s = Some r ->
  match_details_here s = Some (Py.dot_star (skip_blanks r)).
Proof.
  intros H. apply strip_prefix_app in H. subst s.
  unfold match_details_here.
  change (Py.strip_prefix "Details" ("Details:" ++ r))
    with (Some (String ":"%char r)).
  cbv beta iota. rewrite blanks_graphic by reflexivity. reflexivity.
Qed.

Lemma details_disk_full :
  search_details "Details: disk full" = Some "disk full".
Proof.
  rewrite search_details_step.
  rewrite (details_colon_here "Details: disk full" " disk full" eq_refl).
  rewrite blanks_space, blanks_graphic by reflexivity. reflexivity.
Qed.

(** * Properties of the classifier *)

Section ClassifierFacts.

Variable ec : ErrorCodes.

Lemma scan_line_state (ret : TransferError) (line : string) :
  state (scan_line ec ret line) = state ret.
Proof.
  unfold scan_line.
  destruct (search_details line); [reflexivity|].
  destruct (Py.contains marker line); reflexivity.
Qed.

Lemma scan_lines_state (ls : list string) (ret : TransferError) :
  state (fold_left (scan_line ec) ls ret) = state ret.
Proof.
  revert ret; induction ls as [|l ls IH]; intros ret; simpl.
  - reflexivity.
  - rewrite IH. apply scan_line_state.
Qed.

(** A line that matches nothing leaves the result as it is. *)
Lemma scan_line_quiet (ret : TransferError) (line : string) :
  search_details line = None -> Py.contains marker line = false ->
  scan_line ec ret line = ret.
Proof.
  intros Hd Hm. unfold scan_line. rewrite Hd, Hm. reflexivity.
Qed.

Lemma scan_lines_quiet (ls : list string) (ret : TransferError) :
  Forall (fun l => search_details l = None /\
                   Py.contains marker l = false) ls ->
  fold_left (scan_line ec) ls ret = ret.
Proof.
  intros H; revert ret.
  induction H as [|l ls [Hd Hm] _ IH]; intros ret; simpl.
  - reflexivity.
  - rewrite scan_line_quiet by assumption. apply IH.
Qed.

(** The code only ever moves to the service-unavailable code. *)
Lemma scan_line_rcode (ret : TransferError) (line : string) :
  rcode (scan_line ec ret line) = rcode ret \/
  rcode (scan_line ec ret line) = RUCIOSERVICEUNAVAILABLE ec.
Proof.
  unfold scan_line.
  destruct (search_details line); [left; reflexivity|].
  destruct (Py.contains marker line); [right|left]; reflexivity.
Qed.

Lemma scan_lines_rcode (ls : list string) (ret : TransferError) :
  rcode (fold_left (scan_line ec) ls ret) = rcode ret \/
  rcode (fold_left (scan_line ec) ls ret) = RUCIOSERVICEUNAVAILABLE ec.
Proof.
  revert ret; induction ls as [|l ls IH]; intros ret; simpl.
  - left; reflexivity.
  - destruct (IH (scan_line ec ret l)) as [H|H]; [|right; exact H].
    rewrite H. apply scan_line_rcode.
Qed.

Lemma scan_lines_rcode_kept (ls : list string) (ret : TransferError) :
  rcode ret = RUCIOSERVICEUNAVAILABLE ec ->
  rcode (fold_left (scan_line ec) ls ret) = RUCIOSERVICEUNAVAILABLE ec.
Proof.
  intros H. destruct (scan_lines_rcode ls ret) as [H'|H']; congruence.
Qed.

(** Without a later [Details:] line the fixed message stays. *)
Lemma scan_lines_marker_kept (ls : list string) (ret : TransferError) :
  Forall (fun l => search_details l = None) ls ->
  error ret = marker ->
  error (fold_left (scan_line ec) ls ret) = marker.
Proof.
  intros H; revert ret.
  induction H as [|l ls Hd _ IH]; intros ret Hret; simpl.
  - exact Hret.
  - apply IH. unfold scan_line. rewrite Hd.
    destruct (Py.contains marker l); [reflexivity|exact Hret].
Qed.

(** The message is the one of the last line that matched. *)
Lemma resolve_last_details (output : string) (is_stagein : bool)
    (pre post : list string) (line m : string) :
  Py.split_lines output = (pre ++ line :: post)%list ->
  search_details line = Some m ->
  Forall (fun l => search_details l = None /\
                   Py.contains marker l = false) post ->
  error (resolve_transfer_error ec output is_stagein) = m.
Proof.
  intros Hs Hm Hpost. unfold resolve_transfer_error.
  rewrite Hs, fold_left_app. simpl.
  rewrite scan_lines_quiet by assumption.
  unfold scan_line. rewrite Hm. reflexivity.
Qed.

Lemma resolve_default (output : string) (is_stagein : bool) :
  ~ has_details_line output -> ~ has_marker_line output ->
  resolve_transfer_error ec output is_stagein =
  default_error ec output is_stagein.
Proof.
  intros Hd Hm. unfold resolve_transfer_error.
  apply scan_lines_quiet. apply Forall_forall. intros l Hl.
  apply list_elem_of_In in Hl. split.
  - destruct (search_details l) eqn:E; [|reflexivity].
    exfalso. apply Hd. exists l. split; [exact Hl|congruence].
  - destruct (Py.contains marker l) eqn:E; [|reflexivity].
    exfalso. apply Hm. exists l. split; [exact Hl|exact E].
Qed.

End ClassifierFacts.

(** C1, as amended: when some line contains the service-unavailable
    marker and does not match the [Details:] pattern, the code is the
    service-unavailable code whatever the other lines are; the message
    is the fixed one when no later line matches the [Details:] pattern. *)
Theorem resolve_service_unavailable (ec : ErrorCodes) (output : string)
    (is_stagein : bool) (pre post : list string) (line : string) :
  Py.split_lines output = (pre ++ line :: post)%list ->
  Py.contains marker line = true ->
  search_details line = None ->
  rcode (resolve_transfer_error ec output is_stagein)
  = RUCIOSERVICEUNAVAILABLE ec /\
  (Forall (fun l => search_details l = None) post ->
   error (resolve_transfer_error ec output is_stagein)
   = "service_unavailable").
Proof.
  intros Hs Hm Hd. unfold resolve_transfer_error.
  rewrite Hs, fold_left_app. simpl.
  set (ret := fold_left (scan_line ec) pre _).
  assert (Hline : scan_line ec ret line =
                  {| rcode := RUCIOSERVICEUNAVAILABLE ec;
                     state := state ret; error := marker |}).
  { unfold scan_line. rewrite Hd, Hm. reflexivity. }
  rewrite Hline. split.
  - apply scan_lines_rcode_kept. reflexivity.
  - intros Hpost. apply scan_lines_marker_kept; [exact Hpost|reflexivity].
Qed.


(** C9, as amended: the message is [disk full] when the last line that
    matches anything is [Details: disk full]; a text with no [Details:]
    line and no marker gets the default code of the direction, the state
    [COPY_ERROR] and a message that ends in the raw text; every text gets
    a structured error with the state [COPY_ERROR] and either the default
    code or the service-unavailable code. *)
Theorem resolve_transfer_error_cases (ec : ErrorCodes) (output : string)
    (is_stagein : bool) :
  (forall pre post : list string,
     Py.split_lines output = (pre ++ "Details: disk full" :: post)%list ->
     Forall (fun l => search_details l = None /\
                      Py.contains marker l = false) post ->
     error (resolve_transfer_error ec output is_stagein) = "disk full") /\
  (~ has_details_line output -> ~ has_marker_line output ->
   rcode (resolve_transfer_error ec output is_stagein)
   = (if is_stagein then STAGEINFAILED ec else STAGEOUTFAILED ec) /\
   state (resolve_transfer_error ec output is_stagein) = "COPY_ERROR" /\
   error (resolve_transfer_error ec output is_stagein)
   = "Copy operation failed [is_stagein=" ++ Py.fmt_bool is_stagein ++
     "]: " ++ output) /\
  (state (resolve_transfer_error ec output is_stagein) = "COPY_ERROR" /\
   (rcode (resolve_transfer_error ec output is_stagein)
    = (if is_stagein then STAGEINFAILED ec else STAGEOUTFAILED ec) \/
    rcode (resolve_transfer_error ec output is_stagein)
    = RUCIOSERVICEUNAVAILABLE ec)).
Proof.
  split; [|split].
  - intros pre post Hs Hpost.
    apply (resolve_last_details ec output is_stagein pre post
             "Details: disk full" "disk full" Hs details_disk_full Hpost).
  - intros Hd Hm. rewrite (resolve_default ec output is_stagein Hd Hm).
    repeat split.
  - split.
    + unfold resolve_transfer_error. rewrite scan_lines_state. reflexivity.
    + unfold resolve_transfer_error.
      apply (scan_lines_rcode ec _ (default_error ec output is_stagein)).
Qed.


(** * Properties of the loop *)

Section LoopFacts.

Context {S : Type}.
Variable body : FileSpec -> S -> Turn S.

(** A record the loop gets to leaves the call as its own turn left it,
    and the events of the turn are the ones recorded for it. *)
Lemma run_loop_lookup (n : nat) :
  forall (files : list FileSpec) (s : S) (f : FileSpec) (sn : S),
    files !! n = Some f ->
    state_before body files s n = Some sn ->
    run_trace (run_loop body files s) !! n = Some (turn_events (body f sn)) /\
    run_files (run_loop body files s) !! n = Some (turn_file (body f sn)).
Proof.
  induction n as [|n IH]; intros [|f0 rest] s f sn Hf Hs;
    simpl in Hf, Hs; try discriminate.
  - injection Hf as <-. injection Hs as <-. simpl.
    destruct (turn_raise (body f0 s)); simpl; split; reflexivity.
  - simpl. destruct (turn_raise (body f0 s)) eqn:E; [discriminate|].
    simpl. apply (IH rest _ f sn Hf Hs).
Qed.

Lemma run_loop_reached (files : list FileSpec) :
  forall (s : S) (n : nat) (evs : list Event),
    run_trace (run_loop body files s) !! n = Some evs ->
    exists f sn,
      files !! n = Some f /\
      state_before body files s n = Some sn /\
      evs = turn_events (body f sn) /\
      run_files (run_loop body files s) !! n = Some (turn_file (body f sn)).
Proof.
  induction files as [|f0 rest IH]; intros s n evs H; simpl in H.
  - destruct n; discriminate.
  - destruct (turn_raise (body f0 s)) eqn:E; simpl in H.
    + destruct n as [|n]; simpl in H; [|destruct n; discriminate].
      injection H as <-. exists f0, s. simpl. rewrite E. simpl. auto.
    + destruct n as [|n]; simpl in H.
      * injection H as <-. exists f0, s. simpl. rewrite E. simpl. auto.
      * destruct (IH _ _ _ H) as (f & sn & Hf & Hs & Hev & Hfile).
        exists f, sn. simpl. rewrite E. simpl. auto.
Qed.

Lemma run_trace_length (files : list FileSpec) :
  forall s : S,
    (length (run_trace (run_loop body files s)) <= length files)%nat.
Proof.
  induction files as [|f0 rest IH]; intros s; simpl; [lia|].
  destruct (turn_raise (body f0 s)); simpl.
  - lia.
  - specialize (IH (turn_state (body f0 s))). lia.
Qed.

Lemma run_files_length (files : list FileSpec) :
  forall s : S, length (run_files (run_loop body files s)) = length files.
Proof.
  induction files as [|f0 rest IH]; intros s; simpl; [reflexivity|].
  destruct (turn_raise (body f0 s)); simpl; [reflexivity|].
  rewrite IH. reflexivity.
Qed.

(** A turn that raises ends the call: the exception is the one of the
    call, no later record is reached, and the later records are as the
    caller passed them. *)
Lemma run_loop_raise_at (n : nat) :
  forall (files : list FileSpec) (s : S) (f : FileSpec) (sn : S)
         (e : PilotException),
    files !! n = Some f ->
    state_before body files s n = Some sn ->
    turn_raise (body f sn) = Some e ->
    run_outcome (run_loop body files s) = Raised e /\
    length (run_trace (run_loop body files s)) = Datatypes.S n /\
    (forall m : nat, (n < m)%nat ->
       run_files (run_loop body files s) !! m = files !! m).
Proof.
  induction n as [|n IH]; intros [|f0 rest] s f sn e Hf Hs He;
    simpl in Hf, Hs; try discriminate.
  - injection Hf as <-. injection Hs as <-. simpl. rewrite He. simpl.
    repeat split. intros [|m] Hm; [lia|reflexivity].
  - simpl. destruct (turn_raise (body f0 s)) eqn:E; [discriminate|].
    simpl. destruct (IH rest _ f sn e Hf Hs He) as (Ho & Hl & Hr).
    repeat split; [exact Ho|lia|].
    intros [|m] Hm; [lia|]. simpl. apply Hr. lia.
Qed.

(** When no turn raises, the call returns and every record is reached. *)
Lemma run_loop_no_raise (files : list FileSpec) :
  forall s : S,
    (forall n f sn, files !! n = Some f ->
                    state_before body files s n = Some sn ->
                    turn_raise (body f sn) = None) ->
    run_outcome (run_loop body files s) = Returned /\
    length (run_trace (run_loop body files s)) = length files /\
    (forall n : nat, (n < length files)%nat ->
       is_Some (state_before body files s n)).
Proof.
  induction files as [|f0 rest IH]; intros s H; simpl.
  - repeat split. intros n Hn. lia.
  - assert (E : turn_raise (body f0 s) = None) by (apply (H 0%nat); reflexivity).
    rewrite E. simpl.
    destruct (IH (turn_state (body f0 s))) as (Ho & Hl & Hst).
    { intros n f sn Hf Hs. apply (H (Datatypes.S n) f sn Hf).
      simpl. rewrite E. exact Hs. }
    repeat split; [exact Ho|lia|].
    intros [|n] Hn; simpl; [eexists; reflexivity|].
    rewrite E. apply Hst. lia.
Qed.

(** A call that returns has gone through every record without a raise. *)
Lemma run_loop_returned (files : list FileSpec) :
  forall (s : S),
    run_outcome (run_loop body files s) = Returned ->
    forall (n : nat) (f : FileSpec),
      files !! n = Some f ->
      exists sn, state_before body files s n = Some sn /\
                 turn_raise (body f sn) = None.
Proof.
  induction files as [|f0 rest IH]; intros s Ho n f Hf.
  - destruct n; discriminate.
  - simpl in Ho. destruct (turn_raise (body f0 s)) eqn:E; [discriminate|].
    simpl in Ho. destruct n as [|n]; simpl in Hf.
    + injection Hf as <-. exists s. split; [reflexivity|exact E].
    + destruct (IH _ Ho n f Hf) as (sn & Hs & Hr).
      exists sn. simpl. rewrite E. auto.
Qed.

Lemma state_before_succ (n : nat) :
  forall (files : list FileSpec) (s : S) (f : FileSpec) (sn : S),
    files !! n = Some f ->
    state_before body files s n = Some sn ->
    turn_raise (body f sn) = None ->
    state_before body files s (Datatypes.S n) = Some (turn_state (body f sn)).
Proof.
  induction n as [|n IH]; intros [|f0 rest] s f sn Hf Hs Hr;
    simpl in Hf, Hs; try discriminate.
  - injection Hf as <-. injection Hs as <-. simpl. rewrite Hr. reflexivity.
  - destruct (turn_raise (body f0 s)) eqn:E; [discriminate|].
    change (state_before body (f0 :: rest) s (Datatypes.S (Datatypes.S n)))
      with (match turn_raise (body f0 s) with
            | Some _ => None
            | None => state_before body rest (turn_state (body f0 s))
                                   (Datatypes.S n)
            end).
    rewrite E. apply (IH rest _ f sn Hf Hs Hr).
Qed.

(** A property of the state that every turn keeps holds from the record
    where it is first met to the end of the call. *)
Lemma state_before_preserved (P : S -> Prop) :
  (forall f s, P s -> P (turn_state (body f s))) ->
  forall (k : nat) (files : list FileSpec) (s : S) (j : nat) (sk sj : S),
    (k <= j)%nat ->
    state_before body files s k = Some sk -> P sk ->
    state_before body files s j = Some sj -> P sj.
Proof.
  intros Hpres.
  assert (H0 : forall (j : nat) (files : list FileSpec) (s sj : S),
             P s -> state_before body files s j = Some sj -> P sj).
  { induction j as [|j IH]; intros files s sj Hs Hj; simpl in Hj.
    - injection Hj as <-. exact Hs.
    - destruct files as [|f0 rest]; [discriminate|].
      destruct (turn_raise (body f0 s)); [discriminate|].
      apply (IH rest _ sj (Hpres f0 s Hs) Hj). }
  induction k as [|k IH]; intros files s j sk sj Hkj Hk Hsk Hj.
  - simpl in Hk. injection Hk as <-. apply (H0 j files s sj Hsk Hj).
  - destruct j as [|j]; [lia|].
    destruct files as [|f0 rest]; simpl in Hk, Hj; [discriminate|].
    destruct (turn_raise (body f0 s)); [discriminate|].
    apply (IH rest (turn_state (body f0 s)) j sk sj); [lia|assumption..].
Qed.

End LoopFacts.

(** * The loop bodies take one of the listed turns *)

Section BodyFacts.

Variable ec : ErrorCodes.
Context {W : Type}.
Variable env : Env W.
Variable opts : Options.

Lemma transfer_failed_raises (is_stagein : bool) (rc : Z) (err : string)
    (f : FileSpec) :
  rc <> 0 -> ignore_errors opts = false ->
  transfer_failed ec opts is_stagein rc err f
  = (classified ec is_stagein err f,
     Some (classified_exception ec is_stagein err)).
Proof.
  intros Hrc Hig. unfold transfer_failed.
  rewrite bool_decide_eq_true_2 by exact Hrc. rewrite Hig. reflexivity.
Qed.

Lemma transfer_failed_goes_on (is_stagein : bool) (rc : Z) (err : string)
    (f : FileSpec) :
  rc = 0 \/ ignore_errors opts = true ->
  transfer_failed ec opts is_stagein rc err f
  = (after_transfer ec is_stagein rc err f, None).
Proof.
  intros H. unfold transfer_failed, after_transfer.
  destruct (bool_decide (rc <> 0)) eqn:E; [|reflexivity].
  apply bool_decide_eq_true_1 in E.
  destruct H as [H|H]; [contradiction|]. rewrite H. reflexivity.
Qed.

Lemma transfer_failed_split (rc : Z) :
  (rc <> 0 /\ ignore_errors opts = false) \/
  (rc = 0 \/ ignore_errors opts = true).
Proof.
  destruct (ignore_errors opts); [right; right; reflexivity|].
  destruct (Z.eq_dec rc 0); [right; left; assumption|left; split; auto].
Qed.

Theorem copy_in_body_turn (f : FileSpec) (w : W) :
  copy_in_turn ec env opts f w (copy_in_body ec env opts f w).
Proof.
  unfold copy_in_body.
  destruct (is_directaccess env f && allow_direct_access opts) eqn:Hd.
  { apply in_remote_io. exact Hd. }
  change (copy_in_cmd opts (set_status_code f 0)) with (copy_in_cmd opts f).
  destruct (execute env (Py.join_spaces (copy_in_cmd opts f)) w)
    as [[[rc out] err] w1] eqn:Hex.
  destruct (transfer_failed_split rc) as [[Hrc Hig]|Hgo].
  { rewrite transfer_failed_raises by assumption.
    apply (in_transfer_raised ec env opts f w rc out err w1); assumption. }
  rewrite transfer_failed_goes_on by assumption.
  unfold copy_in_verify.
  set (f1 := after_transfer ec true rc err (set_status_code f 0)).
  assert (Hdst : Py.path_join (working_dir opts f1) (lfn f1)
                 = destination opts f).
  { unfold f1, after_transfer, classified.
    destruct (bool_decide (rc <> 0)); reflexivity. }
  rewrite Hdst.
  destruct (path_exists env (destination opts f) w1) eqn:Hex1.
  - destruct (verify_catalog_checksum env f1 (destination opts f) w1)
      as [[[f2 st] dg] w2] eqn:Hv.
    destruct (bool_decide (status_code f2 <> 0)) eqn:Hc;
      [destruct (ignore_errors opts) eqn:Hig|]; simpl andb; cbv iota.
    + apply (in_checksum_done ec env opts f w rc out err w1 f2 st dg w2);
        auto.
    + apply bool_decide_eq_true_1 in Hc.
      destruct Hgo as [Hgo|Hgo]; [|discriminate Hgo].
      apply (in_checksum_raised ec env opts f w rc out err w1 f2 st dg w2);
        auto.
    + apply bool_decide_eq_false_1 in Hc.
      apply (in_checksum_done ec env opts f w rc out err w1 f2 st dg w2);
        auto.
      left. destruct (Z.eq_dec (status_code f2) 0); [assumption|].
      contradiction.
  - apply (in_file_missing ec env opts f w rc out err w1); assumption.
Qed.

Theorem copy_out_body_turn (f : FileSpec) (w : W) (summary : SummaryVar) :
  copy_out_turn ec env opts f w summary
                (copy_out_body ec env opts f (w, summary)).
Proof.
  unfold copy_out_body.
  destruct (execute env (Py.join_spaces (copy_out_cmd opts summary f)) w)
    as [[[rc out] err] w1] eqn:Hex.
  destruct (transfer_failed_split rc) as [[Hrc Hig]|Hgo].
  { rewrite transfer_failed_raises by assumption.
    apply (out_transfer_raised ec env opts f w summary rc out err w1);
      assumption. }
  rewrite transfer_failed_goes_on by assumption.
  unfold copy_out_summary.
  set (f1 := after_transfer ec false rc err (set_status_code f 0)).
  destruct (summary_truthy summary) eqn:Hs.
  2: { apply (out_no_summary ec env opts f w summary rc out err w1);
         assumption. }
  assert (Hp : Py.path_join (working_dir opts f1) "rucio_upload.json"
               = summary_path opts f).
  { unfold f1, after_transfer, classified.
    destruct (bool_decide (rc <> 0)); reflexivity. }
  assert (Hk : summary_key f1 = summary_key f).
  { unfold f1, after_transfer, classified.
    destruct (bool_decide (rc <> 0)); reflexivity. }
  rewrite Hp, Hk.
  destruct (path_exists env (summary_path opts f) w1) eqn:Hex1; simpl negb;
    cbv iota.
  2: { apply (out_summary_missing ec env opts f w summary rc out err w1);
         assumption. }
  set (d := json_load env (summary_path opts f) w1).
  set (dat := summary_entry d (summary_key f)).
  assert (Hm : forall u, adler32_mismatch (set_turl f1 u) (dat !! "adler32")
                         = adler32_mismatch f (dat !! "adler32")).
  { intros u. unfold f1, after_transfer, classified.
    destruct (bool_decide (rc <> 0)); reflexivity. }
  assert (Hck : forall u, checksum (set_turl f1 u) = checksum f).
  { intros u. unfold f1, after_transfer, classified.
    destruct (bool_decide (rc <> 0)); reflexivity. }
  rewrite Hm.
  destruct (adler32_mismatch f (dat !! "adler32")) eqn:Hmis.
  - rewrite Hck.
    destruct (ignore_errors opts) eqn:Hig.
    + apply (out_mismatch_ignored ec env opts f w summary rc out err w1);
        try assumption; auto.
    + destruct Hgo as [Hgo|Hgo]; [|discriminate Hgo].
      apply (out_mismatch_raised ec env opts f w summary rc out err w1);
        try assumption; auto.
  - apply (out_summary_read ec env opts f w summary rc out err w1);
      assumption.
Qed.

End BodyFacts.

(** * Facts on records and events *)

Lemma mark_transferred_zero (f : FileSpec) :
  status_code f = 0 ->
  mark_transferred f = set_status (set_status_code f 0) "transferred".
Proof.
  intros H. unfold mark_transferred.
  rewrite bool_decide_eq_true_2 by exact H. reflexivity.
Qed.

Lemma mark_transferred_nonzero (f : FileSpec) :
  status_code f <> 0 -> mark_transferred f = f.
Proof.
  intros H. unfold mark_transferred.
  rewrite bool_decide_eq_false_2 by exact H. reflexivity.
Qed.

Lemma mark_transferred_turl (f : FileSpec) :
  turl (mark_transferred f) = turl f.
Proof.
  unfold mark_transferred. destruct (bool_decide (status_code f = 0));
    reflexivity.
Qed.

Lemma after_transfer_zero (ec : ErrorCodes) (is_stagein : bool)
    (err : string) (f : FileSpec) :
  after_transfer ec is_stagein 0 err f = f.
Proof. reflexivity. Qed.

Lemma after_transfer_nonzero (ec : ErrorCodes) (is_stagein : bool) (rc : Z)
    (err : string) (f : FileSpec) :
  rc <> 0 ->
  after_transfer ec is_stagein rc err f = classified ec is_stagein err f.
Proof.
  intros H. unfold after_transfer.
  rewrite bool_decide_eq_true_2 by exact H. reflexivity.
Qed.

Lemma after_transfer_turl (ec : ErrorCodes) (is_stagein : bool) (rc : Z)
    (err : string) (f : FileSpec) :
  turl (after_transfer ec is_stagein rc err f) = turl f.
Proof.
  unfold after_transfer. destruct (bool_decide (rc <> 0)); reflexivity.
Qed.

Lemma in_execute_events (e : Event) (cmd : string) (rc : Z)
    (out err : string) :
  In e (execute_events cmd rc out err) ->
  e = EvExecute cmd rc out err \/ is_execute e = false /\
  is_exists e = false /\ is_load_json e = false /\ is_warning e = false.
Proof.
  unfold execute_events. simpl.
  intros [<-|[<-|[<-|[]]]]; auto.
Qed.

(** * Stage-in *)

(** C6: in [copy_in], a record that can be read remotely, when the option
    allows it, causes no event at all, so no invocation; when the loop
    gets to it, its status becomes code 0 with tag [remote_io], and the
    loop goes on with the next record. *)
Theorem copy_in_direct_access (ec : ErrorCodes) (W : Type) (env : Env W)
    (opts : Options) (files : list FileSpec) (w : W) (n : nat)
    (f : FileSpec) :
  files !! n = Some f ->
  is_directaccess env f = true ->
  allow_direct_access opts = true ->
  (forall evs : list Event,
     run_trace (copy_in ec env opts files w) !! n = Some evs ->
     evs = [] /\
     exists f', run_files (copy_in ec env opts files w) !! n = Some f' /\
                status_code f' = 0 /\ status f' = "remote_io") /\
  (is_Some (run_trace (copy_in ec env opts files w) !! n) ->
   is_Some (files !! Datatypes.S n) ->
   is_Some (run_trace (copy_in ec env opts files w) !! Datatypes.S n)).
Proof.
  intros Hn Hd Ha.
  assert (Hbody : forall s, copy_in_body ec env opts f s =
            {| turn_file := set_status (set_status_code f 0) "remote_io";
               turn_events := []; turn_state := s; turn_raise := None |}).
  { intros s. unfold copy_in_body. rewrite Hd, Ha. reflexivity. }
  split.
  - intros evs Hev. unfold copy_in in *.
    apply run_loop_reached in Hev.
    destruct Hev as (f0 & sn & Hf & Hs & -> & Hfile).
    assert (f0 = f) as -> by congruence.
    rewrite Hbody in *. split; [reflexivity|].
    eexists. split; [exact Hfile|]. split; reflexivity.
  - intros [evs Hev] [g Hg]. unfold copy_in in *.
    apply run_loop_reached in Hev.
    destruct Hev as (f0 & sn & Hf & Hs & _ & _).
    assert (f0 = f) as -> by congruence.
    pose proof (state_before_succ _ n files _ f sn Hf Hs) as Hnext.
    rewrite Hbody in Hnext. specialize (Hnext eq_refl).
    destruct (run_loop_lookup _ (Datatypes.S n) files _ g _ Hg Hnext)
      as [Ht _].
    eexists. exact Ht.
Qed.




(** * More on the loop: turns that do not raise *)

Section LoopGoesOn.

Context {S : Type}.
Variable body : FileSpec -> S -> Turn S.

Lemma run_loop_raised (files : list FileSpec) :
  forall (s : S) (e : PilotException),
    run_outcome (run_loop body files s) = Raised e ->
    exists m f sm,
      files !! m = Some f /\
      state_before body files s m = Some sm /\
      turn_raise (body f sm) = Some e /\
      length (run_trace (run_loop body files s)) = Datatypes.S m.
Proof.
  induction files as [|f0 rest IH]; intros s e H; simpl in H.
  - discriminate.
  - destruct (turn_raise (body f0 s)) eqn:E; simpl in H.
    + injection H as <-. exists 0%nat, f0, s. simpl. rewrite E. auto.
    + destruct (IH _ _ H) as (m & f & sm & Hf & Hs & Hr & Hl).
      exists (Datatypes.S m), f, sm. simpl. rewrite E. simpl. auto.
Qed.

(** After a turn that does not raise, the loop takes the next record if
    there is one, and an exception of the call comes from a later
    record. *)
Lemma quiet_turn_goes_on (files : list FileSpec) (s : S) (n : nat)
    (f : FileSpec) (sn : S) :
  files !! n = Some f ->
  state_before body files s n = Some sn ->
  turn_raise (body f sn) = None ->
  (is_Some (files !! Datatypes.S n) ->
   is_Some (run_trace (run_loop body files s) !! Datatypes.S n)) /\
  (forall e, run_outcome (run_loop body files s) = Raised e ->
             (Datatypes.S n < length (run_trace (run_loop body files s)))%nat).
Proof.
  intros Hf Hs Hq. split.
  - intros [g Hg].
    pose proof (state_before_succ body n files s f sn Hf Hs Hq) as Hnext.
    destruct (run_loop_lookup body (Datatypes.S n) files s g _ Hg Hnext)
      as [Ht _].
    eexists. exact Ht.
  - intros e He.
    destruct (run_loop_raised files s e He) as (m & g & sm & Hg & Hm & Hr & Hl).
    destruct (run_loop_lookup body n files s f sn Hf Hs) as [Ht _].
    apply lookup_lt_Some in Ht. rewrite Hl in *.
    destruct (decide (m = n)) as [->|Hne]; [|lia].
    congruence.
Qed.

End LoopGoesOn.

(** * Missing files *)

(** C10: a missing file is not a failure.  In [copy_in], when the
    invocation exited with zero and the destination file is not there,
    the checksum block leaves the record as it is, the only event after
    the invocation is a warning, the turn does not raise and the record
    ends with code 0 and tag [transferred].  In [copy_out], when the
    summary file is not there, an error is logged, no summary is loaded,
    the turn does not raise, and the record keeps its [turl] and
    checksums and gets the status the exit code alone gives it. *)
Theorem missing_artifacts_are_soft (ec : ErrorCodes) (W : Type)
    (env : Env W) (opts : Options) (files : list FileSpec) (w : W)
    (n : nat) (evs : list Event) (path : string) :
  In (EvExists path false) evs ->
  (forall (f1 : FileSpec) (w1 : W),
     path_exists env (destination opts f1) w1 = false ->
     copy_in_verify env opts f1 w1
     = (f1, [EvExists (destination opts f1) false;
             EvLog WARNING ("wrong path: " ++ destination opts f1)],
        w1, None)) /\
  (forall cmd out err : string,
     run_trace (copy_in ec env opts files w) !! n = Some evs ->
     In (EvExecute cmd 0 out err) evs ->
     exists f,
       files !! n = Some f /\
       evs = (execute_events cmd 0 out err ++
              [EvExists path false;
               EvLog WARNING ("wrong path: " ++ path)])%list /\
       run_files (copy_in ec env opts files w) !! n
       = Some (set_status (set_status_code f 0) "transferred") /\
       (forall e, run_outcome (copy_in ec env opts files w) = Raised e ->
          (Datatypes.S n
           < length (run_trace (copy_in ec env opts files w)))%nat)) /\
  (run_trace (copy_out ec env opts files w) !! n = Some evs ->
   exists f f' cmd rc out err,
     files !! n = Some f /\
     evs = (execute_events cmd rc out err ++
            [EvExists path false;
             EvLog ERROR ("Failed to resolve Rucio summary JSON, " ++
                          "wrong path? file=" ++ path)])%list /\
     run_files (copy_out ec env opts files w) !! n = Some f' /\
     turl f' = turl f /\ checksum f' = checksum f /\
     status_code f' = (if bool_decide (rc = 0) then 0
                       else rcode (resolve_transfer_error ec err false)) /\
     (rc = 0 -> status f' = "transferred") /\
     (forall e, run_outcome (copy_out ec env opts files w) = Raised e ->
        (Datatypes.S n
         < length (run_trace (copy_out ec env opts files w)))%nat)).
Proof.
  intros Hmiss. split; [|split].
  - intros f1 w1 Hex. unfold copy_in_verify.
    change (Py.path_join (working_dir opts f1) (lfn f1))
      with (destination opts f1).
    rewrite Hex. reflexivity.
  - intros cmd out err Hev Hexec.
    unfold copy_in in *. apply run_loop_reached in Hev.
    destruct Hev as (f & sn & Hf & Hs & -> & Hfile).
    pose proof (copy_in_body_turn ec env opts f sn) as T.
    remember (copy_in_body ec env opts f sn) as t eqn:Ht.
    destruct T; cbn [turn_events turn_file] in *.
    + destruct Hexec.
    + in_events Hexec. contradiction.
    + in_events Hmiss. in_events Hexec.
      exists f. split; [exact Hf|]. split; [reflexivity|].
      split.
      * rewrite Hfile. reflexivity.
      * apply (quiet_turn_goes_on _ files _ n f sn Hf Hs).
        rewrite <- Ht. reflexivity.
    + in_events Hmiss.
    + in_events Hmiss.
  - intros Hev.
    unfold copy_out in *. apply run_loop_reached in Hev.
    destruct Hev as (f & [wn summary] & Hf & Hs & -> & Hfile).
    pose proof (copy_out_body_turn ec env opts f wn summary) as T.
    remember (copy_out_body ec env opts f (wn, summary)) as t eqn:Ht.
    destruct T; cbn [turn_events turn_file] in *.
    + in_events Hmiss.
    + in_events Hmiss.
    + in_events Hmiss.
      exists f, (mark_transferred
                   (after_transfer ec false rc err (set_status_code f 0))).
      exists (Py.join_spaces (copy_out_cmd opts summary f)), rc, out, err.
      split; [exact Hf|]. split; [reflexivity|]. split; [exact Hfile|].
      assert (Hquiet : forall e,
                run_outcome
                  (run_loop (copy_out_body ec env opts) files
                     (setenv env "RUCIO_LOGGING_FORMAT" logging_format w,
                      SummaryFlag (opt_summary opts))) = Raised e ->
                (Datatypes.S n
                 < length (run_trace
                     (run_loop (copy_out_body ec env opts) files
                        (setenv env "RUCIO_LOGGING_FORMAT" logging_format w,
                         SummaryFlag (opt_summary opts)))))%nat).
      { apply (quiet_turn_goes_on _ files _ n f (wn, summary) Hf Hs).
        rewrite <- Ht. reflexivity. }
      unfold after_transfer, mark_transferred, classified.
      destruct (Z.eq_dec rc 0) as [->|Hrc].
      * repeat split; try reflexivity. exact Hquiet.
      * rewrite (bool_decide_eq_true_2 _ Hrc).
        rewrite (bool_decide_eq_false_2 (rc = 0) Hrc).
        cbn [status_code set_status_code set_status].
        destruct (bool_decide
                    (rcode (resolve_transfer_error ec err false) = 0))
          eqn:E.
        -- apply bool_decide_eq_true_1 in E.
           repeat split; try reflexivity; try exact Hquiet.
           cbn [status_code set_status_code set_status]. symmetry. exact E.
        -- repeat split; try reflexivity; try exact Hquiet.
           intros ->. contradiction.
    + in_events Hmiss.
    + in_events Hmiss.
    + in_events Hmiss.
Qed.


(** * The invariant of the status *)

Lemma consistent_failed (f : FileSpec) :
  status_code f <> 0 -> status f = "failed" -> status_consistent f.
Proof.
  intros Hc Hs. unfold status_consistent. rewrite Hs. split; [split|].
  - contradiction.
  - intros [H|H]; discriminate H.
  - reflexivity.
Qed.

Lemma consistent_done (f : FileSpec) :
  status_code f = 0 ->
  status f = "remote_io" \/ status f = "transferred" ->
  status_consistent f.
Proof.
  intros Hc Hs. unfold status_consistent. split; [split|]; auto.
  contradiction.
Qed.

Lemma consistent_marked (f : FileSpec) :
  (status_code f <> 0 -> status f = "failed") ->
  status_consistent (mark_transferred f).
Proof.
  intros H. destruct (Z.eq_dec (status_code f) 0) as [Hz|Hnz].
  - rewrite (mark_transferred_zero f Hz).
    apply consistent_done; [reflexivity|right; reflexivity].
  - rewrite (mark_transferred_nonzero f Hnz).
    apply consistent_failed; auto.
Qed.

Lemma resolve_rcode_nonzero (ec : ErrorCodes) (output : string)
    (is_stagein : bool) :
  codes_nonzero ec ->
  rcode (resolve_transfer_error ec output is_stagein) <> 0.
Proof.
  intros (Hin & Hout & Hsu & _). unfold resolve_transfer_error.
  destruct (scan_lines_rcode ec (Py.split_lines output)
              (default_error ec output is_stagein)) as [H|H]; rewrite H.
  - simpl. destruct is_stagein; assumption.
  - exact Hsu.
Qed.

Lemma classified_status (ec : ErrorCodes) (is_stagein : bool)
    (err : string) (f : FileSpec) :
  status (classified ec is_stagein err f) = "failed" /\
  status_code (classified ec is_stagein err f)
  = rcode (resolve_transfer_error ec err is_stagein).
Proof. split; reflexivity. Qed.

(** After the block [if rcode:], a nonzero code has the tag [failed]. *)
Lemma after_transfer_failed (ec : ErrorCodes) (is_stagein : bool) (rc : Z)
    (err : string) (f : FileSpec) :
  status_code f = 0 ->
  status_code (after_transfer ec is_stagein rc err f) <> 0 ->
  status (after_transfer ec is_stagein rc err f) = "failed".
Proof.
  intros Hz. unfold after_transfer.
  destruct (bool_decide (rc <> 0)); [reflexivity|]. contradiction.
Qed.

Section Invariant.

Variable ec : ErrorCodes.
Context {W : Type}.
Variable env : Env W.
Variable opts : Options.
Hypothesis Hcodes : codes_nonzero ec.

Lemma copy_in_turn_consistent (f : FileSpec) (w : W) (t : Turn W) :
  verify_keeps_status env ->
  copy_in_turn ec env opts f w t ->
  status_consistent (turn_file t).
Proof.
  intros Hverify T.
  assert (Hkept : forall rc err f2 st dg w1 w2,
            verify_catalog_checksum env
              (after_transfer ec true rc err (set_status_code f 0))
              (destination opts f) w1 = (f2, st, dg, w2) ->
            status_code f2 <> 0 -> status f2 = "failed").
  { intros rc err f2 st dg w1 w2 Hv Hnz.
    pose proof (Hverify (after_transfer ec true rc err (set_status_code f 0))
                  (destination opts f) w1) as Hk.
    rewrite Hv in Hk. simpl in Hk.
    destruct Hk as [[Hc Hs]|[_ Hs]]; [|exact Hs].
    rewrite Hs. apply after_transfer_failed; [reflexivity|].
    rewrite <- Hc. exact Hnz. }
  destruct T; cbn [turn_file].
  - apply consistent_done; [reflexivity|left; reflexivity].
  - apply consistent_failed; [|reflexivity].
    apply resolve_rcode_nonzero. exact Hcodes.
  - apply consistent_marked. apply after_transfer_failed. reflexivity.
  - apply consistent_failed; [assumption|]. eapply Hkept; eassumption.
  - apply consistent_marked. eapply Hkept; eassumption.
Qed.

Lemma copy_out_turn_consistent (f : FileSpec) (w : W) (summary : SummaryVar)
    (t : Turn (W * SummaryVar)) :
  copy_out_turn ec env opts f w summary t ->
  status_consistent (turn_file t).
Proof.
  assert (Hput : PUTADMISMATCH ec <> 0) by apply Hcodes.
  intros T. destruct T; cbn [turn_file].
  - apply consistent_failed; [|reflexivity].
    apply resolve_rcode_nonzero. exact Hcodes.
  - apply consistent_marked. apply after_transfer_failed. reflexivity.
  - apply consistent_marked. apply after_transfer_failed. reflexivity.
  - apply consistent_marked.
    apply (after_transfer_failed ec false rc err (set_status_code f 0)).
    reflexivity.
  - apply consistent_failed; [exact Hput|reflexivity].
  - rewrite mark_transferred_nonzero by exact Hput.
    apply consistent_failed; [exact Hput|reflexivity].
Qed.

End Invariant.

(** Every record of a call that returned is as one turn of the body
    left it. *)
Lemma returned_files_from_turns {S : Type} (body : FileSpec -> S -> Turn S)
    (files : list FileSpec) (s : S) (f' : FileSpec) :
  run_outcome (run_loop body files s) = Returned ->
  In f' (run_files (run_loop body files s)) ->
  exists f sn, f' = turn_file (body f sn).
Proof.
  intros Hret Hin. apply list_elem_of_In, list_elem_of_lookup_1 in Hin.
  destruct Hin as [n Hn].
  assert (Hlt : (n < length files)%nat).
  { apply lookup_lt_Some in Hn. rewrite run_files_length in Hn. exact Hn. }
  apply lookup_lt_is_Some_2 in Hlt. destruct Hlt as [f Hf].
  destruct (run_loop_returned body files s Hret n f Hf) as (sn & Hs & _).
  destruct (run_loop_lookup body n files s f sn Hf Hs) as [_ Hfile].
  exists f, sn. congruence.
Qed.

(** When the call returned, every record of the batch is in the result,
    at its place, as its own turn left it, and that turn did not raise. *)
Lemma returned_lookup {S : Type} (body : FileSpec -> S -> Turn S)
    (files : list FileSpec) (s : S) (n : nat) (f : FileSpec) :
  run_outcome (run_loop body files s) = Returned ->
  files !! n = Some f ->
  exists sn,
    run_files (run_loop body files s) !! n = Some (turn_file (body f sn)) /\
    turn_raise (body f sn) = None.
Proof.
  intros Hret Hf.
  destruct (run_loop_returned body files s Hret n f Hf) as (sn & Hs & Hq).
  destruct (run_loop_lookup body n files s f sn Hf Hs) as [_ Hfile].
  exists sn. split; assumption.
Qed.

(** C3: after [copy_in] or [copy_out] returns, the result has one record
    for each record of the batch, at the same place, and every one of
    them has status code 0 exactly when its tag is [remote_io] or
    [transferred], and a nonzero code only with the tag [failed]; the
    error codes are nonzero and the checksum collaborator keeps to its
    contract on the status. *)
Theorem status_invariant (ec : ErrorCodes) (W : Type) (env : Env W)
    (opts : Options) (files : list FileSpec) (w : W) :
  codes_nonzero ec ->
  verify_keeps_status env ->
  (run_outcome (copy_in ec env opts files w) = Returned ->
   length (run_files (copy_in ec env opts files w)) = length files /\
   forall (n : nat) (f : FileSpec),
     files !! n = Some f ->
     exists f', run_files (copy_in ec env opts files w) !! n = Some f' /\
                status_consistent f') /\
  (run_outcome (copy_out ec env opts files w) = Returned ->
   length (run_files (copy_out ec env opts files w)) = length files /\
   forall (n : nat) (f : FileSpec),
     files !! n = Some f ->
     exists f', run_files (copy_out ec env opts files w) !! n = Some f' /\
                status_consistent f').
Proof.
  intros Hcodes Hverify. unfold copy_in, copy_out.
  split; intros Hret; (split; [apply run_files_length|]); intros n f Hf.
  - destruct (returned_lookup _ _ _ n f Hret Hf) as (sn & Hfile & _).
    eexists. split; [exact Hfile|].
    apply (copy_in_turn_consistent ec env opts Hcodes f sn _ Hverify).
    apply copy_in_body_turn.
  - destruct (returned_lookup _ _ _ n f Hret Hf)
      as ([wn summary] & Hfile & _).
    eexists. split; [exact Hfile|].
    apply (copy_out_turn_consistent ec env opts Hcodes f wn summary).
    apply copy_out_body_turn.
Qed.

Lemma test_codes_nonzero : codes_nonzero test_codes.
Proof. repeat split; discriminate. Qed.

Lemma scripted_env_keeps_status (direct : FileSpec -> bool)
    (answers : list (Z * string)) (present corrupt : list string)
    (artifact : SummaryJson) :
  verify_keeps_status (scripted_env direct answers present corrupt artifact).
Proof.
  intros f path w. simpl.
  destruct (bool_decide (path ∈ corrupt)); simpl.
  - right. split; [discriminate|reflexivity].
  - left. split; reflexivity.
Qed.


(** * Failures and the rest of the batch *)

Section ShortCircuit.

Variable ec : ErrorCodes.
Context {W : Type}.
Variable env : Env W.
Variable opts : Options.

(** With [ignore_errors] unset, a turn with a nonzero exit code or that
    leaves a nonzero status code has raised. *)
Lemma copy_in_turn_strict (f : FileSpec) (w : W) (t : Turn W) :
  ignore_errors opts = false ->
  copy_in_turn ec env opts f w t ->
  (exists cmd rc out err,
     In (EvExecute cmd rc out err) (turn_events t) /\ rc <> 0) \/
  status_code (turn_file t) <> 0 ->
  exists e, turn_raise t = Some e.
Proof.
  intros Hig T Hfail.
  destruct T; cbn [turn_events turn_file turn_raise] in *;
    try (eexists; reflexivity); exfalso.
  - destruct Hfail as [(c & r & o & e & Hin & _)|Hc];
      [destruct Hin|apply Hc; reflexivity].
  - destruct H1 as [->|H1]; [|congruence].
    destruct Hfail as [(c & r & o & e & Hin & Hr)|Hc].
    + in_events Hin. contradiction.
    + apply Hc. rewrite after_transfer_zero. reflexivity.
  - destruct H1 as [->|H1]; [|congruence].
    destruct H4 as [Hz|H4]; [|congruence].
    destruct Hfail as [(c & r & o & e & Hin & Hr)|Hc].
    + in_events Hin. contradiction.
    + apply Hc. rewrite (mark_transferred_zero _ Hz). reflexivity.
Qed.

Lemma copy_out_turn_strict (f : FileSpec) (w : W) (summary : SummaryVar)
    (t : Turn (W * SummaryVar)) :
  ignore_errors opts = false ->
  copy_out_turn ec env opts f w summary t ->
  (exists cmd rc out err,
     In (EvExecute cmd rc out err) (turn_events t) /\ rc <> 0) \/
  status_code (turn_file t) <> 0 ->
  exists e, turn_raise t = Some e.
Proof.
  intros Hig T Hfail.
  destruct T; cbn [turn_events turn_file turn_raise] in *;
    try (eexists; reflexivity); exfalso;
    try congruence;
    (destruct H0 as [->|H0]; [|congruence]);
    (destruct Hfail as [(c & r & o & e & Hin & Hr)|Hc];
     [in_events Hin; contradiction|]);
    apply Hc; rewrite after_transfer_zero; reflexivity.
Qed.

(** With [ignore_errors] set, no turn raises. *)
Lemma copy_in_turn_lenient (f : FileSpec) (w : W) (t : Turn W) :
  ignore_errors opts = true ->
  copy_in_turn ec env opts f w t -> turn_raise t = None.
Proof.
  intros Hig T. destruct T; try reflexivity; congruence.
Qed.

Lemma copy_out_turn_lenient (f : FileSpec) (w : W) (summary : SummaryVar)
    (t : Turn (W * SummaryVar)) :
  ignore_errors opts = true ->
  copy_out_turn ec env opts f w summary t -> turn_raise t = None.
Proof.
  intros Hig T. destruct T; try reflexivity; congruence.
Qed.

(** What a turn of [copy_in] records for its own record. *)
Lemma copy_in_turn_own_status (f : FileSpec) (w : W) (t : Turn W) :
  copy_in_turn ec env opts f w t ->
  turn_raise t = None ->
  (is_directaccess env f && allow_direct_access opts = true /\
   turn_events t = []) \/
  exists rc out err,
    In (EvExecute (Py.join_spaces (copy_in_cmd opts f)) rc out err)
       (turn_events t) /\
    (rc <> 0 -> codes_nonzero ec -> verify_keeps_status env ->
     status (turn_file t) = "failed" /\ status_code (turn_file t) <> 0) /\
    (rc = 0 ->
     (forall a p f2 st dg, In (EvVerify a p f2 st dg) (turn_events t) ->
                           status_code f2 = 0) ->
     status_code (turn_file t) = 0 /\ status (turn_file t) = "transferred").
Proof.
  intros T Hq.
  destruct T; cbn [turn_events turn_file turn_raise] in *;
    try discriminate Hq.
  - left. split; [assumption|reflexivity].
  - right. exists rc, out, err. split; [left; reflexivity|]. split.
    + intros Hrc Hcodes _.
      rewrite (after_transfer_nonzero _ _ _ _ _ Hrc).
      rewrite mark_transferred_nonzero;
        [|apply resolve_rcode_nonzero; exact Hcodes].
      split; [reflexivity|]. apply resolve_rcode_nonzero. exact Hcodes.
    + intros -> _. rewrite after_transfer_zero.
      rewrite mark_transferred_zero by reflexivity. split; reflexivity.
  - right. exists rc, out, err. split; [left; reflexivity|]. split.
    + intros Hrc Hcodes Hverify.
      pose proof (Hverify
                    (after_transfer ec true rc err (set_status_code f 0))
                    (destination opts f) w1) as Hk.
      rewrite H3 in Hk. simpl in Hk.
      rewrite (after_transfer_nonzero _ _ _ _ _ Hrc) in Hk.
      assert (Hnz : status_code f2 <> 0 /\ status f2 = "failed").
      { destruct Hk as [[Hc Hs]|Hk]; [|exact Hk].
        rewrite Hc, Hs. split; [|reflexivity].
        apply resolve_rcode_nonzero. exact Hcodes. }
      destruct Hnz as [Hnz Hs].
      rewrite mark_transferred_nonzero by exact Hnz. split; assumption.
    + intros -> Hv.
      assert (Hz : status_code f2 = 0).
      { eapply Hv. apply in_app_iff. right. right. left. reflexivity. }
      rewrite (mark_transferred_zero _ Hz). split; reflexivity.
Qed.

(** What a turn of [copy_out] records for its own record. *)
Lemma copy_out_turn_own_status (f : FileSpec) (w : W)
    (summary : SummaryVar) (t : Turn (W * SummaryVar)) :
  copy_out_turn ec env opts f w summary t ->
  turn_raise t = None ->
  exists rc out err,
    In (EvExecute (Py.join_spaces (copy_out_cmd opts summary f)) rc out err)
       (turn_events t) /\
    (rc <> 0 -> codes_nonzero ec ->
     status (turn_file t) = "failed" /\ status_code (turn_file t) <> 0) /\
    (rc = 0 ->
     (forall e, In e (turn_events t) -> is_warning e = false) ->
     status_code (turn_file t) = 0 /\ status (turn_file t) = "transferred").
Proof.
  intros T Hq.
  destruct T; cbn [turn_events turn_file turn_raise] in *;
    try discriminate Hq;
    exists rc, out, err; (split; [left; reflexivity|]); split.
  - intros Hrc Hcodes. rewrite (after_transfer_nonzero _ _ _ _ _ Hrc).
    rewrite mark_transferred_nonzero;
      [|apply resolve_rcode_nonzero; exact Hcodes].
    split; [reflexivity|]. apply resolve_rcode_nonzero. exact Hcodes.
  - intros -> _. rewrite after_transfer_zero.
    rewrite mark_transferred_zero by reflexivity. split; reflexivity.
  - intros Hrc Hcodes. rewrite (after_transfer_nonzero _ _ _ _ _ Hrc).
    rewrite mark_transferred_nonzero;
      [|apply resolve_rcode_nonzero; exact Hcodes].
    split; [reflexivity|]. apply resolve_rcode_nonzero. exact Hcodes.
  - intros -> _. rewrite after_transfer_zero.
    rewrite mark_transferred_zero by reflexivity. split; reflexivity.
  - intros Hrc Hcodes. rewrite (after_transfer_nonzero _ _ _ _ _ Hrc).
    rewrite mark_transferred_nonzero;
      [|apply (resolve_rcode_nonzero ec err false Hcodes)].
    split; [reflexivity|].
    apply (resolve_rcode_nonzero ec err false Hcodes).
  - intros -> _. rewrite after_transfer_zero.
    rewrite mark_transferred_zero by reflexivity. split; reflexivity.
  - intros _ Hcodes.
    assert (Hput : PUTADMISMATCH ec <> 0) by apply Hcodes.
    rewrite mark_transferred_nonzero by exact Hput.
    split; [reflexivity|exact Hput].
  - intros _ Hw. exfalso.
    assert (Hx : is_warning (mismatch_warning f (dat !! "adler32")) = false).
    { apply Hw. apply in_app_iff. right. right. right. left. reflexivity. }
    discriminate Hx.
Qed.

End ShortCircuit.

(** X14: with [ignore_errors] unset, a record the loop reaches whose
    invocation exits with a nonzero code, or that is left with a nonzero
    status code, makes the call raise, and the later records get no
    event (so no invocation) and are as the caller passed them.  With
    [ignore_errors] set the call returns, every record has its turn, a
    record that cannot be read remotely has its own invocation, and its
    status comes from the events of its own turn.  (Which events a turn
    of [copy_out] has depends on the variable [summary], that is on the
    turns before it.) *)
Theorem batch_short_circuit (ec : ErrorCodes) (W : Type) (env : Env W)
    (opts : Options) (files : list FileSpec) (w : W) :
  (ignore_errors opts = false ->
   forall (n : nat) (evs : list Event),
     (run_trace (copy_in ec env opts files w) !! n = Some evs ->
      (exists cmd rc out err, In (EvExecute cmd rc out err) evs /\ rc <> 0) \/
      (exists f', run_files (copy_in ec env opts files w) !! n = Some f' /\
                  status_code f' <> 0) ->
      exists e,
        run_outcome (copy_in ec env opts files w) = Raised e /\
        forall m : nat, (n < m)%nat ->
          run_trace (copy_in ec env opts files w) !! m = None /\
          run_files (copy_in ec env opts files w) !! m = files !! m) /\
     (run_trace (copy_out ec env opts files w) !! n = Some evs ->
      (exists cmd rc out err, In (EvExecute cmd rc out err) evs /\ rc <> 0) \/
      (exists f', run_files (copy_out ec env opts files w) !! n = Some f' /\
                  status_code f' <> 0) ->
      exists e,
        run_outcome (copy_out ec env opts files w) = Raised e /\
        forall m : nat, (n < m)%nat ->
          run_trace (copy_out ec env opts files w) !! m = None /\
          run_files (copy_out ec env opts files w) !! m = files !! m)) /\
  (ignore_errors opts = true ->
   (run_outcome (copy_in ec env opts files w) = Returned /\
    forall (n : nat) (f : FileSpec),
      files !! n = Some f ->
      exists evs f',
        run_trace (copy_in ec env opts files w) !! n = Some evs /\
        run_files (copy_in ec env opts files w) !! n = Some f' /\
        ((is_directaccess env f && allow_direct_access opts = true /\
          evs = []) \/
         exists rc out err,
           In (EvExecute (Py.join_spaces (copy_in_cmd opts f)) rc out err)
              evs /\
           (rc <> 0 -> codes_nonzero ec -> verify_keeps_status env ->
            status f' = "failed" /\ status_code f' <> 0) /\
           (rc = 0 ->
            (forall a p f2 st dg, In (EvVerify a p f2 st dg) evs ->
                                  status_code f2 = 0) ->
            status_code f' = 0 /\ status f' = "transferred"))) /\
   (run_outcome (copy_out ec env opts files w) = Returned /\
    forall (n : nat) (f : FileSpec),
      files !! n = Some f ->
      exists evs f' cmd rc out err,
        run_trace (copy_out ec env opts files w) !! n = Some evs /\
        run_files (copy_out ec env opts files w) !! n = Some f' /\
        In (EvExecute cmd rc out err) evs /\
        (rc <> 0 -> codes_nonzero ec ->
         status f' = "failed" /\ status_code f' <> 0) /\
        (rc = 0 ->
         (forall e, In e evs -> is_warning e = false) ->
         status_code f' = 0 /\ status f' = "transferred"))).
Proof.
  split.
  - intros Hig n evs. split; intros Hev Hfail.
    + unfold copy_in in *. apply run_loop_reached in Hev.
      destruct Hev as (f & sn & Hf & Hs & -> & Hfile).
      destruct (copy_in_turn_strict ec env opts f sn _ Hig
                  (copy_in_body_turn ec env opts f sn)) as [e He].
      { destruct Hfail as [Hfail|(f' & Hf' & Hc)]; [left; exact Hfail|].
        right. congruence. }
      destruct (run_loop_raise_at _ n files _ f sn e Hf Hs He)
        as (Ho & Hl & Hrest).
      exists e. split; [exact Ho|]. intros m Hm. split; [|auto].
      apply lookup_ge_None_2. rewrite Hl. lia.
    + unfold copy_out in *. apply run_loop_reached in Hev.
      destruct Hev as (f & [wn summary] & Hf & Hs & -> & Hfile).
      destruct (copy_out_turn_strict ec env opts f wn summary _ Hig
                  (copy_out_body_turn ec env opts f wn summary)) as [e He].
      { destruct Hfail as [Hfail|(f' & Hf' & Hc)]; [left; exact Hfail|].
        right. congruence. }
      destruct (run_loop_raise_at _ n files _ f _ e Hf Hs He)
        as (Ho & Hl & Hrest).
      exists e. split; [exact Ho|]. intros m Hm. split; [|auto].
      apply lookup_ge_None_2. rewrite Hl. lia.
  - intros Hig. split.
    + unfold copy_in.
      set (s0 := setenv env "RUCIO_LOGGING_FORMAT" logging_format w).
      assert (Hquiet : forall n f sn,
                files !! n = Some f ->
                state_before (copy_in_body ec env opts) files s0 n = Some sn ->
                turn_raise (copy_in_body ec env opts f sn) = None).
      { intros n f sn _ _.
        apply (copy_in_turn_lenient ec env opts f sn _ Hig).
        apply copy_in_body_turn. }
      destruct (run_loop_no_raise _ files s0 Hquiet) as (Ho & _ & Hst).
      split; [exact Ho|]. intros n f Hf.
      destruct (Hst n (lookup_lt_Some _ _ _ Hf)) as [sn Hs].
      destruct (run_loop_lookup _ n files s0 f sn Hf Hs) as [Ht Hfile].
      eexists. eexists. split; [exact Ht|]. split; [exact Hfile|].
      apply (copy_in_turn_own_status ec env opts f sn).
      * apply copy_in_body_turn.
      * apply (Hquiet n f sn Hf Hs).
    + unfold copy_out.
      set (s0 := (setenv env "RUCIO_LOGGING_FORMAT" logging_format w,
                  SummaryFlag (opt_summary opts))).
      assert (Hquiet : forall n f sn,
                files !! n = Some f ->
                state_before (copy_out_body ec env opts) files s0 n = Some sn ->
                turn_raise (copy_out_body ec env opts f sn) = None).
      { intros n f [wn summary] _ _.
        apply (copy_out_turn_lenient ec env opts f wn summary _ Hig).
        apply copy_out_body_turn. }
      destruct (run_loop_no_raise _ files s0 Hquiet) as (Ho & _ & Hst).
      split; [exact Ho|]. intros n f Hf.
      destruct (Hst n (lookup_lt_Some _ _ _ Hf)) as [[wn summary] Hs].
      destruct (run_loop_lookup _ n files s0 f _ Hf Hs) as [Ht Hfile].
      destruct (copy_out_turn_own_status ec env opts f wn summary _
                  (copy_out_body_turn ec env opts f wn summary)
                  (Hquiet n f _ Hf Hs))
        as (rc & out & err & Hin & Hbad & Hgood).
      eexists. eexists. eexists. exists rc, out, err.
      split; [exact Ht|]. split; [exact Hfile|].
      split; [exact Hin|]. split; assumption.
Qed.


(** * A failed invocation *)

Section FailedTransfer.

Variable ec : ErrorCodes.
Context {W : Type}.
Variable env : Env W.
Variable opts : Options.

Lemma copy_in_turn_failed (f : FileSpec) (w : W) (t : Turn W)
    (cmd : string) (rc : Z) (out err : string) :
  copy_in_turn ec env opts f w t ->
  In (EvExecute cmd rc out err) (turn_events t) ->
  rc <> 0 ->
  (ignore_errors opts = false ->
   turn_file t = classified ec true err (set_status_code f 0) /\
   turn_raise t = Some (classified_exception ec true err)) /\
  (ignore_errors opts = true -> codes_nonzero ec ->
   verify_keeps_status env ->
   turn_raise t = None /\
   status (turn_file t) = "failed" /\ status_code (turn_file t) <> 0 /\
   (forall a p f2 st dg,
      In (EvVerify a p f2 st dg) (turn_events t) ->
      a = classified ec true err (set_status_code f 0)) /\
   ((forall a p f2 st dg,
       In (EvVerify a p f2 st dg) (turn_events t) ->
       status_code f2 = status_code a) ->
    status_code (turn_file t)
    = rcode (resolve_transfer_error ec err true))).
Proof.
  intros T Hin Hrc.
  destruct T; cbn [turn_events turn_file turn_raise] in *.
  - destruct Hin.
  - in_events Hin. split; [auto|]. intros Hig. congruence.
  - in_events Hin.
    destruct H1 as [H1|Hig]; [contradiction|].
    split; [intros Hno; congruence|]. intros _ Hcodes _.
    rewrite (after_transfer_nonzero _ _ _ _ _ Hrc).
    pose proof (resolve_rcode_nonzero ec err true Hcodes) as Hnz.
    rewrite mark_transferred_nonzero by exact Hnz.
    repeat split; try reflexivity; try exact Hnz.
    intros a p f2 st dg Hv. in_events Hv.
  - in_events Hin. destruct H1 as [H1|Hig]; [contradiction|congruence].
  - in_events Hin.
    destruct H1 as [H1|Hig]; [contradiction|].
    split; [intros Hno; congruence|]. intros _ Hcodes Hverify.
    pose proof (resolve_rcode_nonzero ec err true Hcodes) as Hnz.
    pose proof (Hverify (after_transfer ec true rc err (set_status_code f 0))
                  (destination opts f) w1) as Hk.
    rewrite H3 in Hk. simpl in Hk.
    rewrite (after_transfer_nonzero _ _ _ _ _ Hrc) in *.
    assert (Hf2 : status_code f2 <> 0 /\ status f2 = "failed").
    { destruct Hk as [[Hc Hs]|Hk]; [|exact Hk].
      rewrite Hc, Hs. split; [exact Hnz|reflexivity]. }
    destruct Hf2 as [Hc2 Hs2].
    rewrite (mark_transferred_nonzero _ Hc2).
    repeat split; try assumption.
    + intros a p g st' dg Hv. in_events Hv. reflexivity.
    + intros Hsame.
      rewrite (Hsame (classified ec true err (set_status_code f 0))
                 (destination opts f) f2 st diagnostics); [reflexivity|].
      apply in_app_iff. right. right. left. reflexivity.
Qed.

Lemma copy_out_turn_failed (f : FileSpec) (w : W) (summary : SummaryVar)
    (t : Turn (W * SummaryVar)) (cmd : string) (rc : Z) (out err : string) :
  copy_out_turn ec env opts f w summary t ->
  In (EvExecute cmd rc out err) (turn_events t) ->
  rc <> 0 ->
  (ignore_errors opts = false ->
   turn_file t = classified ec false err (set_status_code f 0) /\
   turn_raise t = Some (classified_exception ec false err)) /\
  (ignore_errors opts = true -> codes_nonzero ec ->
   turn_raise t = None /\
   status (turn_file t) = "failed" /\
   (status_code (turn_file t) = rcode (resolve_transfer_error ec err false) \/
    status_code (turn_file t) = PUTADMISMATCH ec /\
    exists e, In e (turn_events t) /\ is_warning e = true) /\
   ((forall e, In e (turn_events t) -> is_warning e = false) ->
    status_code (turn_file t)
    = rcode (resolve_transfer_error ec err false))).
Proof.
  intros T Hin Hrc.
  destruct T; cbn [turn_events turn_file turn_raise] in *; in_events Hin.
  - split; [auto|]. intros Hig. congruence.
  - destruct H0 as [H0|Hig]; [contradiction|].
    split; [intros Hno; congruence|]. intros _ Hcodes.
    pose proof (resolve_rcode_nonzero ec err false Hcodes) as Hnz.
    rewrite (after_transfer_nonzero _ _ _ _ _ Hrc).
    rewrite mark_transferred_nonzero by exact Hnz.
    repeat split; try reflexivity. left. reflexivity.
  - destruct H0 as [H0|Hig]; [contradiction|].
    split; [intros Hno; congruence|]. intros _ Hcodes.
    pose proof (resolve_rcode_nonzero ec err false Hcodes) as Hnz.
    rewrite (after_transfer_nonzero _ _ _ _ _ Hrc).
    rewrite mark_transferred_nonzero by exact Hnz.
    repeat split; try reflexivity. left. reflexivity.
  - destruct H0 as [H0|Hig]; [contradiction|].
    split; [intros Hno; congruence|]. intros _ Hcodes.
    pose proof (resolve_rcode_nonzero ec err false Hcodes) as Hnz.
    rewrite (after_transfer_nonzero _ _ _ _ _ Hrc).
    rewrite mark_transferred_nonzero by exact Hnz.
    repeat split; try reflexivity. left. reflexivity.
  - destruct H0 as [H0|Hig]; [contradiction|congruence].
  - split; [intros Hno; congruence|]. intros _ Hcodes.
    assert (Hput : PUTADMISMATCH ec <> 0) by apply Hcodes.
    rewrite mark_transferred_nonzero by exact Hput.
    split; [reflexivity|]. split; [reflexivity|]. split.
    + right. split; [reflexivity|].
      exists (mismatch_warning f (dat !! "adler32")).
      split; [|reflexivity].
      apply in_app_iff. right. right. right. left. reflexivity.
    + intros Hw. exfalso.
      assert (Hx : is_warning (mismatch_warning f (dat !! "adler32"))
                   = false).
      { apply Hw. apply in_app_iff. right. right. right. left.
        reflexivity. }
      discriminate Hx.
Qed.

End FailedTransfer.

(** C5, as amended: a record whose invocation exits with a nonzero code
    gets the code of the classifier for the direction and the standard
    error, and the tag [failed].  With [ignore_errors] unset the call
    raises there with the classified message, code and state, and these
    are the status the record is left with.  With [ignore_errors] set the
    tag stays [failed], and the code stays the one of the classifier
    unless the check that follows replaces it: in [copy_in] the checksum
    collaborator, which is given the record with the classified status;
    in [copy_out] the comparison with the digest of the summary, which
    sets the put-mismatch code and logs a warning. *)
Theorem failed_transfer_status (ec : ErrorCodes) (W : Type) (env : Env W)
    (opts : Options) (files : list FileSpec) (w : W) (n : nat)
    (evs : list Event) (cmd : string) (rc : Z) (out err : string) :
  rc <> 0 ->
  In (EvExecute cmd rc out err) evs ->
  (run_trace (copy_in ec env opts files w) !! n = Some evs ->
   exists f',
     run_files (copy_in ec env opts files w) !! n = Some f' /\
     (ignore_errors opts = false ->
      status_code f' = rcode (resolve_transfer_error ec err true) /\
      status f' = "failed" /\
      run_outcome (copy_in ec env opts files w)
      = Raised (classified_exception ec true err)) /\
     (ignore_errors opts = true -> codes_nonzero ec ->
      verify_keeps_status env ->
      status f' = "failed" /\ status_code f' <> 0 /\
      (forall a p f2 st dg,
         In (EvVerify a p f2 st dg) evs ->
         status_code a = rcode (resolve_transfer_error ec err true) /\
         status a = "failed") /\
      ((forall a p f2 st dg,
          In (EvVerify a p f2 st dg) evs ->
          status_code f2 = status_code a) ->
       status_code f' = rcode (resolve_transfer_error ec err true)))) /\
  (run_trace (copy_out ec env opts files w) !! n = Some evs ->
   exists f',
     run_files (copy_out ec env opts files w) !! n = Some f' /\
     (ignore_errors opts = false ->
      status_code f' = rcode (resolve_transfer_error ec err false) /\
      status f' = "failed" /\
      run_outcome (copy_out ec env opts files w)
      = Raised (classified_exception ec false err)) /\
     (ignore_errors opts = true -> codes_nonzero ec ->
      status f' = "failed" /\
      (status_code f' = rcode (resolve_transfer_error ec err false) \/
       status_code f' = PUTADMISMATCH ec /\
       exists e, In e evs /\ is_warning e = true) /\
      ((forall e, In e evs -> is_warning e = false) ->
       status_code f' = rcode (resolve_transfer_error ec err false)))).
Proof.
  intros Hrc Hin. split; intros Hev.
  - unfold copy_in in *. apply run_loop_reached in Hev.
    destruct Hev as (f & sn & Hf & Hs & -> & Hfile).
    destruct (copy_in_turn_failed ec env opts f sn _ cmd rc out err
                (copy_in_body_turn ec env opts f sn) Hin Hrc)
      as [Hstrict Hlenient].
    eexists. split; [exact Hfile|]. split.
    + intros Hig. destruct (Hstrict Hig) as [-> Hraise].
      split; [reflexivity|]. split; [reflexivity|].
      apply (run_loop_raise_at _ n files _ f sn _ Hf Hs Hraise).
    + intros Hig Hcodes Hverify.
      destruct (Hlenient Hig Hcodes Hverify) as (_ & Hs' & Hc & Harg & Hsame).
      repeat split; try assumption.
      * rewrite (Harg a p f2 st dg H). reflexivity.
      * rewrite (Harg a p f2 st dg H). reflexivity.
  - unfold copy_out in *. apply run_loop_reached in Hev.
    destruct Hev as (f & [wn summary] & Hf & Hs & -> & Hfile).
    destruct (copy_out_turn_failed ec env opts f wn summary _ cmd rc out err
                (copy_out_body_turn ec env opts f wn summary) Hin Hrc)
      as [Hstrict Hlenient].
    eexists. split; [exact Hfile|]. split.
    + intros Hig. destruct (Hstrict Hig) as [-> Hraise].
      split; [reflexivity|]. split; [reflexivity|].
      apply (run_loop_raise_at _ n files _ f _ _ Hf Hs Hraise).
    + intros Hig Hcodes.
      destruct (Hlenient Hig Hcodes) as (_ & Hs' & Hc & Hsame).
      repeat split; assumption.
Qed.


(** * The summary file of an upload *)

Lemma truthy_nonempty (s : string) : s <> "" -> Py.truthy (Some s) = true.
Proof. destruct s; [contradiction|reflexivity]. Qed.

Lemma summary_entry_found (d : SummaryJson) (key : string)
    (entry : gmap string string) (field value : string) :
  d !! key = Some entry -> entry !! field = Some value ->
  summary_entry d key = entry.
Proof.
  intros Hd He. unfold summary_entry. rewrite Hd.
  rewrite bool_decide_eq_true_2; [reflexivity|].
  intros ->. rewrite lookup_empty in He. discriminate He.
Qed.

Lemma adler32_same (f : FileSpec) (digest : string) :
  checksum f !! "adler32" = Some digest ->
  adler32_mismatch f (Some digest) = false.
Proof.
  intros H. unfold adler32_mismatch. rewrite H.
  rewrite (bool_decide_eq_false_2 (Some digest <> Some digest)); [|auto].
  apply andb_false_r.
Qed.

Lemma adler32_differs (f : FileSpec) (expected digest : string) :
  checksum f !! "adler32" = Some expected ->
  expected <> digest -> expected <> "" -> digest <> "" ->
  adler32_mismatch f (Some digest) = true.
Proof.
  intros H Hne He Hd. unfold adler32_mismatch. rewrite H.
  rewrite (truthy_nonempty _ He), (truthy_nonempty _ Hd).
  rewrite bool_decide_eq_true_2; [reflexivity|]. congruence.
Qed.

Section SummaryCheck.

Variable ec : ErrorCodes.
Context {W : Type}.
Variable env : Env W.
Variable opts : Options.

Lemma copy_out_turn_summary (f : FileSpec) (w : W) (summary : SummaryVar)
    (t : Turn (W * SummaryVar)) (path : string) (loaded : SummaryJson)
    (entry : gmap string string) (pfn digest : string) :
  copy_out_turn ec env opts f w summary t ->
  In (EvLoadJson path loaded) (turn_events t) ->
  loaded !! summary_key f = Some entry ->
  entry !! "pfn" = Some pfn ->
  entry !! "adler32" = Some digest ->
  turl (turn_file t) = Some pfn /\
  (checksum f !! "adler32" = Some digest ->
   turn_raise t = None /\
   forall cmd out err,
     In (EvExecute cmd 0 out err) (turn_events t) ->
     status_code (turn_file t) = 0 /\ status (turn_file t) = "transferred") /\
  (forall expected,
     checksum f !! "adler32" = Some expected ->
     expected <> digest -> expected <> "" -> digest <> "" ->
     (ignore_errors opts = false ->
      status_code (turn_file t) = PUTADMISMATCH ec /\
      status (turn_file t) = "failed" /\
      turn_raise t = Some (put_mismatch_exception ec)) /\
     (ignore_errors opts = true -> PUTADMISMATCH ec <> 0 ->
      status_code (turn_file t) = PUTADMISMATCH ec /\
      status (turn_file t) = "failed" /\ turn_raise t = None)).
Proof.
  intros T Hin Hkey Hpfn Hdigest.
  destruct T; cbn [turn_events turn_file turn_raise] in *; in_events Hin.
  - (* the summary was read and the digests agree or are not compared *)
    assert (Hdat : dat = entry)
      by (apply (summary_entry_found _ _ _ _ _ Hkey Hpfn)).
    rewrite mark_transferred_turl. cbn [turl set_turl].
    rewrite Hdat in *. split; [exact Hpfn|]. split.
    + intros _. split; [reflexivity|]. intros cmd o e Hx. in_events Hx.
      rewrite after_transfer_zero.
      rewrite mark_transferred_zero by reflexivity. split; reflexivity.
    + intros expected Hexp Hne He Hd. exfalso.
      rewrite Hdigest in H3.
      rewrite (adler32_differs f expected digest Hexp Hne He Hd) in H3.
      discriminate H3.
  - (* the digests differ, the call raises *)
    assert (Hdat : dat = entry)
      by (apply (summary_entry_found _ _ _ _ _ Hkey Hpfn)).
    cbn [turl set_turl put_mismatch set_status set_status_code].
    rewrite Hdat in *. split; [exact Hpfn|]. split.
    + intros Hsame. exfalso. rewrite Hdigest in H3.
      rewrite (adler32_same f digest Hsame) in H3. discriminate H3.
    + intros expected _ _ _ _. split; [|intros Hig; congruence].
      intros _. repeat split.
  - (* the digests differ, the failure is ignored *)
    assert (Hdat : dat = entry)
      by (apply (summary_entry_found _ _ _ _ _ Hkey Hpfn)).
    rewrite mark_transferred_turl. cbn [turl set_turl put_mismatch
                                          set_status set_status_code].
    rewrite Hdat in *. split; [exact Hpfn|]. split.
    + intros Hsame. exfalso. rewrite Hdigest in H3.
      rewrite (adler32_same f digest Hsame) in H3. discriminate H3.
    + intros expected _ _ _ _. split; [intros Hig; congruence|].
      intros _ Hput. rewrite mark_transferred_nonzero by exact Hput.
      repeat split.
Qed.

End SummaryCheck.

(** C8, as amended: in [copy_out], when the summary file loaded for a
    record maps its key [scope:lfn] to an entry with a [pfn] and an
    [adler32] digest, the [turl] of the record is the [pfn] of the entry.
    When the expected digest of the record is the one of the entry and the
    invocation of the record exited with zero, the record ends with code 0
    and tag [transferred].  When the two digests are nonempty and differ,
    the record ends with the put-mismatch code and the tag [failed]
    (the code being nonzero), and with [ignore_errors] unset the call
    raises with that code and the state [AD_MISMATCH]. *)
Theorem summary_digest_check (ec : ErrorCodes) (W : Type) (env : Env W)
    (opts : Options) (files : list FileSpec) (w : W) (n : nat)
    (f : FileSpec) (evs : list Event) (path : string)
    (loaded : SummaryJson) (entry : gmap string string)
    (pfn digest : string) :
  files !! n = Some f ->
  run_trace (copy_out ec env opts files w) !! n = Some evs ->
  In (EvLoadJson path loaded) evs ->
  loaded !! summary_key f = Some entry ->
  entry !! "pfn" = Some pfn ->
  entry !! "adler32" = Some digest ->
  exists f',
    run_files (copy_out ec env opts files w) !! n = Some f' /\
    turl f' = Some pfn /\
    (checksum f !! "adler32" = Some digest ->
     forall cmd out err,
       In (EvExecute cmd 0 out err) evs ->
       status_code f' = 0 /\ status f' = "transferred") /\
    (forall expected,
       checksum f !! "adler32" = Some expected ->
       expected <> digest -> expected <> "" -> digest <> "" ->
       (ignore_errors opts = false ->
        status_code f' = PUTADMISMATCH ec /\ status f' = "failed" /\
        run_outcome (copy_out ec env opts files w)
        = Raised {| exc_message := "Failed to stageout: CRC mismatched";
                    exc_code := PUTADMISMATCH ec;
                    exc_state := "AD_MISMATCH" |}) /\
       (ignore_errors opts = true -> PUTADMISMATCH ec <> 0 ->
        status_code f' = PUTADMISMATCH ec /\ status f' = "failed")).
Proof.
  intros Hn Hev Hin Hkey Hpfn Hdigest.
  unfold copy_out in *. apply run_loop_reached in Hev.
  destruct Hev as (g & [wn summary] & Hg & Hs & -> & Hfile).
  assert (g = f) as -> by congruence.
  destruct (copy_out_turn_summary ec env opts f wn summary _ path loaded
              entry pfn digest (copy_out_body_turn ec env opts f wn summary)
              Hin Hkey Hpfn Hdigest) as (Hturl & Hsame & Hdiff).
  eexists. split; [exact Hfile|]. split; [exact Hturl|]. split.
  - intros Heq. apply (Hsame Heq).
  - intros expected Hexp Hne He Hd.
    destruct (Hdiff expected Hexp Hne He Hd) as [Hstrict Hlenient]. split.
    + intros Hig. destruct (Hstrict Hig) as (Hc & Ht & Hraise).
      split; [exact Hc|]. split; [exact Ht|].
      apply (run_loop_raise_at _ n files _ f _ _ Hn Hs Hraise).
    + intros Hig Hput. destruct (Hlenient Hig Hput) as (Hc & Ht & _).
      split; assumption.
Qed.


(** * The variable [summary] from record to record *)

Section LoopStates.

Context {S : Type}.
Variable body : FileSpec -> S -> Turn S.

(** The loop got to every record before one it got to. *)
Lemma state_before_le (j : nat) :
  forall (files : list FileSpec) (s sj : S) (i : nat),
    state_before body files s j = Some sj -> (i <= j)%nat ->
    is_Some (state_before body files s i).
Proof.
  induction j as [|j IH]; intros files s sj i Hj Hi.
  - assert (i = 0%nat) as -> by lia. eexists. reflexivity.
  - destruct i as [|i]; [eexists; reflexivity|].
    destruct files as [|f0 rest]; simpl in Hj; [discriminate|].
    simpl. destruct (turn_raise (body f0 s)); [discriminate|].
    apply (IH rest _ sj i Hj). lia.
Qed.

(** The state a record is started in is the one the turn before left. *)
Lemma state_before_succ_inv (n : nat) :
  forall (files : list FileSpec) (s s' : S),
    state_before body files s (Datatypes.S n) = Some s' ->
    exists f sn,
      files !! n = Some f /\
      state_before body files s n = Some sn /\
      turn_raise (body f sn) = None /\
      s' = turn_state (body f sn).
Proof.
  induction n as [|n IH]; intros [|f0 rest] s s' H; simpl in H;
    try discriminate.
  - destruct (turn_raise (body f0 s)) eqn:E; [discriminate|].
    injection H as <-. exists f0, s. auto.
  - destruct (turn_raise (body f0 s)) eqn:E; [discriminate|].
    destruct (IH rest _ s' H) as (f & sn & Hf & Hs & Hr & ->).
    exists f, sn. simpl. rewrite E. auto.
Qed.

End LoopStates.

Lemma status_code_after_transfer (ec : ErrorCodes) (is_stagein : bool)
    (rc : Z) (err : string) (f : FileSpec) :
  status_code (mark_transferred
                 (after_transfer ec is_stagein rc err (set_status_code f 0)))
  = if bool_decide (rc = 0) then 0
    else rcode (resolve_transfer_error ec err is_stagein).
Proof.
  destruct (Z.eq_dec rc 0) as [->|Hrc].
  - reflexivity.
  - rewrite (after_transfer_nonzero _ _ _ _ _ Hrc).
    rewrite (bool_decide_eq_false_2 (rc = 0) Hrc).
    unfold mark_transferred, classified.
    cbn [status_code set_status_code set_status].
    destruct (bool_decide
                (rcode (resolve_transfer_error ec err is_stagein) = 0))
      eqn:E; [|reflexivity].
    apply bool_decide_eq_true_1 in E. cbn [status_code set_status_code
                                             set_status].
    symmetry. exact E.
Qed.

Lemma copy_out_cmd_without_summary (opts : Options) (summary : SummaryVar)
    (f : FileSpec) :
  summary_truthy summary = false ->
  copy_out_cmd opts summary f = copy_out_cmd opts (SummaryFlag false) f.
Proof.
  intros H. unfold copy_out_cmd. rewrite H. reflexivity.
Qed.

Section SummaryVariable.

Variable ec : ErrorCodes.
Context {W : Type}.
Variable env : Env W.
Variable opts : Options.

(** A turn that loads a summary file leaves it in the variable. *)
Lemma copy_out_turn_loaded (f : FileSpec) (w : W) (summary : SummaryVar)
    (t : Turn (W * SummaryVar)) (path : string) (loaded : SummaryJson) :
  copy_out_turn ec env opts f w summary t ->
  In (EvLoadJson path loaded) (turn_events t) ->
  (turn_state t).2 = SummaryDict loaded.
Proof.
  intros T Hin.
  destruct T; cbn [turn_events turn_state] in *; in_events Hin; reflexivity.
Qed.

(** With a false [summary] a turn is the invocation and nothing else. *)
Lemma copy_out_turn_without_summary (f : FileSpec) (w : W)
    (summary : SummaryVar) (t : Turn (W * SummaryVar)) :
  summary_truthy summary = false ->
  copy_out_turn ec env opts f w summary t ->
  (turn_state t).2 = summary /\
  exists rc out err,
    turn_events t
    = execute_events
        (Py.join_spaces (copy_out_cmd opts (SummaryFlag false) f))
        rc out err /\
    turl (turn_file t) = turl f /\
    checksum (turn_file t) = checksum f /\
    status_code (turn_file t)
    = (if bool_decide (rc = 0) then 0
       else rcode (resolve_transfer_error ec err false)).
Proof.
  intros Hfalse T.
  destruct T; cbn [turn_events turn_file turn_state] in *;
    try congruence;
    (split; [reflexivity|]); exists rc, out, err;
    rewrite (copy_out_cmd_without_summary opts summary f Hfalse).
  - split; [reflexivity|]. split; [reflexivity|]. split; [reflexivity|].
    rewrite (bool_decide_eq_false_2 (rc = 0)) by assumption. reflexivity.
  - split; [reflexivity|].
    rewrite status_code_after_transfer, mark_transferred_turl,
      after_transfer_turl.
    split; [reflexivity|]. split; [|reflexivity].
    unfold mark_transferred, after_transfer.
    destruct (bool_decide (rc <> 0)), (bool_decide _); reflexivity.
Qed.

Lemma copy_out_body_keeps_false (f : FileSpec) (s : W * SummaryVar) :
  summary_truthy s.2 = false ->
  summary_truthy (turn_state (copy_out_body ec env opts f s)).2 = false.
Proof.
  destruct s as [w summary]. intros Hfalse.
  destruct (copy_out_turn_without_summary f w summary _ Hfalse
              (copy_out_body_turn ec env opts f w summary)) as [-> _].
  exact Hfalse.
Qed.

End SummaryVariable.

(** C2: in [copy_out], once the summary file loaded for a record is the
    empty object, every later record of the call gets its invocation
    without [--summary] and nothing else: no summary file is looked for or
    loaded, nothing is compared, the [turl] and the checksums of the
    record are untouched and its status code comes from the exit code
    alone; and the summary option was set for the call. *)
Theorem summary_stops_after_empty (ec : ErrorCodes) (W : Type)
    (env : Env W) (opts : Options) (files : list FileSpec) (w : W)
    (k j : nat) (evk evj : list Event) (path : string) (fj : FileSpec) :
  run_trace (copy_out ec env opts files w) !! k = Some evk ->
  In (EvLoadJson path ∅) evk ->
  (k < j)%nat ->
  files !! j = Some fj ->
  run_trace (copy_out ec env opts files w) !! j = Some evj ->
  opt_summary opts = true /\
  exists rc out err fj',
    evj = execute_events
            (Py.join_spaces (copy_out_cmd opts (SummaryFlag false) fj))
            rc out err /\
    (forall e, In e evj ->
       is_exists e = false /\ is_load_json e = false /\
       is_warning e = false) /\
    run_files (copy_out ec env opts files w) !! j = Some fj' /\
    turl fj' = turl fj /\
    checksum fj' = checksum fj /\
    status_code fj'
    = (if bool_decide (rc = 0) then 0
       else rcode (resolve_transfer_error ec err false)).
Proof.
  intros Hk Hload Hkj Hfj Hj. unfold copy_out in *.
  set (s0 := (setenv env "RUCIO_LOGGING_FORMAT" logging_format w,
              SummaryFlag (opt_summary opts))) in *.
  set (body := copy_out_body ec env opts) in *.
  assert (Hkeep : forall f s, summary_truthy s.2 = false ->
                    summary_truthy (turn_state (body f s)).2 = false)
    by (apply copy_out_body_keeps_false).
  apply run_loop_reached in Hk.
  destruct Hk as (fk & [wk sk] & Hfk & Hsk & -> & _).
  apply run_loop_reached in Hj.
  destruct Hj as (g & [wj sj] & Hg & Hsj & -> & Hfile).
  assert (g = fj) as -> by congruence.
  split.
  - (* the option was set, or nothing would have been loaded *)
    destruct (opt_summary opts) eqn:Hopt; [reflexivity|]. exfalso.
    assert (Hfalse : summary_truthy sk = false).
    { apply (state_before_preserved body
               (fun s => summary_truthy s.2 = false) Hkeep
               0%nat files s0 k s0 (wk, sk)); [lia|reflexivity| |exact Hsk].
      reflexivity. }
    destruct (copy_out_turn_without_summary ec env opts fk wk sk _ Hfalse
                (copy_out_body_turn ec env opts fk wk sk))
      as (_ & rc & out & err & Hevs & _).
    unfold body in Hload. rewrite Hevs in Hload. in_events Hload.
  - (* after the empty summary the variable is false *)
    destruct (state_before_le body j files s0 (wj, sj) (Datatypes.S k) Hsj)
      as [s' Hs']; [lia|].
    destruct (state_before_succ_inv body k files s0 s' Hs')
      as (fk' & sk' & Hfk' & Hsk' & _ & ->).
    assert (fk' = fk) as -> by congruence.
    assert (sk' = (wk, sk)) as -> by congruence.
    assert (Hfalse : summary_truthy sj = false).
    { apply (state_before_preserved body
               (fun s => summary_truthy s.2 = false) Hkeep
               (Datatypes.S k) files s0 j
               (turn_state (body fk (wk, sk))) (wj, sj));
        [lia|exact Hs'| |exact Hsj].
      unfold body.
      rewrite (copy_out_turn_loaded ec env opts fk wk sk _ path ∅
                 (copy_out_body_turn ec env opts fk wk sk) Hload).
      reflexivity. }
    destruct (copy_out_turn_without_summary ec env opts fj wj sj _ Hfalse
                (copy_out_body_turn ec env opts fj wj sj))
      as (_ & rc & out & err & Hevs & Hturl & Hck & Hcode).
    exists rc, out, err. eexists.
    split; [exact Hevs|]. split.
    + intros e He. unfold body in He. rewrite Hevs in He.
      apply in_execute_events in He.
      destruct He as [->|(_ & H1 & H2 & H3)]; auto.
    + split; [exact Hfile|]. split; [exact Hturl|]. split; assumption.
Qed.


(** * More on the classifier *)

Lemma split_lines_nonempty (s : string) : Py.split_lines s <> [].
Proof.
  destruct s as [|c s]; simpl; [discriminate|].
  destruct (Ascii.eqb c Py.newline); [discriminate|].
  destruct (Py.split_lines s); discriminate.
Qed.

Lemma split_lines_app (a b : string) :
  Py.split_lines (a ++ String Py.newline b)
  = (Py.split_lines a ++ Py.split_lines b)%list.
Proof.
  induction a as [|c a IH]; simpl.
  - reflexivity.
  - rewrite IH. destruct (Ascii.eqb c Py.newline); [reflexivity|].
    destruct (Py.split_lines a) as [|l ls] eqn:E; [|reflexivity].
    exfalso. exact (split_lines_nonempty a E).
Qed.

Lemma join_lines_cons (l : string) (ls : list string) :
  ls <> [] ->
  join_lines (l :: ls) = l ++ String Py.newline (join_lines ls).
Proof. destruct ls; [contradiction|reflexivity]. Qed.

(** X1: the lines the classifier scans contain no newline, there is at
    least one, and joined by newlines they are the text it was given. *)
Theorem split_lines_partition (output : string) :
  join_lines (Py.split_lines output) = output /\
  Forall (fun l => no_newline l = true) (Py.split_lines output) /\
  Py.split_lines output <> [].
Proof.
  split; [|split; [|apply split_lines_nonempty]].
  - induction output as [|c s IH]; [reflexivity|]. simpl.
    destruct (Ascii.eqb c Py.newline) eqn:E.
    + apply Ascii.eqb_eq in E. subst c.
      rewrite join_lines_cons by apply split_lines_nonempty.
      rewrite IH. reflexivity.
    + destruct (Py.split_lines s) as [|l ls] eqn:El.
      * exfalso. exact (split_lines_nonempty s El).
      * rewrite <- IH. destruct ls; reflexivity.
  - induction output as [|c s IH]; simpl.
    + repeat constructor.
    + destruct (Ascii.eqb c Py.newline) eqn:E.
      * constructor; [reflexivity|exact IH].
      * destruct (Py.split_lines s) as [|l ls] eqn:El.
        -- repeat constructor. simpl. rewrite E. reflexivity.
        -- inversion IH as [|? ? Hl Hls]; subst.
           constructor; [|exact Hls]. simpl. rewrite E, Hl. reflexivity.
Qed.

Section ClassifierCode.

Variable ec : ErrorCodes.

Lemma scan_lines_rcode_exact (ls : list string) (ret : TransferError) :
  rcode (fold_left (scan_line ec) ls ret)
  = if existsb marker_only ls then RUCIOSERVICEUNAVAILABLE ec
    else rcode ret.
Proof.
  revert ret; induction ls as [|l ls IH]; intros ret; simpl.
  - reflexivity.
  - rewrite IH. unfold scan_line, marker_only.
    destruct (search_details l); simpl; [reflexivity|].
    destruct (Py.contains marker l); simpl; [|reflexivity].
    destruct (existsb _ ls); reflexivity.
Qed.

Lemma no_match_quiet (ls : list string) :
  existsb line_matches ls = false ->
  Forall (fun l => search_details l = None /\
                   Py.contains marker l = false) ls.
Proof.
  induction ls as [|l ls IH]; simpl; intros H; [constructor|].
  apply orb_false_iff in H. destruct H as [Hl Hls].
  constructor; [|apply IH; exact Hls].
  unfold line_matches in Hl.
  destruct (search_details l); [discriminate|]. split; [reflexivity|exact Hl].
Qed.

(** After a line that matches, the message does not depend on what was
    found before. *)
Lemma scan_lines_error_last (ls : list string) :
  existsb line_matches ls = true ->
  forall r1 r2 : TransferError,
    error (fold_left (scan_line ec) ls r1)
    = error (fold_left (scan_line ec) ls r2).
Proof.
  induction ls as [|l ls IH]; simpl; intros H r1 r2; [discriminate|].
  destruct (existsb line_matches ls) eqn:E.
  - apply IH. reflexivity.
  - rewrite !(scan_lines_quiet ec ls) by (apply no_match_quiet; exact E).
    rewrite orb_false_r in H. unfold line_matches in H. unfold scan_line.
    destruct (search_details l); [reflexivity|]. rewrite H. reflexivity.
Qed.

End ClassifierCode.

(** X2: the code of [resolve_transfer_error] is the service-unavailable
    code exactly when some line contains the marker and does not match
    the [Details:] pattern; otherwise it is the default of the
    direction. *)
Theorem resolve_rcode_exact (ec : ErrorCodes) (output : string)
    (is_stagein : bool) :
  rcode (resolve_transfer_error ec output is_stagein)
  = if existsb marker_only (Py.split_lines output)
    then RUCIOSERVICEUNAVAILABLE ec
    else if is_stagein then STAGEINFAILED ec else STAGEOUTFAILED ec.
Proof.
  unfold resolve_transfer_error. rewrite scan_lines_rcode_exact. reflexivity.
Qed.

(** X3: for two texts put one after the other with a newline between, the
    code is the service-unavailable code when a line of either sets it,
    and the message is the one of the second text alone as soon as a line
    of the second text matches. *)
Theorem resolve_transfer_error_append (ec : ErrorCodes) (a b : string)
    (is_stagein : bool) :
  rcode (resolve_transfer_error ec (a ++ nl ++ b) is_stagein)
  = (if existsb marker_only (Py.split_lines a)
        || existsb marker_only (Py.split_lines b)
     then RUCIOSERVICEUNAVAILABLE ec
     else if is_stagein then STAGEINFAILED ec else STAGEOUTFAILED ec) /\
  (existsb line_matches (Py.split_lines b) = true ->
   error (resolve_transfer_error ec (a ++ nl ++ b) is_stagein)
   = error (resolve_transfer_error ec b is_stagein)).
Proof.
  change (a ++ nl ++ b) with (a ++ String Py.newline b). split.
  - rewrite resolve_rcode_exact, split_lines_app, existsb_app. reflexivity.
  - intros H. unfold resolve_transfer_error.
    rewrite split_lines_app, fold_left_app.
    apply scan_lines_error_last. exact H.
Qed.


(** * The [Details:] pattern *)

Lemma dot_star_no_newline (s : string) :
  no_newline s = true -> Py.dot_star s = s.
Proof.
  induction s as [|c s IH]; simpl; intros H; [reflexivity|].
  apply andb_true_iff in H. destruct H as [Hc Hs].
  apply negb_true_iff in Hc. rewrite Hc. f_equal. apply IH. exact Hs.
Qed.

Lemma no_newline_app (a b : string) :
  no_newline (a ++ b) = true -> no_newline b = true.
Proof.
  induction a as [|c a IH]; intros H; [exact H|].
  rewrite string_app_cons in H. simpl in H.
  apply andb_true_iff in H. apply IH. apply H.
Qed.

Lemma string_app_assoc (a b c : string) : (a ++ b) ++ c = a ++ b ++ c.
Proof.
  induction a as [|x a IH]; [reflexivity|].
  rewrite !string_app_cons. f_equal. exact IH.
Qed.

Lemma match_details_here_group (s m : string) :
  match_details_here s = Some m ->
  no_newline s = true ->
  skip_blanks m = m /\ exists pre : string, s = pre ++ m.
Proof.
  unfold match_details_here. intros H Hnl.
  destruct (Py.strip_prefix "Details" s) as [r|] eqn:Hp; [|discriminate].
  destruct (skip_blanks r) as [|c r'] eqn:Hr; [discriminate|].
  destruct c as [[] [] [] [] [] [] [] []]; try discriminate H.
  assert (Hm : m = Py.dot_star (skip_blanks r')) by congruence.
  clear H. subst m.
  apply strip_prefix_app in Hp.
  destruct (blanks_suffix r) as [pre1 H1].
  destruct (blanks_suffix r') as [pre2 H2].
  rewrite Hr in H1.
  assert (Hs : s = ("Details" ++ pre1 ++ String ":"%char pre2)
                   ++ skip_blanks r').
  { rewrite Hp, H1. rewrite H2 at 1.
    rewrite !string_app_assoc, !string_app_cons. reflexivity. }
  rewrite dot_star_no_newline.
  - split; [apply blanks_idem|]. eexists. exact Hs.
  - rewrite Hs in Hnl. apply (no_newline_app _ _ Hnl).
Qed.

Lemma search_details_group (s : string) :
  forall m : string,
    search_details s = Some m ->
    no_newline s = true ->
    skip_blanks m = m /\ exists pre : string, s = pre ++ m.
Proof.
  induction s as [|c s IH]; intros m H Hnl.
  - rewrite search_details_step in H.
    destruct (match_details_here "") eqn:E; [|discriminate].
    injection H as ->. apply match_details_here_group; assumption.
  - rewrite search_details_step in H.
    destruct (match_details_here (String c s)) eqn:E.
    + injection H as ->. apply match_details_here_group; assumption.
    + simpl in Hnl. apply andb_true_iff in Hnl.
      destruct (IH m H (proj2 Hnl)) as [Hsp [pre Hpre]].
      split; [exact Hsp|].
      exists (String c pre). rewrite string_app_cons. f_equal. exact Hpre.
Qed.

Lemma contains_details_colon (s : string) :
  Py.contains "Details:" s = true -> is_Some (search_details s).
Proof.
  induction s as [|c s IH]; intros H.
  - discriminate H.
  - change (Py.contains "Details:" (String c s))
      with (match Py.strip_prefix "Details:" (String c s) with
            | Some _ => true
            | None => Py.contains "Details:" s
            end) in H.
    rewrite search_details_step.
    destruct (Py.strip_prefix "Details:" (String c s)) as [r|] eqn:E.
    + rewrite (details_colon_here _ _ E). eexists. reflexivity.
    + destruct (match_details_here (String c s)); [eexists; reflexivity|].
      apply IH. exact H.
Qed.

(** X4: on a line of the text, the [Details:] pattern matches whenever
    the line contains [Details:], and the message it gives is the end of
    the line and has no white space left at its start, whatever the class
    of white space of the interpreter is. *)
Theorem details_message_of_line (output line : string) :
  In line (Py.split_lines output) ->
  (Py.contains "Details:" line = true -> is_Some (search_details line)) /\
  (forall m : string,
     search_details line = Some m ->
     skip_blanks m = m /\ exists pre : string, line = pre ++ m).
Proof.
  intros Hin. split; [apply contains_details_colon|].
  intros m Hm. apply (search_details_group line m Hm).
  destruct (split_lines_partition output) as (_ & Hall & _).
  rewrite Forall_forall in Hall. apply Hall. apply list_elem_of_In. exact Hin.
Qed.

(** * What the calls leave of the records *)

Section RunFiles.

Context {S : Type}.
Variable body : FileSpec -> S -> Turn S.

(** A record of the result is the record of the caller, or what its turn
    left of it. *)
Lemma run_files_lookup (files : list FileSpec) :
  forall (s : S) (n : nat) (f f' : FileSpec),
    files !! n = Some f ->
    run_files (run_loop body files s) !! n = Some f' ->
    (f' = f /\ run_trace (run_loop body files s) !! n = None) \/
    exists sn,
      state_before body files s n = Some sn /\
      f' = turn_file (body f sn) /\
      run_trace (run_loop body files s) !! n = Some (turn_events (body f sn)).
Proof.
  induction files as [|f0 rest IH]; intros s n f f' Hf Hf'.
  - destruct n; discriminate.
  - simpl in Hf'. destruct (turn_raise (body f0 s)) eqn:E; simpl in Hf'.
    + destruct n as [|n]; simpl in Hf, Hf'.
      * right. exists s. simpl. rewrite E. simpl.
        split; [reflexivity|]. split; congruence.
      * left. simpl. rewrite E. simpl. split; [congruence|].
        destruct n; reflexivity.
    + destruct n as [|n]; simpl in Hf, Hf'.
      * right. exists s. simpl. rewrite E. simpl.
        split; [reflexivity|]. split; congruence.
      * destruct (IH _ n f f' Hf Hf') as [[-> Hnone]|(sn & Hs & -> & Ht)].
        -- left. simpl. rewrite E. simpl. auto.
        -- right. exists sn. simpl. rewrite E. simpl. auto.
Qed.

Lemma returned_files_quiet (files : list FileSpec) (s : S) (f' : FileSpec) :
  run_outcome (run_loop body files s) = Returned ->
  In f' (run_files (run_loop body files s)) ->
  exists f sn, f' = turn_file (body f sn) /\ turn_raise (body f sn) = None.
Proof.
  intros Hret Hin. apply list_elem_of_In, list_elem_of_lookup_1 in Hin.
  destruct Hin as [n Hn].
  assert (Hlt : (n < length files)%nat).
  { apply lookup_lt_Some in Hn. rewrite run_files_length in Hn. exact Hn. }
  apply lookup_lt_is_Some_2 in Hlt. destruct Hlt as [f Hf].
  destruct (run_loop_returned body files s Hret n f Hf) as (sn & Hs & Hq).
  destruct (run_loop_lookup body n files s f sn Hf Hs) as [_ Hfile].
  exists f, sn. split; [congruence|exact Hq].
Qed.

End RunFiles.

Section Frame.

Variable ec : ErrorCodes.
Context {W : Type}.
Variable env : Env W.
Variable opts : Options.

Lemma same_identity_refl (f : FileSpec) : same_identity f f.
Proof. repeat split. Qed.

Lemma same_identity_trans (f g h : FileSpec) :
  same_identity f g -> same_identity g h -> same_identity f h.
Proof.
  unfold same_identity. intros H1 H2. destruct_and!.
  repeat split; congruence.
Qed.

Lemma copy_out_turn_identity (f : FileSpec) (w : W) (summary : SummaryVar)
    (t : Turn (W * SummaryVar)) :
  copy_out_turn ec env opts f w summary t -> same_identity f (turn_file t).
Proof.
  intros T. destruct T; cbn [turn_file]; by_fields.
Qed.

Lemma copy_in_turn_identity (f : FileSpec) (w : W) (t : Turn W) :
  copy_in_turn ec env opts f w t ->
  (same_identity f (turn_file t) /\ turl (turn_file t) = turl f /\
   forall e, In e (turn_events t) -> is_verify e = false) \/
  exists a p f2 st dg,
    In (EvVerify a p f2 st dg) (turn_events t) /\
    same_identity f a /\ turl a = turl f /\
    same_identity f2 (turn_file t) /\ turl (turn_file t) = turl f2.
Proof.
  intros T. destruct T; cbn [turn_file turn_events].
  - left. split; [by_fields|]. split; [reflexivity|]. intros e [].
  - left. split; [by_fields|]. split; [reflexivity|].
    intros e He. in_events He; subst; reflexivity.
  - left. split; [by_fields|]. split; [by_fields|].
    intros e He. in_events He; subst; reflexivity.
  - right. eexists _, _, _, _, _.
    split; [apply in_app_iff; right; right; left; reflexivity|].
    split; [by_fields|]. split; [by_fields|]. split; by_fields.
  - right. eexists _, _, _, _, _.
    split; [apply in_app_iff; right; right; left; reflexivity|].
    split; [by_fields|]. split; [by_fields|]. split; by_fields.
Qed.

End Frame.

(** X5: [copy_out] gives back as many records as it was given, and of
    every record, whether the loop got to it or not and however the call
    ends, it changes at most [turl], [status] and [status_code]. *)
Theorem copy_out_keeps_identity (ec : ErrorCodes) (W : Type) (env : Env W)
    (opts : Options) (files : list FileSpec) (w : W) :
  length (run_files (copy_out ec env opts files w)) = length files /\
  forall (n : nat) (f f' : FileSpec),
    files !! n = Some f ->
    run_files (copy_out ec env opts files w) !! n = Some f' ->
    same_identity f f'.
Proof.
  unfold copy_out. split; [apply run_files_length|].
  intros n f f' Hf Hf'.
  destruct (run_files_lookup _ files _ n f f' Hf Hf')
    as [[-> _]|([wn summary] & _ & -> & _)].
  - apply same_identity_refl.
  - apply (copy_out_turn_identity ec env opts f wn summary).
    apply copy_out_body_turn.
Qed.


(** X6: of a record, [copy_in] itself changes only [status] and
    [status_code].  Either the record is given back with every other
    field as it was, and the checksum collaborator was not called for it;
    or the collaborator was called, with a record that differs from the
    one of the caller in the status only, and the record given back is the
    one the collaborator left, up to the status. *)
Theorem copy_in_keeps_identity (ec : ErrorCodes) (W : Type) (env : Env W)
    (opts : Options) (files : list FileSpec) (w : W) (n : nat)
    (f f' : FileSpec) :
  files !! n = Some f ->
  run_files (copy_in ec env opts files w) !! n = Some f' ->
  (same_identity f f' /\ turl f' = turl f /\
   forall evs e, run_trace (copy_in ec env opts files w) !! n = Some evs ->
                 In e evs -> is_verify e = false) \/
  exists evs a p f2 st dg,
    run_trace (copy_in ec env opts files w) !! n = Some evs /\
    In (EvVerify a p f2 st dg) evs /\
    same_identity f a /\ turl a = turl f /\
    same_identity f2 f' /\ turl f' = turl f2.
Proof.
  unfold copy_in. intros Hf Hf'.
  destruct (run_files_lookup _ files _ n f f' Hf Hf')
    as [[-> Hnone]|(sn & _ & -> & Ht)].
  - left. split; [apply same_identity_refl|]. split; [reflexivity|].
    intros evs e Hev. congruence.
  - destruct (copy_in_turn_identity ec env opts f sn _
                (copy_in_body_turn ec env opts f sn))
      as [(Hid & Hturl & Hnov)|(a & p & f2 & st & dg & Hin & H)].
    + left. split; [exact Hid|]. split; [exact Hturl|].
      intros evs e Hev He. apply Hnov. congruence.
    + right. eexists _, a, p, f2, st, dg. split; [exact Ht|].
      split; [exact Hin|exact H].
Qed.


(** * The statuses and the exceptions of a call *)

Section Outcomes.

Variable ec : ErrorCodes.
Context {W : Type}.
Variable env : Env W.
Variable opts : Options.

Lemma resolve_rcode_cases (err : string) (is_stagein : bool) :
  rcode (resolve_transfer_error ec err is_stagein)
  = (if is_stagein then STAGEINFAILED ec else STAGEOUTFAILED ec) \/
  rcode (resolve_transfer_error ec err is_stagein)
  = RUCIOSERVICEUNAVAILABLE ec.
Proof.
  unfold resolve_transfer_error.
  apply (scan_lines_rcode ec _ (default_error ec err is_stagein)).
Qed.

Lemma upload_status_marked (g : FileSpec) :
  status_code g = 0 \/
  (status g = "failed" /\
   (status_code g = STAGEOUTFAILED ec \/
    status_code g = RUCIOSERVICEUNAVAILABLE ec \/
    status_code g = PUTADMISMATCH ec)) ->
  upload_status ec (mark_transferred g).
Proof.
  intros H. destruct (Z.eq_dec (status_code g) 0) as [Hz|Hnz].
  - rewrite (mark_transferred_zero g Hz). left. split; reflexivity.
  - rewrite (mark_transferred_nonzero g Hnz).
    destruct H as [H|H]; [contradiction|]. right. exact H.
Qed.

Lemma after_upload_status (rc : Z) (err : string) (f : FileSpec)
    (u : option string) :
  let g := after_transfer ec false rc err (set_status_code f 0) in
  (status_code g = 0 \/
   (status g = "failed" /\
    (status_code g = STAGEOUTFAILED ec \/
     status_code g = RUCIOSERVICEUNAVAILABLE ec \/
     status_code g = PUTADMISMATCH ec))) /\
  status_code (set_turl g u) = status_code g /\
  status (set_turl g u) = status g.
Proof.
  intros g. split; [|split; reflexivity].
  unfold g, after_transfer. destruct (bool_decide (rc <> 0)).
  - right. split; [reflexivity|].
    destruct (resolve_rcode_cases err false) as [H|H]; [left|right; left];
      exact H.
  - left. reflexivity.
Qed.

Lemma copy_out_turn_status (f : FileSpec) (w : W) (summary : SummaryVar)
    (t : Turn (W * SummaryVar)) :
  copy_out_turn ec env opts f w summary t ->
  upload_status ec (turn_file t).
Proof.
  intros T. destruct T; cbn [turn_file].
  - right. split; [reflexivity|].
    destruct (resolve_rcode_cases err false) as [Hc|Hc]; [left|right; left];
      exact Hc.
  - apply upload_status_marked.
    apply (proj1 (after_upload_status rc err f None)).
  - apply upload_status_marked.
    apply (proj1 (after_upload_status rc err f None)).
  - apply upload_status_marked.
    destruct (after_upload_status rc err f (dat !! "pfn")) as (Hg & -> & ->).
    exact Hg.
  - right. split; [reflexivity|]. right. right. reflexivity.
  - apply upload_status_marked. right. split; [reflexivity|].
    right. right. reflexivity.
Qed.

(** A turn that went through with [ignore_errors] unset was a success. *)
Lemma copy_in_turn_clean (f : FileSpec) (w : W) (t : Turn W) :
  ignore_errors opts = false ->
  copy_in_turn ec env opts f w t ->
  turn_raise t = None ->
  status_code (turn_file t) = 0 /\
  (status (turn_file t) = "remote_io" \/
   status (turn_file t) = "transferred").
Proof.
  intros Hig T Hq.
  destruct T; cbn [turn_file turn_raise] in *; try discriminate Hq.
  - split; [reflexivity|left; reflexivity].
  - destruct H1 as [->|H1]; [|congruence].
    rewrite after_transfer_zero, mark_transferred_zero by reflexivity.
    split; [reflexivity|right; reflexivity].
  - destruct H4 as [Hz|H4]; [|congruence].
    rewrite (mark_transferred_zero _ Hz).
    split; [reflexivity|right; reflexivity].
Qed.

Lemma copy_out_turn_clean (f : FileSpec) (w : W) (summary : SummaryVar)
    (t : Turn (W * SummaryVar)) :
  ignore_errors opts = false ->
  copy_out_turn ec env opts f w summary t ->
  turn_raise t = None ->
  status_code (turn_file t) = 0 /\ status (turn_file t) = "transferred".
Proof.
  intros Hig T Hq.
  destruct T; cbn [turn_file turn_raise] in *; try discriminate Hq;
    try congruence;
    (destruct H0 as [->|H0]; [|congruence]);
    rewrite after_transfer_zero, mark_transferred_zero by reflexivity;
    split; reflexivity.
Qed.

(** What a turn of [copy_out] raises. *)
Lemma copy_out_turn_raised (f : FileSpec) (w : W) (summary : SummaryVar)
    (t : Turn (W * SummaryVar)) (e : PilotException) :
  copy_out_turn ec env opts f w summary t ->
  turn_raise t = Some e ->
  ignore_errors opts = false /\
  status (turn_file t) = "failed" /\
  status_code (turn_file t) = exc_code e /\
  ((exists cmd rc out err,
      In (EvExecute cmd rc out err) (turn_events t) /\ rc <> 0 /\
      e = classified_exception ec false err /\
      exc_state e = "COPY_ERROR" /\
      (exc_code e = STAGEOUTFAILED ec \/
       exc_code e = RUCIOSERVICEUNAVAILABLE ec)) \/
   (e = put_mismatch_exception ec /\
    exists cmd out err path loaded,
      In (EvExecute cmd 0 out err) (turn_events t) /\
      In (EvLoadJson path loaded) (turn_events t))).
Proof.
  intros T Hr.
  destruct T; cbn [turn_file turn_events turn_raise] in *;
    try discriminate Hr; injection Hr as <-.
  - split; [assumption|]. split; [reflexivity|]. split; [reflexivity|].
    left. exists (Py.join_spaces (copy_out_cmd opts summary f)), rc, out, err.
    split; [left; reflexivity|]. split; [assumption|].
    split; [reflexivity|]. split.
    + unfold classified_exception. cbn [exc_state].
      unfold resolve_transfer_error. rewrite scan_lines_state. reflexivity.
    + apply (resolve_rcode_cases err false).
  - split; [assumption|]. split; [reflexivity|]. split; [reflexivity|].
    right. split; [reflexivity|].
    destruct H0 as [->|H0]; [|congruence].
    eexists _, _, _, _, _. split; [left; reflexivity|].
    apply in_app_iff. right. right. left. reflexivity.
Qed.

(** What a turn of [copy_in] raises. *)
Lemma copy_in_turn_raised (f : FileSpec) (w : W) (t : Turn W)
    (e : PilotException) :
  copy_in_turn ec env opts f w t ->
  turn_raise t = Some e ->
  ignore_errors opts = false /\
  status_code (turn_file t) = exc_code e /\
  ((exists cmd rc out err,
      In (EvExecute cmd rc out err) (turn_events t) /\ rc <> 0 /\
      e = classified_exception ec true err /\
      status (turn_file t) = "failed" /\
      exc_state e = "COPY_ERROR" /\
      (exc_code e = STAGEINFAILED ec \/
       exc_code e = RUCIOSERVICEUNAVAILABLE ec)) \/
   (exists cmd out err a p st dg,
      In (EvExecute cmd 0 out err) (turn_events t) /\
      In (EvVerify a p (turn_file t) st dg) (turn_events t) /\
      exc_message e = dg /\ exc_state e = st /\ exc_code e <> 0)).
Proof.
  intros T Hr.
  destruct T; cbn [turn_file turn_events turn_raise] in *;
    try discriminate Hr; injection Hr as <-.
  - split; [assumption|]. split; [reflexivity|].
    left. exists (Py.join_spaces (copy_in_cmd opts f)), rc, out, err.
    split; [left; reflexivity|]. split; [assumption|].
    split; [reflexivity|]. split; [reflexivity|]. split.
    + unfold classified_exception. cbn [exc_state].
      unfold resolve_transfer_error. rewrite scan_lines_state. reflexivity.
    + apply (resolve_rcode_cases err true).
  - split; [assumption|]. split; [reflexivity|].
    right. destruct H1 as [->|H1]; [|congruence].
    eexists _, _, _, _, _, _, _. split; [left; reflexivity|].
    split; [apply in_app_iff; right; right; left; reflexivity|].
    cbn [exc_message exc_state exc_code]. auto.
Qed.

End Outcomes.

(** X7: every record [copy_out] gets to ends as [transferred] with code
    0, or as [failed] with the stage-out, the service-unavailable or the
    put-mismatch code; it is never left [remote_io]. *)
Theorem copy_out_status_closed (ec : ErrorCodes) (W : Type) (env : Env W)
    (opts : Options) (files : list FileSpec) (w : W) (n : nat)
    (evs : list Event) (f' : FileSpec) :
  run_trace (copy_out ec env opts files w) !! n = Some evs ->
  run_files (copy_out ec env opts files w) !! n = Some f' ->
  upload_status ec f'.
Proof.
  unfold copy_out. intros Hev Hf'. apply run_loop_reached in Hev.
  destruct Hev as (f & [wn summary] & _ & _ & _ & Hfile).
  assert (f' = turn_file (copy_out_body ec env opts f (wn, summary)))
    as -> by congruence.
  apply (copy_out_turn_status ec env opts f wn summary).
  apply copy_out_body_turn.
Qed.


(** X8: with [ignore_errors] unset, a call that returns has only
    successes: the result has one record for each record of the batch, at
    the same place; after [copy_in] every one has code 0 and the tag
    [remote_io] or [transferred]; after [copy_out] every one has code 0
    and the tag [transferred]. *)
Theorem strict_return_is_success (ec : ErrorCodes) (W : Type) (env : Env W)
    (opts : Options) (files : list FileSpec) (w : W) :
  ignore_errors opts = false ->
  (run_outcome (copy_in ec env opts files w) = Returned ->
   length (run_files (copy_in ec env opts files w)) = length files /\
   forall (n : nat) (f : FileSpec),
     files !! n = Some f ->
     exists f', run_files (copy_in ec env opts files w) !! n = Some f' /\
                status_code f' = 0 /\
                (status f' = "remote_io" \/ status f' = "transferred")) /\
  (run_outcome (copy_out ec env opts files w) = Returned ->
   length (run_files (copy_out ec env opts files w)) = length files /\
   forall (n : nat) (f : FileSpec),
     files !! n = Some f ->
     exists f', run_files (copy_out ec env opts files w) !! n = Some f' /\
                status_code f' = 0 /\ status f' = "transferred").
Proof.
  intros Hig. unfold copy_in, copy_out.
  split; intros Hret; (split; [apply run_files_length|]); intros n f Hf.
  - destruct (returned_lookup _ _ _ n f Hret Hf) as (sn & Hfile & Hq).
    eexists. split; [exact Hfile|].
    apply (copy_in_turn_clean ec env opts f sn _ Hig
             (copy_in_body_turn ec env opts f sn) Hq).
  - destruct (returned_lookup _ _ _ n f Hret Hf)
      as ([wn summary] & Hfile & Hq).
    eexists. split; [exact Hfile|].
    apply (copy_out_turn_clean ec env opts f wn summary _ Hig
             (copy_out_body_turn ec env opts f wn summary) Hq).
Qed.

(** X9: when [copy_out] raises, [ignore_errors] is unset, and the last
    record the loop got to is [failed] with the code the exception
    carries.  The exception is the classified error of that record's
    invocation, which exited with a nonzero code: state [COPY_ERROR],
    stage-out or service-unavailable code; or it is the put-mismatch
    exception, after an invocation that exited with zero and a summary
    that was loaded. *)
Theorem copy_out_exception (ec : ErrorCodes) (W : Type) (env : Env W)
    (opts : Options) (files : list FileSpec) (w : W) (e : PilotException) :
  run_outcome (copy_out ec env opts files w) = Raised e ->
  ignore_errors opts = false /\
  exists (n : nat) (evs : list Event) (f' : FileSpec),
    length (run_trace (copy_out ec env opts files w)) = Datatypes.S n /\
    run_trace (copy_out ec env opts files w) !! n = Some evs /\
    run_files (copy_out ec env opts files w) !! n = Some f' /\
    status f' = "failed" /\ status_code f' = exc_code e /\
    ((exists cmd rc out err,
        In (EvExecute cmd rc out err) evs /\ rc <> 0 /\
        e = classified_exception ec false err /\
        exc_state e = "COPY_ERROR" /\
        (exc_code e = STAGEOUTFAILED ec \/
         exc_code e = RUCIOSERVICEUNAVAILABLE ec)) \/
     (e = put_mismatch_exception ec /\
      exists cmd out err path loaded,
        In (EvExecute cmd 0 out err) evs /\
        In (EvLoadJson path loaded) evs)).
Proof.
  unfold copy_out. intros Hraised.
  destruct (run_loop_raised _ files _ e Hraised)
    as (n & f & [wn summary] & Hf & Hs & Hr & Hl).
  destruct (run_loop_lookup _ n files _ f _ Hf Hs) as [Ht Hfile].
  destruct (copy_out_turn_raised ec env opts f wn summary _ e
              (copy_out_body_turn ec env opts f wn summary) Hr)
    as (Hig & Hst & Hc & Hkind).
  split; [exact Hig|].
  eexists n, _, _. split; [exact Hl|]. split; [exact Ht|].
  split; [exact Hfile|]. split; [exact Hst|]. split; [exact Hc|exact Hkind].
Qed.


(** X10: when [copy_in] raises, [ignore_errors] is unset, and the last
    record the loop got to has the code the exception carries.  The
    exception is the classified error of that record's invocation, which
    exited with a nonzero code (the record is [failed], the state is
    [COPY_ERROR], the code the stage-in or the service-unavailable code);
    or the invocation exited with zero and the exception carries the
    diagnostics and the state the checksum collaborator returned, with
    the nonzero code it left in the record. *)
Theorem copy_in_exception (ec : ErrorCodes) (W : Type) (env : Env W)
    (opts : Options) (files : list FileSpec) (w : W) (e : PilotException) :
  run_outcome (copy_in ec env opts files w) = Raised e ->
  ignore_errors opts = false /\
  exists (n : nat) (evs : list Event) (f' : FileSpec),
    length (run_trace (copy_in ec env opts files w)) = Datatypes.S n /\
    run_trace (copy_in ec env opts files w) !! n = Some evs /\
    run_files (copy_in ec env opts files w) !! n = Some f' /\
    status_code f' = exc_code e /\
    ((exists cmd rc out err,
        In (EvExecute cmd rc out err) evs /\ rc <> 0 /\
        e = classified_exception ec true err /\
        status f' = "failed" /\
        exc_state e = "COPY_ERROR" /\
        (exc_code e = STAGEINFAILED ec \/
         exc_code e = RUCIOSERVICEUNAVAILABLE ec)) \/
     (exists cmd out err a p st dg,
        In (EvExecute cmd 0 out err) evs /\
        In (EvVerify a p f' st dg) evs /\
        exc_message e = dg /\ exc_state e = st /\ exc_code e <> 0)).
Proof.
  unfold copy_in. intros Hraised.
  destruct (run_loop_raised _ files _ e Hraised)
    as (n & f & sn & Hf & Hs & Hr & Hl).
  destruct (run_loop_lookup _ n files _ f _ Hf Hs) as [Ht Hfile].
  destruct (copy_in_turn_raised ec env opts f sn _ e
              (copy_in_body_turn ec env opts f sn) Hr)
    as (Hig & Hc & Hkind).
  split; [exact Hig|].
  eexists n, _, _. split; [exact Hl|]. split; [exact Ht|].
  split; [exact Hfile|]. split; [exact Hc|exact Hkind].
Qed.


(** * Invocations *)

Lemma count_execute_app (a b : list Event) :
  count_execute (a ++ b) = (count_execute a + count_execute b)%nat.
Proof.
  induction a as [|e a IH]; simpl; [reflexivity|]. rewrite IH. lia.
Qed.

Lemma count_execute_concat (tr : list (list Event)) (k : nat) :
  Forall (fun evs => (count_execute evs <= k)%nat) tr ->
  (count_execute (concat tr) <= k * length tr)%nat.
Proof.
  induction 1 as [|evs tr Hevs _ IH]; simpl; [lia|].
  rewrite count_execute_app. lia.
Qed.

Lemma count_execute_concat_one (tr : list (list Event)) :
  Forall (fun evs => count_execute evs = 1%nat) tr ->
  count_execute (concat tr) = length tr.
Proof.
  induction 1 as [|evs tr Hevs _ IH]; simpl; [reflexivity|].
  rewrite count_execute_app, Hevs, IH. reflexivity.
Qed.

Section Invocations.

Variable ec : ErrorCodes.
Context {W : Type}.
Variable env : Env W.
Variable opts : Options.

Lemma copy_out_turn_one_invocation (f : FileSpec) (w : W)
    (summary : SummaryVar) (t : Turn (W * SummaryVar)) :
  copy_out_turn ec env opts f w summary t ->
  count_execute (turn_events t) = 1%nat.
Proof.
  intros T. destruct T; cbn [turn_events];
    rewrite ?count_execute_app; reflexivity.
Qed.

Lemma copy_in_turn_one_invocation (f : FileSpec) (w : W) (t : Turn W) :
  copy_in_turn ec env opts f w t ->
  count_execute (turn_events t)
  = if is_directaccess env f && allow_direct_access opts then 0%nat
    else 1%nat.
Proof.
  intros T. destruct T; cbn [turn_events];
    rewrite ?count_execute_app;
    match goal with H : _ && _ = _ |- _ => rewrite H end; reflexivity.
Qed.

End Invocations.

(** X11: no invocation is made twice.  [copy_out] makes exactly one
    invocation for each record it gets to; [copy_in] makes one for each
    record it gets to that is not read remotely, and none for the
    others.  Over a whole call the invocations of [copy_out] are as many
    as the records reached, and those of [copy_in] at most as many; in
    both cases at most the size of the batch. *)
Theorem one_invocation_per_record (ec : ErrorCodes) (W : Type)
    (env : Env W) (opts : Options) (files : list FileSpec) (w : W) :
  (forall (n : nat) (evs : list Event),
     run_trace (copy_out ec env opts files w) !! n = Some evs ->
     count_execute evs = 1%nat) /\
  (forall (n : nat) (f : FileSpec) (evs : list Event),
     files !! n = Some f ->
     run_trace (copy_in ec env opts files w) !! n = Some evs ->
     count_execute evs
     = if is_directaccess env f && allow_direct_access opts then 0%nat
       else 1%nat) /\
  (count_execute (concat (run_trace (copy_out ec env opts files w)))
   = length (run_trace (copy_out ec env opts files w)) /\
   (length (run_trace (copy_out ec env opts files w)) <= length files)%nat) /\
  (count_execute (concat (run_trace (copy_in ec env opts files w)))
   <= length files)%nat.
Proof.
  assert (Hout : forall (n : nat) (evs : list Event),
            run_trace (copy_out ec env opts files w) !! n = Some evs ->
            count_execute evs = 1%nat).
  { unfold copy_out. intros n evs Hev. apply run_loop_reached in Hev.
    destruct Hev as (f & [wn summary] & _ & _ & -> & _).
    apply (copy_out_turn_one_invocation ec env opts f wn summary).
    apply copy_out_body_turn. }
  assert (Hin : forall (n : nat) (f : FileSpec) (evs : list Event),
            files !! n = Some f ->
            run_trace (copy_in ec env opts files w) !! n = Some evs ->
            count_execute evs
            = if is_directaccess env f && allow_direct_access opts
              then 0%nat else 1%nat).
  { unfold copy_in. intros n f evs Hf Hev. apply run_loop_reached in Hev.
    destruct Hev as (g & sn & Hg & _ & -> & _).
    assert (g = f) as -> by congruence.
    apply (copy_in_turn_one_invocation ec env opts f sn).
    apply copy_in_body_turn. }
  split; [exact Hout|]. split; [exact Hin|]. split; [split|].
  - apply count_execute_concat_one. apply Forall_lookup_2. exact Hout.
  - unfold copy_out. apply run_trace_length.
  - assert (Hle : (count_execute
                     (concat (run_trace (copy_in ec env opts files w)))
                   <= 1 * length (run_trace (copy_in ec env opts files w)))%nat).
    { apply count_execute_concat. apply Forall_lookup_2. intros n evs Hev.
      assert (Hn : (n < length files)%nat).
      { apply lookup_lt_Some in Hev.
        pose proof (run_trace_length (copy_in_body ec env opts) files
                      (setenv env "RUCIO_LOGGING_FORMAT" logging_format w)).
        unfold copy_in in Hev. lia. }
      apply lookup_lt_is_Some_2 in Hn. destruct Hn as [f Hf].
      rewrite (Hin n f evs Hf Hev).
      destruct (is_directaccess env f && allow_direct_access opts); lia. }
    pose proof (run_trace_length (copy_in_body ec env opts) files
                  (setenv env "RUCIO_LOGGING_FORMAT" logging_format w)).
    unfold copy_in in *. lia.
Qed.


(** * The summary option and the entries of the summary *)

(** X12: when [copy_out] is called with the summary option off, every
    record it gets to has its invocation, without [--summary], as its only
    events; no summary file is looked for, the [turl] of the record is
    left as it was and the status code comes from the exit code alone. *)
Theorem copy_out_without_summary (ec : ErrorCodes) (W : Type) (env : Env W)
    (opts : Options) (files : list FileSpec) (w : W) (n : nat)
    (f f' : FileSpec) (evs : list Event) :
  opt_summary opts = false ->
  files !! n = Some f ->
  run_trace (copy_out ec env opts files w) !! n = Some evs ->
  run_files (copy_out ec env opts files w) !! n = Some f' ->
  exists rc out err,
    evs = execute_events
            (Py.join_spaces (copy_out_cmd opts (SummaryFlag false) f))
            rc out err /\
    turl f' = turl f /\
    status_code f'
    = (if bool_decide (rc = 0) then 0
       else rcode (resolve_transfer_error ec err false)).
Proof.
  unfold copy_out. intros Hopt Hf Hev Hf'. rewrite Hopt in *.
  apply run_loop_reached in Hev.
  destruct Hev as (g & [wn summary] & Hg & Hs & -> & Hfile).
  assert (g = f) as -> by congruence.
  assert (f' = turn_file (copy_out_body ec env opts f (wn, summary)))
    as -> by congruence.
  assert (Hfalse : summary_truthy summary = false).
  { apply (state_before_preserved (copy_out_body ec env opts)
             (fun s => summary_truthy s.2 = false)
             (copy_out_body_keeps_false ec env opts)
             0%nat files
             (setenv env "RUCIO_LOGGING_FORMAT" logging_format w,
              SummaryFlag false)
             n
             (setenv env "RUCIO_LOGGING_FORMAT" logging_format w,
              SummaryFlag false)
             (wn, summary)); [lia|reflexivity|reflexivity|exact Hs]. }
  destruct (copy_out_turn_without_summary ec env opts f wn summary _ Hfalse
              (copy_out_body_turn ec env opts f wn summary))
    as (_ & rc & out & err & Hevs & Hturl & _ & Hcode).
  exists rc, out, err. split; [exact Hevs|]. split; assumption.
Qed.


Section MissingEntry.

Variable ec : ErrorCodes.
Context {W : Type}.
Variable env : Env W.
Variable opts : Options.

Lemma summary_entry_missing (d : SummaryJson) (key : string) :
  d !! key = None -> summary_entry d key = ∅.
Proof. intros H. unfold summary_entry. rewrite H. reflexivity. Qed.

Lemma adler32_not_compared (f : FileSpec) :
  adler32_mismatch f None = false.
Proof.
  unfold adler32_mismatch. cbn [Py.truthy].
  rewrite andb_false_r. reflexivity.
Qed.

Lemma status_code_marked_turl (g : FileSpec) (u : option string) :
  status_code (mark_transferred (set_turl g u))
  = status_code (mark_transferred g).
Proof.
  unfold mark_transferred. cbn [status_code set_turl].
  destruct (bool_decide (status_code g = 0)); reflexivity.
Qed.

Lemma copy_out_turn_missing_entry (f : FileSpec) (w : W)
    (summary : SummaryVar) (t : Turn (W * SummaryVar)) (path : string)
    (loaded : SummaryJson) :
  copy_out_turn ec env opts f w summary t ->
  In (EvLoadJson path loaded) (turn_events t) ->
  loaded !! summary_key f = None ->
  turn_raise t = None /\
  turl (turn_file t) = None /\
  (forall e, In e (turn_events t) -> is_warning e = false) /\
  exists cmd rc out err,
    In (EvExecute cmd rc out err) (turn_events t) /\
    status_code (turn_file t)
    = (if bool_decide (rc = 0) then 0
       else rcode (resolve_transfer_error ec err false)).
Proof.
  intros T Hin Hkey.
  destruct T; cbn [turn_events turn_file turn_raise] in *; in_events Hin.
  - assert (Hdat : dat = ∅) by (apply summary_entry_missing; exact Hkey).
    split; [reflexivity|]. split.
    + rewrite mark_transferred_turl. cbn [turl set_turl].
      rewrite Hdat. apply lookup_empty.
    + split.
      * intros e He. in_events He; subst; reflexivity.
      * exists (Py.join_spaces (copy_out_cmd opts summary f)), rc, out, err.
        split; [left; reflexivity|].
        rewrite status_code_marked_turl.
        apply status_code_after_transfer.
  - exfalso.
    assert (Hdat : dat = ∅) by (apply summary_entry_missing; exact Hkey).
    rewrite Hdat, lookup_empty, adler32_not_compared in H3. discriminate H3.
  - exfalso.
    assert (Hdat : dat = ∅) by (apply summary_entry_missing; exact Hkey).
    rewrite Hdat, lookup_empty, adler32_not_compared in H3. discriminate H3.
Qed.

End MissingEntry.

(** X13: in [copy_out], when the summary file loaded for a record has no
    entry for the key [scope:lfn] of the record, the [turl] of the record
    becomes [None], whatever it was, nothing is compared or warned about,
    the turn does not raise, and the status code comes from the exit code
    alone. *)
Theorem summary_without_entry (ec : ErrorCodes) (W : Type) (env : Env W)
    (opts : Options) (files : list FileSpec) (w : W) (n : nat)
    (f : FileSpec) (evs : list Event) (path : string)
    (loaded : SummaryJson) :
  files !! n = Some f ->
  run_trace (copy_out ec env opts files w) !! n = Some evs ->
  In (EvLoadJson path loaded) evs ->
  loaded !! summary_key f = None ->
  exists f' cmd rc out err,
    run_files (copy_out ec env opts files w) !! n = Some f' /\
    turl f' = None /\
    (forall e, In e evs -> is_warning e = false) /\
    In (EvExecute cmd rc out err) evs /\
    status_code f'
    = (if bool_decide (rc = 0) then 0
       else rcode (resolve_transfer_error ec err false)) /\
    (forall e, run_outcome (copy_out ec env opts files w) = Raised e ->
       (Datatypes.S n
        < length (run_trace (copy_out ec env opts files w)))%nat).
Proof.
  unfold copy_out. intros Hf Hev Hin Hkey.
  apply run_loop_reached in Hev.
  destruct Hev as (g & [wn summary] & Hg & Hs & -> & Hfile).
  assert (g = f) as -> by congruence.
  destruct (copy_out_turn_missing_entry ec env opts f wn summary _ path
              loaded (copy_out_body_turn ec env opts f wn summary) Hin Hkey)
    as (Hq & Hturl & Hwarn & cmd & rc & out & err & Hexec & Hcode).
  eexists _, cmd, rc, out, err. split; [exact Hfile|].
  split; [exact Hturl|]. split; [exact Hwarn|]. split; [exact Hexec|].
  split; [exact Hcode|].
  apply (quiet_turn_goes_on _ files _ n f (wn, summary) Hf Hs Hq).
Qed.

End Interpreter.

(** * The two classes of white space *)

Lemma skip_spaces_bytes_suffix (s : string) :
  exists pre : string, s = pre ++ Py.skip_spaces_bytes s.
Proof.
  induction s as [|c s [pre IH]]; simpl.
  - exists "". reflexivity.
  - destruct (Py.is_space_bytes c).
    + exists (String c pre). rewrite string_app_cons. f_equal. exact IH.
    + exists "". reflexivity.
Qed.

Lemma skip_spaces_bytes_idem (s : string) :
  Py.skip_spaces_bytes (Py.skip_spaces_bytes s) = Py.skip_spaces_bytes s.
Proof.
  induction s as [|c s IH]; simpl; [reflexivity|].
  destruct (Py.is_space_bytes c) eqn:E; [exact IH|].
  simpl. rewrite E. reflexivity.
Qed.

Lemma graphic_not_space_bytes (c : ascii) :
  is_graphic c = true -> Py.is_space_bytes c = false.
Proof.
  destruct c as [[] [] [] [] [] [] [] []]; intros H;
    try discriminate H; reflexivity.
Qed.

(** The white space of a bytes pattern is a lawful [\s*]. *)
Lemma bytes_blanks_lawful : blanks_lawful bytes_blanks.
Proof.
  unfold blanks_lawful, bytes_blanks, skip_blanks. repeat split.
  - apply skip_spaces_bytes_suffix.
  - apply skip_spaces_bytes_idem.
  - intros c s H. simpl. rewrite (graphic_not_space_bytes c H). reflexivity.
Qed.

Lemma blank_at_str_shorter (s r : string) :
  Py.blank_at_str s = Some r ->
  (exists pre : string, s = pre ++ r) /\
  (String.length r < String.length s)%nat.
Proof.
  unfold Py.blank_at_str. intros H.
  destruct s as [|c s]; [discriminate|].
  destruct (Py.one_byte_space (N_of_ascii c)).
  { injection H as <-. split; [exists (String c ""); reflexivity|simpl; lia]. }
  destruct s as [|d s]; [discriminate|].
  destruct (Py.two_byte_space (N_of_ascii c) (N_of_ascii d)).
  { injection H as <-.
    split; [exists (String c (String d "")); reflexivity|simpl; lia]. }
  destruct s as [|e s]; [discriminate|].
  destruct (Py.three_byte_space (N_of_ascii c) (N_of_ascii d) (N_of_ascii e));
    [|discriminate].
  injection H as <-.
  split; [exists (String c (String d (String e ""))); reflexivity|simpl; lia].
Qed.

Lemma skip_blank_chars_suffix (n : nat) :
  forall s : string, exists pre : string, s = pre ++ Py.skip_blank_chars n s.
Proof.
  induction n as [|n IH]; intros s; simpl.
  - exists "". reflexivity.
  - destruct (Py.blank_at_str s) as [r|] eqn:E; [|exists ""; reflexivity].
    destruct (blank_at_str_shorter s r E) as [[p Hp] _].
    destruct (IH r) as [q Hq].
    exists (p ++ q). rewrite string_app_assoc, <- Hq. exact Hp.
Qed.

(** The length of the text is fuel enough: no white space is left. *)
Lemma skip_blank_chars_done (n : nat) :
  forall s : string,
    (String.length s <= n)%nat ->
    Py.blank_at_str (Py.skip_blank_chars n s) = None.
Proof.
  induction n as [|n IH]; intros s Hn; simpl.
  - destruct s; [reflexivity|simpl in Hn; lia].
  - destruct (Py.blank_at_str s) as [r|] eqn:E; [|exact E].
    apply IH. destruct (blank_at_str_shorter s r E) as [_ Hlt]. lia.
Qed.

Lemma skip_blank_chars_fixed (n : nat) (s : string) :
  Py.blank_at_str s = None -> Py.skip_blank_chars n s = s.
Proof. intros H. destruct n; simpl; [reflexivity|]. rewrite H. reflexivity. Qed.

Lemma graphic_not_blank_str (c : ascii) (s : string) :
  is_graphic c = true -> Py.blank_at_str (String c s) = None.
Proof.
  destruct c as [[] [] [] [] [] [] [] []]; intros H; try discriminate H;
    destruct s as [|d [|e s]]; reflexivity.
Qed.

(** The white space of a str pattern of Python 3 is a lawful [\s*]. *)
Lemma str_blanks_lawful : blanks_lawful str_blanks.
Proof.
  unfold blanks_lawful, str_blanks, skip_blanks, Py.skip_spaces_str.
  repeat split.
  - intros s. apply skip_blank_chars_suffix.
  - intros s. apply skip_blank_chars_fixed.
    apply skip_blank_chars_done. lia.
  - intros c s H. apply skip_blank_chars_fixed.
    apply graphic_not_blank_str. exact H.
Qed.

(** The characters 0x1C to 0x1F and the white space of Unicode outside
    ASCII are white space for a str pattern and not for a bytes pattern:
    after [Details] the first matches, the second does not. *)
Lemma white_space_of_str_and_bytes :
  let line := "Details" ++ String "031"%char ": service_unavailable" in
  let wide := "Details" ++ String "226"%char (String "128"%char
                (String "131"%char ": x")) in
  @search_details str_blanks line = Some "service_unavailable" /\
  @search_details bytes_blanks line = None /\
  @search_details str_blanks wide = Some "x" /\
  @search_details bytes_blanks wide = None.
Proof. repeat split; vm_compute; reflexivity. Qed.

(** * The examples

    They are run with the white space of a str pattern of Python 3. *)

#[export] Existing Instance str_blanks.

Lemma resolve_service_unavailable_witness :
  let output := "Details: no space" ++ nl ++
                "ERROR [service_unavailable]" ++ nl ++ "done" in
  rcode (resolve_transfer_error test_codes output true) = 1316 /\
  error (resolve_transfer_error test_codes output true)
  = "service_unavailable".
Proof.
  intros output.
  destruct (resolve_service_unavailable test_codes output true
              ["Details: no space"] ["done"] "ERROR [service_unavailable]"
              eq_refl eq_refl eq_refl) as [Hcode Hmsg].
  split; [exact Hcode|].
  apply Hmsg. repeat constructor.
Defined.

(** C1 as stated fails: a [Details:] line after the marker replaces the
    message, and a marker on a line that matches the [Details:] pattern
    does not change the code. *)
Lemma marker_does_not_always_win :
  let later := "service_unavailable" ++ nl ++ "Details: disk full" in
  let same_line := "Details: service_unavailable" in
  (has_marker_line later /\
   error (resolve_transfer_error test_codes later true)
   <> "service_unavailable") /\
  (has_marker_line same_line /\
   rcode (resolve_transfer_error test_codes same_line true)
   <> RUCIOSERVICEUNAVAILABLE test_codes).
Proof.
  split; split.
  - exists "service_unavailable". split; [left; reflexivity|reflexivity].
  - vm_compute. discriminate.
  - exists "Details: service_unavailable".
    split; [left; reflexivity|reflexivity].
  - vm_compute. discriminate.
Qed.

Lemma resolve_transfer_error_cases_witness :
  error (resolve_transfer_error test_codes
           ("Details: old" ++ nl ++ "Details: disk full" ++ nl ++ "bye")
           true) = "disk full" /\
  resolve_transfer_error test_codes "connection reset" false
  = {| rcode := 1137; state := "COPY_ERROR";
       error := "Copy operation failed [is_stagein=False]: " ++
                "connection reset" |}.
Proof.
  split.
  - apply (proj1 (resolve_transfer_error_cases str_blanks_lawful
                    test_codes
                    ("Details: old" ++ nl ++ "Details: disk full" ++ nl ++
                     "bye") true)
             ["Details: old"] ["bye"] eq_refl).
    repeat constructor.
  - destruct (proj1 (proj2 (resolve_transfer_error_cases str_blanks_lawful
                    test_codes
                              "connection reset" false)))
      as (Hc & Hs & He).
    + intros (l & Hin & Hl). destruct Hin as [<-|[]]. apply Hl. reflexivity.
    + intros (l & Hin & Hl). destruct Hin as [<-|[]]. discriminate Hl.
    + destruct (resolve_transfer_error test_codes "connection reset" false)
        as [c s e]. simpl in *. subst. reflexivity.
Defined.

(** C9 as stated fails: a text with the line [Details: disk full] and a
    later line that matches gets the later message. *)
Lemma details_line_not_always_the_message :
  let output := "Details: disk full" ++ nl ++ "Details: quota exceeded" in
  In "Details: disk full" (Py.split_lines output) /\
  error (resolve_transfer_error test_codes output true) <> "disk full".
Proof.
  split.
  - left. reflexivity.
  - vm_compute. discriminate.
Qed.

Lemma summary_stops_after_empty_witness :
  let env := scripted_env no_direct [] ["./rucio_upload.json"] [] ∅ in
  let files := [test_file "file1" "deadbeef"; test_file "file2" "cafef00d"] in
  exists fj',
    run_files (copy_out test_codes env (test_opts false) files 0%nat)
      !! 1%nat = Some fj' /\
    turl fj' = None /\ status_code fj' = 0.
Proof.
  intros env files.
  pose (evk := turn_events (copy_out_body test_codes env (test_opts false)
                              (test_file "file1" "deadbeef")
                              (0%nat, SummaryFlag true))).
  pose (evj := turn_events (copy_out_body test_codes env (test_opts false)
                              (test_file "file2" "cafef00d")
                              (1%nat, SummaryDict ∅))).
  destruct (summary_stops_after_empty test_codes nat env (test_opts false)
              files 0%nat 0%nat 1%nat evk evj "./rucio_upload.json"
              (test_file "file2" "cafef00d") eq_refl)
    as (_ & rc & out & err & fj' & Hevs & _ & Hfile & Hturl & _ & Hcode);
    [right; right; right; right; left; reflexivity
    |lia|reflexivity|reflexivity|].
  assert (Hrc : rc = 0).
  { apply (f_equal (fun l => match l with
                             | EvExecute _ rc _ _ :: _ => rc
                             | _ => 1
                             end)) in Hevs.
    symmetry. exact Hevs. }
  exists fj'. subst rc. split; [exact Hfile|]. split; assumption.
Defined.

Lemma status_invariant_witness :
  let env := scripted_env direct_by_surl [(0, ""); (1, "Details: gone")]
                          ["./f1"; "./f2"] ["./f1"] test_artifact in
  let files := [test_file "f1" "deadbeef"; remote_file "r";
                test_file "f2" "cafef00d"; test_file "f3" "deadbeef"] in
  (exists f',
     run_files (copy_in test_codes env (test_opts true) files 0%nat) !! 2%nat
     = Some f' /\ status_consistent f') /\
  (exists f',
     run_files (copy_out test_codes env (test_opts true) files 0%nat) !! 1%nat
     = Some f' /\ status_consistent f').
Proof.
  intros env files.
  destruct (status_invariant test_codes nat env (test_opts true) files 0%nat
              test_codes_nonzero
              (scripted_env_keeps_status _ _ _ _ _)) as [Hin Hout].
  split.
  - destruct Hin as [_ Hall]; [vm_compute; reflexivity|].
    apply (Hall 2%nat (test_file "f2" "cafef00d") eq_refl).
  - destruct Hout as [_ Hall]; [vm_compute; reflexivity|].
    apply (Hall 1%nat (remote_file "r") eq_refl).
Defined.

Lemma failed_transfer_status_witness :
  let env := scripted_env no_direct [(0, ""); (3, "Details: disk full")]
                          ["./f1"] [] ∅ in
  let files := [test_file "f1" "a"; test_file "f2" "b"; test_file "f3" "c"] in
  run_outcome (copy_in test_codes env (test_opts false) files 0%nat)
  = Raised {| exc_message := "disk full"; exc_code := 1099;
              exc_state := "COPY_ERROR" |} /\
  exists f',
    run_files (copy_out test_codes env (test_opts true) files 0%nat) !! 1%nat
    = Some f' /\ status f' = "failed" /\ status_code f' = 1137.
Proof.
  intros env files. split.
  - pose (evs := turn_events (copy_in_body test_codes env (test_opts false)
                                (test_file "f2" "b") 1%nat)).
    edestruct (failed_transfer_status test_codes nat env (test_opts false)
                 files 0%nat 1%nat evs
                 (Py.join_spaces (copy_in_cmd (test_opts false)
                                              (test_file "f2" "b")))
                 3 "" "Details: disk full")
      as [Hcopy_in _]; [discriminate|left; reflexivity|].
    destruct (Hcopy_in eq_refl) as (f' & _ & Hstrict & _).
    destruct (Hstrict eq_refl) as (_ & _ & Ho). exact Ho.
  - pose (evs := turn_events (copy_out_body test_codes env (test_opts true)
                                (test_file "f2" "b")
                                (1%nat, SummaryFlag true))).
    edestruct (failed_transfer_status test_codes nat env (test_opts true)
                 files 0%nat 1%nat evs
                 (Py.join_spaces (copy_out_cmd (test_opts true)
                                    (SummaryFlag true) (test_file "f2" "b")))
                 3 "" "Details: disk full")
      as [_ Hcopy_out]; [discriminate|left; reflexivity|].
    destruct (Hcopy_out eq_refl) as (f' & Hfile & _ & Hlenient).
    destruct (Hlenient eq_refl test_codes_nonzero) as (Hs & _ & Hc).
    exists f'. split; [exact Hfile|]. split; [exact Hs|].
    apply Hc. intros e He. vm_compute in He.
    destruct_or! He; subst; try reflexivity; try contradiction.
Defined.

(** C5 as stated fails: with [ignore_errors] set, the digest of the
    summary is compared after a failed upload too, and the code of the
    classifier is replaced. *)
Lemma failed_upload_code_replaced :
  let env := scripted_env no_direct [(1, "connection reset")]
                          ["./rucio_upload.json"] [] test_artifact in
  let r := copy_out test_codes env (test_opts true)
                    [test_file "file1" "cafef00d"] 0%nat in
  run_outcome r = Returned /\
  exists cmd evs f',
    run_trace r !! 0%nat = Some evs /\
    In (EvExecute cmd 1 "" "connection reset") evs /\
    run_files r !! 0%nat = Some f' /\
    status_code f'
    <> rcode (resolve_transfer_error test_codes "connection reset" false).
Proof.
  intros env r. split; [vm_compute; reflexivity|].
  eexists _, _, _. split; [vm_compute; reflexivity|].
  split; [left; reflexivity|].
  split; [vm_compute; reflexivity|].
  vm_compute. discriminate.
Qed.

Lemma copy_in_direct_access_witness :
  let env := scripted_env direct_by_surl [] [] [] ∅ in
  let files := [remote_file "r1"; test_file "f2" "deadbeef"] in
  let r := copy_in test_codes env (test_opts false) files 0%nat in
  run_trace r !! 0%nat = Some [] /\
  is_Some (run_trace r !! 1%nat).
Proof.
  intros env files r.
  destruct (copy_in_direct_access test_codes nat env (test_opts false)
              files 0%nat 0%nat (remote_file "r1")
              eq_refl eq_refl eq_refl) as [Hquiet Hnext].
  split.
  - destruct (Hquiet (turn_events
                        (copy_in_body test_codes env (test_opts false)
                                      (remote_file "r1") 0%nat)) eq_refl)
      as [Hevs _].
    unfold r. rewrite <- Hevs. reflexivity.
  - apply Hnext; eexists; reflexivity.
Defined.


Lemma summary_digest_check_witness :
  let env := scripted_env no_direct [] ["./rucio_upload.json"] []
                          test_artifact in
  (exists f',
     run_files (copy_out test_codes env (test_opts false)
                         [test_file "file1" "deadbeef"] 0%nat) !! 0%nat
     = Some f' /\
     turl f' = Some "https://x/file1" /\
     status_code f' = 0 /\ status f' = "transferred") /\
  run_outcome (copy_out test_codes env (test_opts false)
                        [test_file "file1" "cafef00d"] 0%nat)
  = Raised {| exc_message := "Failed to stageout: CRC mismatched";
              exc_code := 1172; exc_state := "AD_MISMATCH" |}.
Proof.
  intros env.
  assert (Hentry : test_artifact !! "scopeA:file1" = Some test_entry)
    by reflexivity.
  split.
  - pose (evs := turn_events (copy_out_body test_codes env (test_opts false)
                                (test_file "file1" "deadbeef")
                                (0%nat, SummaryFlag true))).
    destruct (summary_digest_check test_codes nat env (test_opts false)
                [test_file "file1" "deadbeef"] 0%nat 0%nat
                (test_file "file1" "deadbeef") evs "./rucio_upload.json"
                test_artifact test_entry "https://x/file1" "deadbeef"
                eq_refl eq_refl) as (f' & Hfile & Hturl & Hsame & _);
      [right; right; right; right; left; reflexivity
      |exact Hentry|reflexivity|reflexivity|].
    destruct (Hsame eq_refl
                (Py.join_spaces (copy_out_cmd (test_opts false)
                                   (SummaryFlag true)
                                   (test_file "file1" "deadbeef")))
                "" "" (or_introl eq_refl)) as [Hc Ht].
    exists f'. repeat split; assumption.
  - pose (evs := turn_events (copy_out_body test_codes env (test_opts false)
                                (test_file "file1" "cafef00d")
                                (0%nat, SummaryFlag true))).
    destruct (summary_digest_check test_codes nat env (test_opts false)
                [test_file "file1" "cafef00d"] 0%nat 0%nat
                (test_file "file1" "cafef00d") evs "./rucio_upload.json"
                test_artifact test_entry "https://x/file1" "deadbeef"
                eq_refl eq_refl) as (f' & _ & _ & _ & Hdiff);
      [right; right; right; right; left; reflexivity
      |exact Hentry|reflexivity|reflexivity|].
    destruct (Hdiff "cafef00d" eq_refl) as [Hstrict _];
      [discriminate|discriminate|discriminate|].
    destruct (Hstrict eq_refl) as (_ & _ & Ho). exact Ho.
Defined.

(** C8 as stated fails.  After an upload that exited with a nonzero code
    a summary with the expected digest does not make the record
    [transferred], and with [ignore_errors] unset a summary with another
    digest does not make the call raise [AD_MISMATCH]; an empty expected
    digest is not compared. *)
Lemma summary_does_not_decide_alone :
  let env := scripted_env no_direct [(1, "connection reset")]
                          ["./rucio_upload.json"] [] test_artifact in
  let good := test_file "file1" "deadbeef" in
  let bad := test_file "file1" "cafef00d" in
  let env0 := scripted_env no_direct [] ["./rucio_upload.json"] []
                           test_artifact in
  (run_outcome (copy_out test_codes env (test_opts true) [good] 0%nat)
   = Returned /\
   (status <$> run_files (copy_out test_codes env (test_opts true)
                                   [good] 0%nat)) = ["failed"] /\
   (status_code <$> run_files (copy_out test_codes env (test_opts true)
                                        [good] 0%nat)) = [1137]) /\
  (run_outcome (copy_out test_codes env (test_opts false) [bad] 0%nat)
   = Raised {| exc_message := "Copy operation failed [is_stagein=False]: "
                              ++ "connection reset";
               exc_code := 1137; exc_state := "COPY_ERROR" |}) /\
  (run_outcome (copy_out test_codes env0 (test_opts false)
                         [test_file "file1" ""] 0%nat) = Returned /\
   (status <$> run_files (copy_out test_codes env0 (test_opts false)
                                   [test_file "file1" ""] 0%nat))
   = ["transferred"]).
Proof.
  repeat split; vm_compute; reflexivity.
Qed.

Lemma missing_artifacts_are_soft_witness :
  let env := scripted_env no_direct [] [] [] ∅ in
  let f := test_file "f1" "deadbeef" in
  run_files (copy_in test_codes env (test_opts false) [f] 0%nat) !! 0%nat
  = Some (set_status (set_status_code f 0) "transferred") /\
  exists f',
    run_files (copy_out test_codes env (test_opts false) [f] 0%nat) !! 0%nat
    = Some f' /\
    turl f' = turl f /\ status_code f' = 0 /\ status f' = "transferred".
Proof.
  intros env f. split.
  - assert (Hin : In (EvExists "./f1" false)
                     (turn_events (copy_in_body test_codes env
                                     (test_opts false) f 0%nat))).
    { right. right. right. left. reflexivity. }
    destruct (missing_artifacts_are_soft test_codes nat env
                (test_opts false) [f] 0%nat 0%nat _ _ Hin)
      as (_ & Hcopy_in & _).
    destruct (Hcopy_in
                "/usr/bin/env rucio -v download --no-subdir --dir . --rse RSE_A scopeA:f1"
                "" "" eq_refl (or_introl eq_refl))
      as (g & Hg & _ & Hfile & _).
    injection Hg as <-. exact Hfile.
  - assert (Hin : In (EvExists "./rucio_upload.json" false)
                     (turn_events (copy_out_body test_codes env
                                     (test_opts false) f
                                     (0%nat, SummaryFlag true)))).
    { right. right. right. left. reflexivity. }
    destruct (missing_artifacts_are_soft test_codes nat env
                (test_opts false) [f] 0%nat 0%nat _ _ Hin)
      as (_ & _ & Hcopy_out).
    destruct (Hcopy_out eq_refl)
      as (g & g' & cmd & rc & out & err & Hg & Hevs & Hfile & Hturl & _ &
          Hcode & Htag & _).
    injection Hg as <-.
    assert (Hrc : rc = 0).
    { apply (f_equal (fun l => match l with
                               | EvExecute _ rc _ _ :: _ => rc
                               | _ => 1
                               end)) in Hevs.
      symmetry. exact Hevs. }
    exists g'. subst rc. repeat split; auto.
Defined.

Lemma resolve_transfer_error_append_witness :
  error (resolve_transfer_error test_codes
           ("Details: first" ++ nl ++ "x service_unavailable") false)
  = "service_unavailable".
Proof.
  rewrite (proj2 (resolve_transfer_error_append test_codes "Details: first"
                    "x service_unavailable" false) eq_refl).
  reflexivity.
Defined.

Lemma details_message_of_line_witness :
  is_Some (search_details "2018 ERROR [Details:   no space left]") /\
  skip_blanks "no space left]" = "no space left]".
Proof.
  destruct (details_message_of_line str_blanks_lawful
              ("one" ++ nl ++ "2018 ERROR [Details:   no space left]")
              "2018 ERROR [Details:   no space left]"
              (or_intror (or_introl eq_refl))) as [Hmatch Hgroup].
  split; [apply Hmatch; reflexivity|].
  apply (Hgroup "no space left]" eq_refl).
Defined.

Lemma copy_out_keeps_identity_witness :
  let env := scripted_env no_direct [(1, "connection reset")]
                          ["./rucio_upload.json"] [] test_artifact in
  let f := test_file "file1" "cafef00d" in
  exists f',
    run_files (copy_out test_codes env (test_opts false) [f; f] 0%nat)
      !! 1%nat = Some f' /\
    same_identity f f'.
Proof.
  intros env f. eexists. split; [reflexivity|].
  apply (proj2 (copy_out_keeps_identity test_codes nat env (test_opts false)
                  [f; f] 0%nat) 1%nat f _ eq_refl eq_refl).
Defined.

Lemma copy_in_keeps_identity_witness :
  let env := scripted_env no_direct [(2, "Details: gone")] [] [] ∅ in
  let f := test_file "f1" "deadbeef" in
  exists f',
    run_files (copy_in test_codes env (test_opts true) [f] 0%nat) !! 0%nat
    = Some f' /\
    same_identity f f' /\ turl f' = turl f.
Proof.
  intros env f. eexists. split; [reflexivity|].
  destruct (copy_in_keeps_identity test_codes nat env (test_opts true)
              [f] 0%nat 0%nat f _ eq_refl eq_refl)
    as [(Hid & Hturl & _)|(evs & a & p & f2 & st & dg & Hev & Hin & _)].
  - split; assumption.
  - exfalso. vm_compute in Hev. injection Hev as <-.
    cbn [In] in Hin. destruct_or! Hin; try discriminate Hin; contradiction.
Defined.

Lemma copy_out_status_closed_witness :
  let env := scripted_env no_direct [(0, ""); (1, "x service_unavailable")]
                          [] [] ∅ in
  let files := [test_file "f1" "a"; test_file "f2" "b"] in
  upload_status test_codes
    (set_status
       (set_status_code (test_file "f2" "b")
                        (RUCIOSERVICEUNAVAILABLE test_codes)) "failed").
Proof.
  intros env files.
  apply (copy_out_status_closed test_codes nat env (test_opts true) files
           0%nat 1%nat
           (turn_events (copy_out_body test_codes env (test_opts true)
                           (test_file "f2" "b") (1%nat, SummaryFlag true))));
    reflexivity.
Defined.

Lemma strict_return_is_success_witness :
  let env := scripted_env direct_by_surl [] ["./f1"] [] ∅ in
  let files := [test_file "f1" "a"; remote_file "r"] in
  length (run_files (copy_in test_codes env (test_opts false) files 0%nat))
  = 2%nat /\
  exists f',
    run_files (copy_in test_codes env (test_opts false) files 0%nat) !! 1%nat
    = Some f' /\
    status_code f' = 0 /\
    (status f' = "remote_io" \/ status f' = "transferred").
Proof.
  intros env files.
  destruct (proj1 (strict_return_is_success test_codes nat env
                     (test_opts false) files 0%nat eq_refl))
    as [Hlen Hall]; [vm_compute; reflexivity|].
  split; [exact Hlen|].
  apply (Hall 1%nat (remote_file "r") eq_refl).
Defined.

Lemma copy_out_exception_witness :
  let env := scripted_env no_direct [(0, ""); (1, "x service_unavailable")]
                          [] [] ∅ in
  let files := [test_file "f1" "a"; test_file "f2" "b"; test_file "f3" "c"] in
  exists (n : nat) (f' : FileSpec),
    length (run_trace (copy_out test_codes env (test_opts false) files 0%nat))
    = Datatypes.S n /\
    run_files (copy_out test_codes env (test_opts false) files 0%nat) !! n
    = Some f' /\
    status f' = "failed" /\ status_code f' = 1316.
Proof.
  intros env files.
  destruct (copy_out_exception test_codes nat env (test_opts false) files
              0%nat
              {| exc_message := "service_unavailable"; exc_code := 1316;
                 exc_state := "COPY_ERROR" |} eq_refl)
    as (_ & n & evs & f' & Hl & _ & Hf' & Hst & Hc & _).
  exists n, f'. auto.
Defined.

Lemma copy_in_exception_witness :
  let env := scripted_env no_direct [] ["./f1"] ["./f1"] ∅ in
  let files := [test_file "f1" "a"; test_file "f2" "b"] in
  exists (n : nat) (f' : FileSpec),
    length (run_trace (copy_in test_codes env (test_opts false) files 0%nat))
    = Datatypes.S n /\
    run_files (copy_in test_codes env (test_opts false) files 0%nat) !! n
    = Some f' /\
    status_code f' = 1171.
Proof.
  intros env files.
  destruct (copy_in_exception test_codes nat env (test_opts false) files
              0%nat
              {| exc_message := "checksum verification failed";
                 exc_code := 1171; exc_state := "AD_MISMATCH" |} eq_refl)
    as (_ & n & evs & f' & Hl & _ & Hf' & Hc & _).
  exists n, f'. auto.
Defined.

Lemma one_invocation_per_record_witness :
  let env := scripted_env direct_by_surl [(0, ""); (1, "boom")]
                          ["./f1"] [] ∅ in
  let files := [test_file "f1" "a"; remote_file "r"; test_file "f2" "b"] in
  exists evs,
    run_trace (copy_in test_codes env (test_opts true) files 0%nat) !! 1%nat
    = Some evs /\
    count_execute evs = 0%nat.
Proof.
  intros env files. eexists. split; [reflexivity|].
  apply (proj1 (proj2 (one_invocation_per_record test_codes nat env
                         (test_opts true) files 0%nat))
           1%nat (remote_file "r") _ eq_refl eq_refl).
Defined.

Lemma copy_out_without_summary_witness :
  let env := scripted_env no_direct [] ["./rucio_upload.json"] []
                          test_artifact in
  let opts := {| allow_direct_access := false; ignore_errors := false;
                 opt_workdir := None; no_register := true;
                 opt_summary := false |} in
  let f := test_file "file1" "cafef00d" in
  exists f',
    run_files (copy_out test_codes env opts [f] 0%nat) !! 0%nat = Some f' /\
    turl f' = None.
Proof.
  intros env opts f. eexists. split; [reflexivity|].
  destruct (copy_out_without_summary test_codes nat env opts [f] 0%nat
              0%nat f _
              (turn_events (copy_out_body test_codes env opts f
                              (0%nat, SummaryFlag false)))
              eq_refl eq_refl eq_refl eq_refl)
    as (rc & out & err & _ & Hturl & _).
  exact Hturl.
Defined.

Lemma summary_without_entry_witness :
  let env := scripted_env no_direct [] ["./rucio_upload.json"] []
                          test_artifact in
  let f := set_turl (test_file "file2" "cafef00d") (Some "https://x/fixed") in
  exists f',
    run_files (copy_out test_codes env (test_opts false) [f] 0%nat) !! 0%nat
    = Some f' /\
    turl f' = None /\ status_code f' = 0.
Proof.
  intros env f.
  destruct (summary_without_entry test_codes nat env (test_opts false) [f]
              0%nat 0%nat f
              (turn_events (copy_out_body test_codes env (test_opts false) f
                              (0%nat, SummaryFlag true)))
              "./rucio_upload.json" test_artifact eq_refl eq_refl)
    as (f' & cmd & rc & out & err & Hf' & Hturl & _ & Hexec & Hcode & _).
  - right. right. right. right. left. reflexivity.
  - reflexivity.
  - exists f'. split; [exact Hf'|]. split; [exact Hturl|].
    vm_compute in Hexec.
    destruct_or! Hexec; try discriminate Hexec; try contradiction.
    injection Hexec as _ <- _ _. exact Hcode.
Defined.

Lemma batch_short_circuit_witness :
  let env := scripted_env no_direct [(0, ""); (1, "Details: gone"); (0, "")]
                          ["./f1"; "./f2"; "./f3"] [] ∅ in
  let files := [test_file "f1" "a"; test_file "f2" "b"; test_file "f3" "c"] in
  (exists e,
     run_outcome (copy_in test_codes env (test_opts false) files 0%nat)
     = Raised e /\
     run_trace (copy_in test_codes env (test_opts false) files 0%nat)
       !! 2%nat = None) /\
  (run_outcome (copy_in test_codes env (test_opts true) files 0%nat)
   = Returned /\
   exists evs f',
     run_trace (copy_in test_codes env (test_opts true) files 0%nat)
       !! 2%nat = Some evs /\
     run_files (copy_in test_codes env (test_opts true) files 0%nat)
       !! 2%nat = Some f').
Proof.
  intros env files. split.
  - edestruct (proj1 (batch_short_circuit test_codes nat env
                        (test_opts false) files 0%nat) eq_refl 1%nat)
      as [Hin _].
    edestruct Hin as (e & He & Hrest).
    { vm_compute. reflexivity. }
    { left. eexists _, 1, _, _. split; [left; reflexivity|discriminate]. }
    exists e. split; [exact He|]. apply (Hrest 2%nat). lia.
  - destruct (proj2 (batch_short_circuit test_codes nat env
                       (test_opts true) files 0%nat) eq_refl)
      as [[Ho Hall] _].
    split; [exact Ho|].
    destruct (Hall 2%nat (test_file "f3" "c") eq_refl)
      as (evs & f' & Ht & Hf' & _).
    exists evs, f'. split; assumption.
Defined.

(** C4 fails on [copy_out]: line 149 gives the variable [summary], the
    option of the call, the parsed summary file of a record.  With
    [ignore_errors] set, the same second record, whose own invocation
    exits with zero and whose own summary file has another digest than
    the expected one, ends [transferred] when the summary loaded for the
    first record was empty and [failed] with the put-mismatch code when
    it was not; the two worlds differ in the summary of the first record
    only. *)
Lemma later_record_depends_on_earlier_summary :
  let files := [test_file "file0" "0badcafe"; test_file "file1" "cafef00d"] in
  let quiet := copy_out test_codes (staged_env ∅) (test_opts true)
                        files 0%nat in
  let loud := copy_out test_codes (staged_env first_artifact) (test_opts true)
                       files 0%nat in
  (forall (path : string) (w : nat),
     w <> 1%nat ->
     json_load (staged_env ∅) path w
     = json_load (staged_env first_artifact) path w) /\
  run_outcome quiet = Returned /\ run_outcome loud = Returned /\
  (status <$> run_files quiet) = ["transferred"; "transferred"] /\
  (status <$> run_files loud) = ["transferred"; "failed"] /\
  (status_code <$> run_files loud) = [0; PUTADMISMATCH test_codes].
Proof.
  intros files quiet loud. split.
  - intros path w Hw. simpl. destruct (Nat.eqb_spec w 1); [contradiction|].
    reflexivity.
  - repeat split; vm_compute; reflexivity.
Qed.
